(* ===================================================================== *)
(* EzyVoting backend (backend-flask/app): a shallow embedding of the      *)
(* request handlers that keep the local bookkeeping of elections, vote    *)
(* receipts, cached results and voters, and the properties they have.     *)
(*                                                                        *)
(* Conventions of the embedding                                           *)
(*  - The relational store is a record of tables; a table is the list of  *)
(*    its rows in primary-key order together with its autoincrement       *)
(*    counter.  `Query.first()` is the first matching row of that list.   *)
(*    A JSON value written to a string column, or compared with one in a  *)
(*    filter, is bound as the driver binds it (bind_text): the filter     *)
(*    compares the bound text exactly, and null is IS NULL.  A            *)
(*    nullable=False column refuses NULL, an INTEGER column refuses an    *)
(*    integer out of its range, which is the engine's                     *)
(*    (Platform.integer_fits), and elections.onchain_id refuses a value   *)
(*    another row has.  The lengths of strings and the values of Enum     *)
(*    columns are left to the storage engine and are not modelled.  The   *)
(*    unique constraints of votes_metadata and voters are predicates      *)
(*    that are PROVED of every state the handlers can produce.            *)
(*  - `services.Web3Service` is not among the sources.  It is the record  *)
(*    Web3Service.t of the calls the handlers make; a call either returns *)
(*    a value or raises (type `chain`).                                   *)
(*  - Strings are sequences of ASCII characters; a JSON number is an      *)
(*    integer that the database driver can bind.  DateTime values are     *)
(*    seconds (Z); `datetime.utcnow()` is the argument `now` of a         *)
(*    handler; `datetime.fromisoformat` is a parameter                    *)
(*    (Platform.fromisoformat) that tells a naive datetime from one with  *)
(*    a UTC offset.  The body of a request to an endpoint is a JSON       *)
(*    object; validate_json_any covers the other JSON values.             *)
(*  - A handler returns the new store and the HTTP response.  An          *)
(*    exception that no `except` catches gives ServerError and the store  *)
(*    as it was (the session is discarded).  Authentication, rate limits  *)
(*    and the audit log are external collaborators: a handler is entered  *)
(*    after its auth decorator has let the request through.               *)
(* ===================================================================== *)

From Stdlib Require Import ZArith Ascii String List Bool Lia Sorted DecimalString.
From stdpp Require Import base option gmap strings list.
Import ListNotations.
Local Open Scope Z_scope.
Local Open Scope string_scope.
Set Warnings "-register-all".

(* --------------------------------------------------------------------- *)
(* Python strings: str.strip() and str.lower() on ASCII                   *)
(* --------------------------------------------------------------------- *)
Module Py.

(* str.isspace() for one ASCII character: \t \n \v \f \r, 0x1c-0x1f, ' ' *)
Definition isspace (a : ascii) : bool :=
  let n := nat_of_ascii a in
  ((9 <=? n)%nat && (n <=? 13)%nat) || ((28 <=? n)%nat && (n <=? 32)%nat).

Fixpoint lstrip (s : string) : string :=
  match s with
  | EmptyString => EmptyString
  | String a s' => if isspace a then lstrip s' else s
  end.

Fixpoint rstrip (s : string) : string :=
  match s with
  | EmptyString => EmptyString
  | String a s' =>
      match rstrip s' with
      | EmptyString => if isspace a then EmptyString else String a EmptyString
      | r => String a r
      end
  end.

Definition strip (s : string) : string := rstrip (lstrip s).

Definition lower_char (a : ascii) : ascii :=
  let n := nat_of_ascii a in
  if ((65 <=? n)%nat && (n <=? 90)%nat) then ascii_of_nat (n + 32) else a.

Fixpoint lower (s : string) : string :=
  match s with
  | EmptyString => EmptyString
  | String a s' => String (lower_char a) (lower s')
  end.

(* ', '.join(xs) *)
Fixpoint join (sep : string) (xs : list string) : string :=
  match xs with
  | [] => ""
  | [x] => x
  | x :: rest => x ++ sep ++ join sep rest
  end.

(* truthiness of an optional string column: None and '' are falsy *)
Definition truthy (o : option string) : bool :=
  match o with
  | Some EmptyString | None => false
  | Some _ => true
  end.

(* max(xs, default=0) *)
Definition max_default0 (xs : list Z) : Z :=
  match xs with
  | [] => 0
  | x :: rest => fold_left Z.max rest x
  end.

(* the whitespace int() skips around a number: ' ' and \t \n \v \f \r
   (0x1c-0x1f are whitespace for str.strip() only) *)
Definition isspace_c (a : ascii) : bool :=
  let n := nat_of_ascii a in
  ((9 <=? n)%nat && (n <=? 13)%nat) || (n =? 32)%nat.

Fixpoint lstrip_c (s : string) : string :=
  match s with
  | EmptyString => EmptyString
  | String a s' => if isspace_c a then lstrip_c s' else s
  end.

Fixpoint rstrip_c (s : string) : string :=
  match s with
  | EmptyString => EmptyString
  | String a s' =>
      match rstrip_c s' with
      | EmptyString => if isspace_c a then EmptyString else String a EmptyString
      | r => String a r
      end
  end.

(* int(s) for a decimal ASCII string: optional sign, digits, single
   underscores between digits, surrounding whitespace ignored *)
Definition digit (a : ascii) : option Z :=
  let n := nat_of_ascii a in
  if ((48 <=? n)%nat && (n <=? 57)%nat) then Some (Z.of_nat (n - 48)) else None.

(* [after_digit] tells whether the previous character was a digit (an
   underscore is allowed only between two digits) *)
Fixpoint digits (acc : Z) (after_digit : bool) (s : string) : option Z :=
  match s with
  | EmptyString => if after_digit then Some acc else None
  | String a s' =>
      match digit a with
      | Some d => digits (10 * acc + d) true s'
      | None =>
          if (Ascii.eqb a "_" && after_digit)%bool then
            match s' with
            | EmptyString => None
            | String b _ => match digit b with Some _ => digits acc false s' | None => None end
            end
          else None
      end
  end.

Definition int_of_str (s : string) : option Z :=
  match rstrip_c (lstrip_c s) with
  | String "-" r => Z.opp <$> digits 0 false r
  | String "+" r => digits 0 false r
  | r => digits 0 false r
  end.

(* str(n) *)
Definition str_of_int (n : Z) : string :=
  NilZero.string_of_int (Z.to_int n).

(* x in s for two strings *)
Fixpoint contains (x s : string) : bool :=
  String.prefix x s
  || match s with
     | EmptyString => false
     | String _ rest => contains x rest
     end.

End Py.

(* --------------------------------------------------------------------- *)
(* JSON values of a request body                                          *)
(* --------------------------------------------------------------------- *)
Inductive json :=
| JNull
| JBool (b : bool)
| JNum (n : Z)
| JStr (s : string)
| JArr (xs : list json)
| JObj (kv : list (string * json)).

(* the body of a request: a JSON object, as `request.get_json()` gives it *)
Abbreviation body := (gmap string json).

(* a value used where the code needs a `str`: a str method is called on
   it, or it is given to datetime.fromisoformat (another JSON type raises
   there) *)
Definition as_str (j : json) : option string :=
  match j with JStr s => Some s | _ => None end.

(* data.get(key) when the request gives a string or nothing for it:
   absent and null are None *)
Definition get_opt_str (data : body) (key : string) : option (option string) :=
  match data !! key with
  | None | Some JNull => Some None
  | Some (JStr s) => Some (Some s)
  | Some _ => None
  end.

(* a JSON value bound as the parameter of a string column: a string as it
   is, null as NULL, a number or a boolean as the text the store keeps
   for it; the driver refuses an array or an object (None) *)
Definition bind_text (j : json) : option (option string) :=
  match j with
  | JNull => Some None
  | JStr s => Some (Some s)
  | JNum n => Some (Some (Py.str_of_int n))
  | JBool b => Some (Some (if b then "1" else "0"))
  | JArr _ | JObj _ => None
  end.

(* the same for a column that is nullable=False: NULL is refused too *)
Definition bind_text_required (j : json) : option string :=
  match bind_text j with
  | Some (Some s) => Some s
  | _ => None
  end.

(* a JSON value bound as the parameter of an Enum column: only a string
   or null gets past the type's own lookup *)
Definition bind_enum (j : json) : option (option string) :=
  match j with
  | JNull => Some None
  | JStr s => Some (Some s)
  | _ => None
  end.

(* bool(x) of a parsed JSON value *)
Definition py_bool (j : json) : bool :=
  match j with
  | JNull => false
  | JBool b => b
  | JNum n => negb (n =? 0)%Z
  | JStr s => negb (String.eqb s "")
  | JArr xs => match xs with [] => false | _ => true end
  | JObj kv => match kv with [] => false | _ => true end
  end.

(* a parsed JSON object as a dict: a later duplicate member wins *)
Definition members (kv : list (string * json)) : body :=
  list_to_map (reverse kv).

(* x == f for a value x and a str f *)
Definition is_str (f : string) (x : json) : bool :=
  match x with
  | JStr s => String.eqb s f
  | _ => false
  end.

(* a failed step of a handler: the exception is raised *)
Definition require (b : bool) : option unit :=
  if b then Some tt else None.

(* c[key] and c.get(key, default) on a JSON object written as a list of
   members (a later duplicate member wins, as in json.loads) *)
Fixpoint obj_get (kv : list (string * json)) (key : string) : option json :=
  match kv with
  | [] => None
  | (k, v) :: rest =>
      match obj_get rest key with
      | Some v' => Some v'
      | None => if String.eqb k key then Some v else None
      end
  end.

(* len(x); None is the TypeError of a value without a length *)
Definition py_len (j : json) : option nat :=
  match j with
  | JArr xs => Some (List.length xs)
  | JStr s => Some (String.length s)
  | JObj kv => Some (List.length (remove_dups (map fst kv)))
  | _ => None
  end.

(* int(x) *)
Definition py_int (j : json) : option Z :=
  match j with
  | JNum n => Some n
  | JBool b => Some (if b then 1 else 0)
  | JStr s => Py.int_of_str s
  | _ => None
  end.

(* --------------------------------------------------------------------- *)
(* Ledger calls                                                           *)
(* --------------------------------------------------------------------- *)

(* a ledger call: it returns, or raises an exception with a message *)
Inductive chain (A : Type) :=
| Returns (a : A)
| Raises (msg : string).
Arguments Returns {A} a.
Arguments Raises {A} msg.

(* --------------------------------------------------------------------- *)
(* What the handlers take from the platform                               *)
(* --------------------------------------------------------------------- *)

(* a datetime, as seconds: naive, or aware of its UTC offset; comparing a
   naive one with an aware one raises TypeError *)
Inductive datetime :=
| Naive (seconds : Z)
| Aware (seconds : Z).

Module Platform.
Record t := mk {
  (* datetime.fromisoformat; None when it raises *)
  fromisoformat : string -> option datetime;
  (* whether an integer fits the INTEGER type of the store *)
  integer_fits : Z -> bool
}.
End Platform.

(* --------------------------------------------------------------------- *)
(* models.py                                                              *)
(* --------------------------------------------------------------------- *)
Inductive election_status := Pending | Active | Reveal | Tallying | Finalized | Cancelled.
Inductive vote_phase := Committed | Revealed.

#[global] Instance election_status_eq_dec : EqDecision election_status.
Proof. solve_decision. Defined.
#[global] Instance vote_phase_eq_dec : EqDecision vote_phase.
Proof. solve_decision. Defined.

Module Voter.
Record t := mk {
  id : Z;
  name : string;
  identity_hash : string;
  wallet_address : string;
  constituency_id : Z;
  is_registered_onchain : bool;
  tx_hash : option string;
  is_active : bool;
  created_at : Z
}.
End Voter.

Module Election.
Record t := mk {
  id : Z;
  onchain_id : option Z;
  name : string;
  description : option string;
  election_type : option string;
  constituency_id : Z;
  ballot_address : option string;
  commit_deadline : Z;
  reveal_deadline : Z;
  status : election_status;
  created_by : Z;
  tx_hash : option string;
  created_at : Z;
  updated_at : Z
}.
End Election.

Module Candidate.
Record t := mk {
  id : Z;
  election_id : Z;
  onchain_id : option Z;
  name : string;
  party : option string;
  description : option string;
  created_at : Z
}.
End Candidate.

Module VoteMetadata.
Record t := mk {
  id : Z;
  election_id : Z;
  voter_address : string;
  receipt_hash : string;
  commit_tx_hash : option string;
  reveal_tx_hash : option string;
  phase : vote_phase;
  committed_at : Z;
  revealed_at : option Z
}.
End VoteMetadata.

Module Result.
Record t := mk {
  id : Z;
  election_id : Z;
  candidate_id : Z;
  candidate_name : string;
  party : string;
  vote_count : Z;
  total_commits : Z;
  total_reveals : Z;
  is_winner : bool;
  synced_at : Z
}.
End Result.

(* the store: the tables the handlers below read and write, each with the
   next value of its autoincrement key *)
Record Database := mkDatabase {
  voters : list Voter.t;
  elections : list Election.t;
  next_election_id : Z;
  candidates : list Candidate.t;
  next_candidate_id : Z;
  votes_metadata : list VoteMetadata.t;
  next_vote_id : Z;
  results : list Result.t;
  next_result_id : Z
}.

Definition empty_db : Database :=
  mkDatabase [] [] 1 [] 1 [] 1 [] 1.

(* __table_args__ of VoteMetadata: UniqueConstraint("election_id",
   "voter_address"), as a property of the table: no two rows have the
   same pair *)
Definition vote_key (m : VoteMetadata.t) : Z * string :=
  (VoteMetadata.election_id m, VoteMetadata.voter_address m).

Definition uq_vote_election_voter (rows : list VoteMetadata.t) : Prop :=
  NoDup (map vote_key rows).

(* Election.query.filter_by(ballot_address=a).first() *)
Definition election_by_ballot (db : Database) (a : string) : option Election.t :=
  List.find (fun e => bool_decide (Election.ballot_address e = Some a)) (elections db).

(* Election.query.filter_by(ballot_address=v).first() for a value [v] of
   the request, bound as for a string column: null is rendered IS NULL
   and finds an election that has no ballot; the driver refuses an array
   or an object (None) *)
Definition election_filter_by_ballot (db : Database) (v : json)
  : option (option Election.t) :=
  match bind_text v with
  | Some (Some a) => Some (election_by_ballot db a)
  | Some None =>
      Some (List.find (fun e => bool_decide (Election.ballot_address e = None))
                      (elections db))
  | None => None
  end.

(* Election.query.get_or_404(election_id) *)
Definition election_get (db : Database) (election_id : Z) : option Election.t :=
  List.find (fun e => Z.eqb (Election.id e) election_id) (elections db).

(* VoteMetadata.query.filter_by(election_id=e, voter_address=v).first() *)
Definition vote_by_pair (db : Database) (e : Z) (v : string) : option VoteMetadata.t :=
  List.find (fun m => Z.eqb (VoteMetadata.election_id m) e
                      && bool_decide (VoteMetadata.voter_address m = v))
            (votes_metadata db).

(* --------------------------------------------------------------------- *)
(* services.Web3Service: the ledger client, as the handlers call it       *)
(* --------------------------------------------------------------------- *)
Module Web3Service.

(* one entry of get_ballot_results: keys id, name, party, vote_count *)
Record ballot_result := mk_result {
  id : Z;
  name : string;
  party : string;
  vote_count : Z
}.

(* get_election_info: keys total_commits, total_reveals, phase,
   is_finalized, is_cancelled *)
Record election_info := mk_info {
  total_commits : Z;
  total_reveals : Z;
  phase : json;
  is_finalized : bool;
  is_cancelled : bool
}.

Record t := mk {
  (* create_election(name, description, commit_deadline, reveal_deadline,
       candidate_names, candidate_parties, constituency_id, election_type)
     returns (onchain_id, ballot_address); the name, the description and
     the candidates' names and parties are the values of the request *)
  create_election :
    json -> json -> Z -> Z -> list json -> list json -> Z -> Z ->
    chain (Z * string);
  get_ballot_results : string -> chain (list ballot_result);
  get_election_info : string -> chain election_info;
  (* get_ballot_contract(ballot_address) followed by
     _send_tx(ballot.functions.cancelElection, reason); the transaction
     hash is returned *)
  send_cancel_election : string -> json -> chain string;
  is_voter_eligible : string -> chain bool;
  get_voter_info : string -> chain json
}.

End Web3Service.

(* --------------------------------------------------------------------- *)
(* HTTP responses                                                         *)
(* --------------------------------------------------------------------- *)

(* the payload of a successful response, next to "ok": True *)
Inductive reply :=
| ReceiptId (receiptId : Z)
| Empty
| Message (message : string)
| Created (election : Election.t) (ballotAddress : option string) (onchainId : option Z)
| Synced (results : list Web3Service.ballot_result) (synced : nat)
| Eligibility (wallet : string) (eligible : bool) (info : json).

Inductive response :=
| Success (code : nat) (data : reply)    (* {"ok": True, ...}, code *)
| Failure (code : nat) (error : string)  (* {"error": ...}, code *)
| ServerError.                           (* uncaught exception: HTTP 500 *)

Definition status_code (r : response) : nat :=
  match r with
  | Success c _ | Failure c _ => c
  | ServerError => 500
  end.

(* an exception that reaches Flask: the session is dropped, the store is
   what it was when the request came in *)
Definition unhandled (db : Database) (r : option (Database * response))
  : Database * response :=
  default (db, ServerError) r.

(* --------------------------------------------------------------------- *)
(* middleware/__init__.py                                                 *)
(* --------------------------------------------------------------------- *)
Module Middleware.

(* f not in data or data[f] == "" *)
Definition is_missing (data : body) (f : string) : bool :=
  match data !! f with
  | None => true
  | Some (JStr EmptyString) => true
  | Some _ => false
  end.

(* the decorator validate_json with its required fields: [request_json] is
   request.get_json(silent=True), None when the request carries no JSON;
   an empty object is falsy as well *)
Definition validate_json {S} (required_fields : list string)
    (fn : S -> body -> S * response)
    (st : S) (request_json : option body) : S * response :=
  match request_json with
  | None => (st, Failure 400 "JSON body required")
  | Some data =>
      if bool_decide (data = ∅) then (st, Failure 400 "JSON body required")
      else
        match List.filter (is_missing data) required_fields with
        | [] => fn st data
        | missing => (st, Failure 400 ("Missing fields: " ++ Py.join ", " missing))
        end
  end.

(* validate_json on whatever JSON value the request carries; [f0 :: fs]
   are the required fields (every use names at least one).  On an object
   it is validate_json above.  On another truthy value the comprehension
   tests `f not in data` and then reads data[f]: a number or True is not
   iterable (TypeError); an array holding f, or a string containing f,
   cannot be indexed by f (TypeError); otherwise every field counts as
   missing *)
Definition validate_json_any {S} (f0 : string) (fs : list string)
    (fn : S -> body -> S * response)
    (st : S) (request_json : option json) : S * response :=
  let required_fields := f0 :: fs in
  match request_json with
  | None => (st, Failure 400 "JSON body required")
  | Some data =>
      if negb (py_bool data) then (st, Failure 400 "JSON body required")
      else
        match data with
        | JObj kv => validate_json required_fields fn st (Some (members kv))
        | JArr xs =>
            if existsb (fun f => existsb (is_str f) xs) required_fields
            then (st, ServerError)
            else (st, Failure 400 ("Missing fields: " ++ Py.join ", " required_fields))
        | JStr s =>
            if existsb (fun f => Py.contains f s) required_fields
            then (st, ServerError)
            else (st, Failure 400 ("Missing fields: " ++ Py.join ", " required_fields))
        | _ => (st, ServerError)
        end
  end.

End Middleware.

(* --------------------------------------------------------------------- *)
(* routes/blockchain.py                                                   *)
(* --------------------------------------------------------------------- *)
Module Blockchain.

Definition add_vote (db : Database) (meta : VoteMetadata.t) : Database :=
  mkDatabase (voters db) (elections db) (next_election_id db)
             (candidates db) (next_candidate_id db)
             (votes_metadata db ++ [meta]) (next_vote_id db + 1)%Z
             (results db) (next_result_id db).

(* the row [meta] written back under its primary key *)
Definition update_vote (db : Database) (meta : VoteMetadata.t) : Database :=
  mkDatabase (voters db) (elections db) (next_election_id db)
             (candidates db) (next_candidate_id db)
             (map (fun m => if Z.eqb (VoteMetadata.id m) (VoteMetadata.id meta)
                            then meta else m) (votes_metadata db))
             (next_vote_id db)
             (results db) (next_result_id db).

(* the body of record_commit, after validate_json *)
Definition record_commit_fn (now : Z) (db : Database) (data : body)
  : option (Database * response) :=
  ballot_address ← data !! "ballotAddress";
  commit_hash ← data !! "commitHash";
  voter_address ← Py.lower <$> (Py.strip <$> as_str (default (JStr "") (data !! "voterAddress")));
  (* Find election by ballot address *)
  found ← election_filter_by_ballot db ballot_address;
  match found with
  | None => Some (db, Failure 404 "Election not found for ballot")
  | Some election =>
      match vote_by_pair db (Election.id election) voter_address with
      | Some existing => Some (db, Failure 409 "Already committed for this election")
      | None =>
          receipt_hash ← bind_text_required commit_hash;
          commit_tx_hash ← bind_text (default JNull (data !! "txHash"));
          let meta := VoteMetadata.mk (next_vote_id db) (Election.id election)
                        voter_address receipt_hash commit_tx_hash None
                        Committed now None in
          Some (add_vote db meta, Success 200 (ReceiptId (VoteMetadata.id meta)))
      end
  end.

(* POST /vote/commit: @validate_json("ballotAddress", "commitHash") *)
Definition record_commit (now : Z) : Database -> option body -> Database * response :=
  Middleware.validate_json ["ballotAddress"; "commitHash"]
    (fun db data => unhandled db (record_commit_fn now db data)).

(* the body of record_reveal, after validate_json *)
Definition record_reveal_fn (now : Z) (db : Database) (data : body)
  : option (Database * response) :=
  voter_address ← Py.lower <$> (Py.strip <$> (data !! "voterAddress" ≫= as_str));
  ballot_address ← data !! "ballotAddress";
  found ← election_filter_by_ballot db ballot_address;
  match found with
  | None => Some (db, Failure 404 "Election not found")
  | Some election =>
      match vote_by_pair db (Election.id election) voter_address with
      | None => Some (db, Failure 404 "No commit found")
      | Some meta =>
          reveal_tx_hash ← bind_text (default JNull (data !! "txHash"));
          let meta' := VoteMetadata.mk (VoteMetadata.id meta)
                         (VoteMetadata.election_id meta)
                         (VoteMetadata.voter_address meta)
                         (VoteMetadata.receipt_hash meta)
                         (VoteMetadata.commit_tx_hash meta)
                         reveal_tx_hash Revealed
                         (VoteMetadata.committed_at meta) (Some now) in
          Some (update_vote db meta', Success 200 Empty)
      end
  end.

(* POST /vote/reveal: @validate_json("ballotAddress", "voterAddress") *)
Definition record_reveal (now : Z) : Database -> option body -> Database * response :=
  Middleware.validate_json ["ballotAddress"; "voterAddress"]
    (fun db data => unhandled db (record_reveal_fn now db data)).

End Blockchain.

(* --------------------------------------------------------------------- *)
(* routes/elections.py                                                    *)
(* --------------------------------------------------------------------- *)
Module Elections.

(* an assignment to election.status; the row is written (and updated_at
   refreshed by its onupdate) only when the value changes *)
Definition set_status (now : Z) (e : Election.t) (s : election_status) : Election.t :=
  if decide (Election.status e = s) then e
  else Election.mk (Election.id e) (Election.onchain_id e) (Election.name e)
         (Election.description e) (Election.election_type e)
         (Election.constituency_id e) (Election.ballot_address e)
         (Election.commit_deadline e) (Election.reveal_deadline e)
         s (Election.created_by e) (Election.tx_hash e)
         (Election.created_at e) now.

(* the row [e] written back under its primary key *)
Definition update_election (db : Database) (e : Election.t) : Database :=
  mkDatabase (voters db)
             (map (fun x => if Z.eqb (Election.id x) (Election.id e) then e else x)
                  (elections db))
             (next_election_id db)
             (candidates db) (next_candidate_id db)
             (votes_metadata db) (next_vote_id db)
             (results db) (next_result_id db).

(* one turn of the loop over data["candidates"]: the Candidate row of the
   item [c], with the key the store will give it *)
Definition candidate_row (now election_id : Z) (id : Z) (c : json) : option Candidate.t :=
  match c with
  | JObj kv =>
      name ← obj_get kv "name" ≫= bind_text_required;
      party ← bind_text (default (JStr "Independent") (obj_get kv "party"));
      description ← bind_text (default (JStr "") (obj_get kv "description"));
      Some (Candidate.mk id election_id None name party description now)
  | _ => None
  end.

(* what the loop appends to candidate_names and candidate_parties for the
   item [c]: c["name"] and c.get("party", "Independent") *)
Definition name_of (c : json) : json :=
  match c with
  | JObj kv => default JNull (obj_get kv "name")
  | _ => JNull
  end.

Definition party_of (c : json) : json :=
  match c with
  | JObj kv => default (JStr "Independent") (obj_get kv "party")
  | _ => JNull
  end.


Fixpoint candidate_rows (now election_id : Z) (id : Z) (cs : list json)
  : option (list Candidate.t) :=
  match cs with
  | [] => Some []
  | c :: rest =>
      cand ← candidate_row now election_id id c;
      rows ← candidate_rows now election_id (id + 1)%Z rest;
      Some (cand :: rows)
  end.

Section CreateElection.

Variable env : Platform.t.

(* create_election from "Off-chain record first" on: the request has
   passed the three checks *)
Definition create_election_rows (now current_user_id : Z) (ws : Web3Service.t)
    (db : Database) (data : body) (commit_dt reveal_dt : Z)
  : option (Database * response) :=
  constituency_id ← py_int (default (JNum 0) (data !! "constituencyId"));
  let election_type := default (JStr "general") (data !! "electionType") in
  name ← data !! "name";
  description ← data !! "description";
  (* Off-chain record first: the row as the flush writes it *)
  name_col ← bind_text_required name;
  description_col ← bind_text description;
  election_type_col ← bind_enum election_type;
  fits ← require (Platform.integer_fits env constituency_id);
  let election :=
    Election.mk (next_election_id db) None name_col description_col
      election_type_col constituency_id None commit_dt reveal_dt Pending
      current_user_id None now now in
  items ← match data !! "candidates" with Some (JArr xs) => Some xs | _ => None end;
  cands ← candidate_rows now (Election.id election) (next_candidate_id db) items;
  let candidate_names := map name_of items in
  let candidate_parties := map party_of items in
  (* On-chain deployment *)
  let deployed :=
    Web3Service.create_election ws name description commit_dt reveal_dt
      candidate_names candidate_parties constituency_id
      match election_type with
      | JStr s => if String.eqb s "general" then 0%Z else 1%Z
      | _ => 1%Z
      end in
  (* onchain_id is unique=True: the commit fails on an id that another
     election has *)
  unique ← require
             match deployed with
             | Returns (onchain_id, _) =>
                 negb (existsb (fun e => bool_decide (Election.onchain_id e
                                                       = Some onchain_id))
                               (elections db))
             | Raises _ => true
             end;
  let election :=
    match deployed with
    | Returns (onchain_id, ballot_address) =>
        Election.mk (Election.id election) (Some onchain_id) name_col
          description_col election_type_col constituency_id
          (Some ballot_address) commit_dt reveal_dt Active current_user_id
          None now now
    | Raises _ => election        (* status stays "pending": can be retried *)
    end in
  Some (mkDatabase (voters db)
          (elections db ++ [election]) (next_election_id db + 1)%Z
          (candidates db ++ cands)
          (next_candidate_id db + Z.of_nat (List.length cands))%Z
          (votes_metadata db) (next_vote_id db)
          (results db) (next_result_id db),
        Success 201 (Created election (Election.ballot_address election)
                                      (Election.onchain_id election))).

(* the body of create_election, after admin_required (which sets
   g.current_user) and validate_json *)
Definition create_election_fn (now current_user_id : Z) (ws : Web3Service.t)
    (db : Database) (data : body) : option (Database * response) :=
  commit_dt ← (data !! "commitDeadline" ≫= as_str) ≫= Platform.fromisoformat env;
  reveal_dt ← (data !! "revealDeadline" ≫= as_str) ≫= Platform.fromisoformat env;
  match commit_dt with
  | Aware _ => None        (* commit_dt <= datetime.utcnow(): TypeError *)
  | Naive commit_dt =>
      if (commit_dt <=? now)%Z then
        Some (db, Failure 400 "Commit deadline must be in the future")
      else
        match reveal_dt with
        | Aware _ => None  (* reveal_dt <= commit_dt: TypeError *)
        | Naive reveal_dt =>
            if (reveal_dt <=? commit_dt)%Z then
              Some (db, Failure 400 "Reveal deadline must be after commit deadline")
            else
              match data !! "candidates" ≫= py_len with
              | None => None
              | Some n =>
                  if (n <? 2)%nat then
                    Some (db, Failure 400 "At least 2 candidates required")
                  else
                    create_election_rows now current_user_id ws db data
                      commit_dt reveal_dt
              end
        end
  end.

(* POST /: @validate_json("name", "description", "commitDeadline",
   "revealDeadline", "candidates") *)
Definition create_election (now current_user_id : Z) (ws : Web3Service.t)
  : Database -> option body -> Database * response :=
  Middleware.validate_json
    ["name"; "description"; "commitDeadline"; "revealDeadline"; "candidates"]
    (fun db data => unhandled db (create_election_fn now current_user_id ws db data)).

End CreateElection.

(* the Result row of one fetched entry [r] *)
Definition cached_row (now election_id max_votes : Z)
    (info : Web3Service.election_info) (id : Z) (r : Web3Service.ballot_result)
  : Result.t :=
  Result.mk id election_id (Web3Service.id r) (Web3Service.name r)
    (Web3Service.party r) (Web3Service.vote_count r)
    (Web3Service.total_commits info) (Web3Service.total_reveals info)
    ((Web3Service.vote_count r =? max_votes)%Z && (max_votes >? 0)%Z)
    now.

Fixpoint cached_rows (now election_id max_votes : Z)
    (info : Web3Service.election_info) (id : Z)
    (rs : list Web3Service.ballot_result) : list Result.t :=
  match rs with
  | [] => []
  | r :: rest =>
      cached_row now election_id max_votes info id r
      :: cached_rows now election_id max_votes info (id + 1)%Z rest
  end.

(* POST /<election_id>/sync-results *)
Definition sync_results (now : Z) (ws : Web3Service.t) (db : Database)
    (election_id : Z) : Database * response :=
  match election_get db election_id with
  | None => (db, Failure 404 "Not Found")
  | Some election =>
      match Election.ballot_address election with
      | None | Some EmptyString => (db, Failure 400 "No ballot contract deployed")
      | Some ballot_address =>
          match Web3Service.get_ballot_results ws ballot_address,
                Web3Service.get_election_info ws ballot_address with
          | Returns fetched, Returns info =>
              (* Clear old cached results *)
              let kept := List.filter
                            (fun r => negb (Z.eqb (Result.election_id r) election_id))
                            (results db) in
              let max_votes := Py.max_default0 (map Web3Service.vote_count fetched) in
              let fresh := cached_rows now election_id max_votes info
                             (next_result_id db) fetched in
              let election :=
                set_status now election
                  (if Web3Service.is_finalized info then Finalized
                   else Election.status election) in
              let db := update_election db election in
              (mkDatabase (voters db) (elections db) (next_election_id db)
                 (candidates db) (next_candidate_id db)
                 (votes_metadata db) (next_vote_id db)
                 (kept ++ fresh)
                 (next_result_id db + Z.of_nat (List.length fetched))%Z,
               Success 200 (Synced fetched (List.length fetched)))
          | Raises e, _ | Returns _, Raises e =>
              (db, Failure 500 ("Blockchain error: " ++ e))
          end
      end
  end.

(* POST /<election_id>/cancel; [request_json] is
   request.get_json(silent=True) *)
Definition cancel_election (now : Z) (ws : Web3Service.t) (db : Database)
    (election_id : Z) (request_json : option body) : Database * response :=
  match election_get db election_id with
  | None => (db, Failure 404 "Not Found")
  | Some election =>
      let data := default ∅ request_json in
      let reason := default (JStr "Cancelled by admin") (data !! "reason") in
      let cancelled :=
        (update_election db (set_status now election Cancelled),
         Success 200 (Message "Election cancelled")) in
      match Election.ballot_address election with
      | None | Some EmptyString => cancelled
      | Some ballot_address =>
          match Web3Service.send_cancel_election ws ballot_address reason with
          | Raises e => (db, Failure 500 ("On-chain cancel failed: " ++ e))
          | Returns _ => cancelled
          end
      end
  end.

End Elections.

(* --------------------------------------------------------------------- *)
(* routes/voters.py                                                       *)
(* --------------------------------------------------------------------- *)
Module Voters.

(* GET /wallet/<wallet_address>/eligibility *)
Definition check_eligibility (ws : Web3Service.t) (wallet_address : string)
  : response :=
  match Web3Service.is_voter_eligible ws wallet_address with
  | Raises e => Failure 500 e
  | Returns eligible =>
      match Web3Service.get_voter_info ws wallet_address with
      | Raises e => Failure 500 e
      | Returns info => Success 200 (Eligibility wallet_address eligible info)
      end
  end.

(* get_voter_by_wallet's query:
   Voter.query.filter(func.lower(Voter.wallet_address)
                      == wallet_address.strip().lower()).first() *)
Definition voter_by_wallet (db : Database) (wallet_address : string) : option Voter.t :=
  List.find (fun v => bool_decide (Py.lower (Voter.wallet_address v)
                                   = Py.lower (Py.strip wallet_address)))
            (voters db).

(* Voter.query.get_or_404(voter_id) *)
Definition voter_get (db : Database) (voter_id : Z) : option Voter.t :=
  List.find (fun v => Z.eqb (Voter.id v) voter_id) (voters db).

Definition set_is_active (db : Database) (voter_id : Z) (b : bool) : Database :=
  mkDatabase
    (map (fun v => if Z.eqb (Voter.id v) voter_id
                   then Voter.mk (Voter.id v) (Voter.name v) (Voter.identity_hash v)
                          (Voter.wallet_address v) (Voter.constituency_id v)
                          (Voter.is_registered_onchain v) (Voter.tx_hash v) b
                          (Voter.created_at v)
                   else v) (voters db))
    (elections db) (next_election_id db)
    (candidates db) (next_candidate_id db)
    (votes_metadata db) (next_vote_id db)
    (results db) (next_result_id db).

(* POST /<voter_id>/deactivate: the flag is committed first; the ledger
   call that follows is attempted and its failure ignored, so it has no
   part in the result *)
Definition deactivate_voter (db : Database) (voter_id : Z) : Database * response :=
  match voter_get db voter_id with
  | None => (db, Failure 404 "Not Found")
  | Some voter => (set_is_active db voter_id false, Success 200 (Message "Voter deactivated"))
  end.

(* POST /<voter_id>/reactivate *)
Definition reactivate_voter (db : Database) (voter_id : Z) : Database * response :=
  match voter_get db voter_id with
  | None => (db, Failure 404 "Not Found")
  | Some voter => (set_is_active db voter_id true, Success 200 (Message "Voter reactivated"))
  end.

End Voters.

(* --------------------------------------------------------------------- *)
(* The application: requests, one after the other                         *)
(* --------------------------------------------------------------------- *)
Inductive request :=
| PostVoteCommit (now : Z) (request_json : option body)
| PostVoteReveal (now : Z) (request_json : option body)
| PostElection (now current_user_id : Z) (ws : Web3Service.t) (request_json : option body)
| PostSyncResults (now : Z) (ws : Web3Service.t) (election_id : Z)
| PostCancel (now : Z) (ws : Web3Service.t) (election_id : Z) (request_json : option body)
| GetEligibility (ws : Web3Service.t) (wallet_address : string)
| PostDeactivate (voter_id : Z)
| PostReactivate (voter_id : Z).

Section App.

Variable env : Platform.t.

Definition handle (db : Database) (req : request) : Database * response :=
  match req with
  | PostVoteCommit now j => Blockchain.record_commit now db j
  | PostVoteReveal now j => Blockchain.record_reveal now db j
  | PostElection now user ws j => Elections.create_election env now user ws db j
  | PostSyncResults now ws election_id => Elections.sync_results now ws db election_id
  | PostCancel now ws election_id j => Elections.cancel_election now ws db election_id j
  | GetEligibility ws wallet => (db, Voters.check_eligibility ws wallet)
  | PostDeactivate voter_id => Voters.deactivate_voter db voter_id
  | PostReactivate voter_id => Voters.reactivate_voter db voter_id
  end.

(* the store after the requests [reqs], served in this order *)
Fixpoint run (db : Database) (reqs : list request) : Database :=
  match reqs with
  | [] => db
  | req :: rest => run (handle db req).1 rest
  end.

End App.

(* primary keys: the ids of a table are distinct and below its counter *)
Definition primary_keys (db : Database) : Prop :=
  NoDup (map Election.id (elections db))
  /\ Forall (fun e => Election.id e < next_election_id db)%Z (elections db)
  /\ NoDup (map VoteMetadata.id (votes_metadata db))
  /\ Forall (fun m => VoteMetadata.id m < next_vote_id db)%Z (votes_metadata db).

(* the order in which Election.status is meant to advance *)
Definition status_rank (s : election_status) : nat :=
  match s with
  | Pending => 0 | Active => 1 | Reveal => 2 | Tallying => 3 | Finalized => 4
  | Cancelled => 5
  end.

Definition terminal (s : election_status) : bool :=
  match s with Finalized | Cancelled => true | _ => false end.

(* --------------------------------------------------------------------- *)
(* Concrete data used by the examples                                     *)
(* --------------------------------------------------------------------- *)
Module Demo.

(* a parser that knows two dates, and the second one with its offset *)
Definition fromisoformat (s : string) : option datetime :=
  if String.eqb s "2030-01-01T00:00:00" then Some (Naive 1893456000%Z)
  else if String.eqb s "2030-02-01T00:00:00" then Some (Naive 1896134400%Z)
  else if String.eqb s "2030-02-01T00:00:00+00:00" then Some (Aware 1896134400%Z)
  else None.

(* a store whose INTEGER is a signed 32-bit number *)
Definition env : Platform.t :=
  Platform.mk fromisoformat
    (fun n => (-2147483648 <=? n)%Z && (n <=? 2147483647)%Z).

Definition candidate (name party : string) : json :=
  JObj [("name", JStr name); ("party", JStr party)].

Definition election_body : body :=
  {[ "name" := JStr "Council";
     "description" := JStr "Council election";
     "commitDeadline" := JStr "2030-01-01T00:00:00";
     "revealDeadline" := JStr "2030-02-01T00:00:00";
     "candidates" := JArr [candidate "A" "Red"; candidate "B" "Blue"] ]}.

(* the same request, its reveal deadline written with a UTC offset *)
Definition election_body_offset : body :=
  <[ "revealDeadline" := JStr "2030-02-01T00:00:00+00:00" ]> election_body.

Definition info (finalized : bool) : Web3Service.election_info :=
  Web3Service.mk_info 20 20 (JNum 3) finalized false.

Definition tally : list Web3Service.ballot_result :=
  [ Web3Service.mk_result 1 "A" "Red" 10;
    Web3Service.mk_result 2 "B" "Blue" 10;
    Web3Service.mk_result 3 "C" "Green" 5 ].

(* a ledger that accepts every call; deployments get id 7 at 0xba110t *)
Definition ledger_up (finalized : bool) : Web3Service.t :=
  Web3Service.mk
    (fun _ _ _ _ _ _ _ _ => Returns (7%Z, "0xba110t"))
    (fun _ => Returns tally)
    (fun _ => Returns (info finalized))
    (fun _ _ => Returns "0xcafe")
    (fun _ => Returns true)
    (fun _ => Returns JNull).

(* a ledger that cannot be reached *)
Definition ledger_down : Web3Service.t :=
  Web3Service.mk
    (fun _ _ _ _ _ _ _ _ => Raises "connection refused")
    (fun _ => Raises "connection refused")
    (fun _ => Raises "connection refused")
    (fun _ _ => Raises "connection refused")
    (fun _ => Raises "connection refused")
    (fun _ => Raises "connection refused").

Definition commit_body : body :=
  {[ "ballotAddress" := JStr "0xba110t";
     "commitHash" := JStr "0x1234";
     "voterAddress" := JStr " 0xABC " ]}.

Definition anonymous_commit_body : body :=
  {[ "ballotAddress" := JStr "0xba110t"; "commitHash" := JStr "0x1234" ]}.

(* a commit that names no ballot: "ballotAddress": null *)
Definition null_ballot_body : body :=
  {[ "ballotAddress" := JNull; "commitHash" := JStr "0x1234" ]}.

Definition reveal_body : body :=
  {[ "ballotAddress" := JStr "0xba110t"; "voterAddress" := JStr "0xabc" ]}.

(* the store after an election was created and deployed *)
Definition db_deployed : Database :=
  run env empty_db [PostElection 100 1 (ledger_up false) (Some election_body)].

(* the store after an election was created while the ledger was down *)
Definition db_local_only : Database :=
  run env empty_db [PostElection 100 1 ledger_down (Some election_body)].

(* the requests of one voter: commit, then reveal *)
Definition db_committed : Database :=
  run env db_deployed [PostVoteCommit 200 (Some commit_body)].

Definition db_revealed : Database :=
  run env db_committed [PostVoteReveal 300 (Some reveal_body)].

(* a commit without voterAddress, then a sync and another voter's commit *)
Definition db_anonymous : Database :=
  (Blockchain.record_commit 200 db_deployed (Some anonymous_commit_body)).1.

Definition db_anonymous_later : Database :=
  run env db_anonymous
    [PostSyncResults 210 (ledger_up false) 1; PostVoteCommit 220 (Some commit_body)].

(* the tally is cached while the election is still running *)
Definition db_synced : Database :=
  run env db_deployed [PostSyncResults 200 (ledger_up false) 1].

(* the election is finalized by a sync once the ledger reports it *)
Definition db_finalized : Database :=
  run env db_deployed [PostSyncResults 200 (ledger_up true) 1].

(* the election is cancelled, on the ledger and locally *)
Definition db_cancelled : Database :=
  run env db_deployed [PostCancel 200 (ledger_up false) 1 None].

(* a store with one registered voter, then deactivated by an admin *)
Definition db_one_voter : Database :=
  mkDatabase
    [Voter.mk 1 "Ada" "0x5eed" "0xAbC" 4 true (Some "0xfeed") true 50]
    [] 1 [] 1 [] 1 [] 1.

Definition db_deactivated : Database :=
  run env db_one_voter [PostDeactivate 1].

End Demo.


(* --------------------------------------------------------------------- *)
(* What one request can do to the elections and votes_metadata tables     *)
(* --------------------------------------------------------------------- *)
Inductive effect (db db' : Database) : Prop :=
| NoEffect :
    db' = db -> effect db db'
| VoteAdded (meta : VoteMetadata.t) :
    VoteMetadata.id meta = next_vote_id db ->
    vote_by_pair db (VoteMetadata.election_id meta) (VoteMetadata.voter_address meta) = None ->
    db' = Blockchain.add_vote db meta ->
    effect db db'
| VoteRevealed (meta meta' : VoteMetadata.t) :
    In meta (votes_metadata db) ->
    VoteMetadata.id meta' = VoteMetadata.id meta ->
    vote_key meta' = vote_key meta ->
    db' = Blockchain.update_vote db meta' ->
    effect db db'
| ElectionAdded (e : Election.t) :
    Election.id e = next_election_id db ->
    Election.status e = Pending \/ Election.status e = Active ->
    elections db' = (elections db ++ [e])%list ->
    next_election_id db' = (next_election_id db + 1)%Z ->
    votes_metadata db' = votes_metadata db ->
    next_vote_id db' = next_vote_id db ->
    effect db db'
| StatusSet (now : Z) (election : Election.t) (s : election_status) :
    In election (elections db) ->
    s = Election.status election \/ s = Cancelled \/ s = Finalized ->
    elections db' = elections (Elections.update_election db (Elections.set_status now election s)) ->
    next_election_id db' = next_election_id db ->
    votes_metadata db' = votes_metadata db ->
    next_vote_id db' = next_vote_id db ->
    effect db db'
| VotersOnly :
    elections db' = elections db ->
    next_election_id db' = next_election_id db ->
    votes_metadata db' = votes_metadata db ->
    next_vote_id db' = next_vote_id db ->
    effect db db'.

(* ===================================================================== *)
(* The remaining handlers of routes/ and middleware/                      *)
(* ===================================================================== *)

(* the response of a handler whose payload has type A: {"ok": True, ...}
   with a code, an error with a code, or an uncaught exception (500) *)
Inductive answer (A : Type) :=
| Ok (code : nat) (data : A)
| Err (code : nat) (error : string)
| Exn.
Arguments Ok {A} code data.
Arguments Err {A} code error.
Arguments Exn {A}.

(* the methods of services.Web3Service that these handlers call, beside
   the ones of Web3Service.t *)
Module Registry.
Record t := mk {
  (* hash_identity(raw).hex() *)
  hash_identity : json -> chain string;
  (* register_voter(wallet, identity_bytes, constituency_id) returns the
     transaction hash *)
  register_voter : string -> list Z -> Z -> chain string;
  get_total_voters : chain Z;
  verify_election_integrity : string -> chain json
}.
End Registry.

(* bytes.fromhex *)
Module PyBytes.

(* the whitespace bytes.fromhex skips between two bytes: ' ' and \t \n \v
   \f \r *)
Definition isspace (a : ascii) : bool :=
  let n := nat_of_ascii a in
  ((9 <=? n)%nat && (n <=? 13)%nat) || (n =? 32)%nat.

Definition hexval (a : ascii) : option Z :=
  let n := nat_of_ascii a in
  if ((48 <=? n)%nat && (n <=? 57)%nat) then Some (Z.of_nat (n - 48))
  else if ((97 <=? n)%nat && (n <=? 102)%nat) then Some (Z.of_nat (n - 87))
  else if ((65 <=? n)%nat && (n <=? 70)%nat) then Some (Z.of_nat (n - 55))
  else None.

(* two hexadecimal digits per byte; None is the ValueError *)
Fixpoint fromhex (s : string) : option (list Z) :=
  match s with
  | EmptyString => Some []
  | String a s' =>
      if isspace a then fromhex s'
      else
        match hexval a, s' with
        | Some top, String b s'' =>
            match hexval b with
            | Some bot => cons (16 * top + bot)%Z <$> fromhex s''
            | None => None
            end
        | _, _ => None
        end
  end.

(* h[2:] if h.startswith("0x") else h *)
Definition strip_0x (h : string) : string :=
  match h with
  | String "0" (String "x" rest) => rest
  | _ => h
  end.

End PyBytes.

(* models.User *)
Module User.
Record t := mk {
  id : Z;
  name : string;
  email : string;
  password_hash : string;
  role : string;
  wallet_address : option string;
  is_active : bool;
  created_at : Z;
  updated_at : Z
}.
End User.

(* --------------------------------------------------------------------- *)
(* middleware/__init__.py: the two guards                                 *)
(* --------------------------------------------------------------------- *)
Module Guards.

(* validate_json around a handler that answers in another type [R]: the
   decorator of Middleware is run with the body it lets through as its
   state; when it lets none through, its own 400 answer is the result *)
Definition validate_json_as {R} (required_fields : list string)
    (reject : nat -> string -> R) (crash : R) (fn : body -> R)
    (request_json : option body) : R :=
  match Middleware.validate_json required_fields
          (fun _ data => (Some data, ServerError)) None request_json with
  | (Some data, _) => fn data
  | (None, Failure code error) => reject code error
  | (None, _) => crash
  end.

(* User.query.get(identity) *)
Definition user_get (users : list User.t) (identity : Z) : option User.t :=
  List.find (fun u => Z.eqb (User.id u) identity) users.

(* jwt_required_custom(fn), once verify_jwt_in_request() has accepted the
   token; [identity] is get_jwt_identity() and [fn] is given
   g.current_user *)
Definition jwt_required_custom {A} (users : list User.t) (identity : Z)
    (fn : User.t -> answer A) : answer A :=
  match user_get users identity with
  | None => Err 401 "Invalid or deactivated user"
  | Some user =>
      if negb (User.is_active user) then Err 401 "Invalid or deactivated user"
      else fn user
  end.

(* admin_required(fn) *)
Definition admin_required {A} (users : list User.t) (identity : Z)
    (fn : User.t -> answer A) : answer A :=
  match user_get users identity with
  | None => Err 401 "Invalid or deactivated user"
  | Some user =>
      if negb (User.is_active user) then Err 401 "Invalid or deactivated user"
      else if negb (bool_decide (User.role user = "admin")
                    || bool_decide (User.role user = "super_admin"))
      then Err 403 "Admin access required"
      else fn user
  end.

End Guards.

(* --------------------------------------------------------------------- *)
(* routes/auth.py: the voter endpoints                                    *)
(* --------------------------------------------------------------------- *)
Module Auth.

(* what create_access_token is given: the identity and the additional
   claims "role" and "wallet" *)
Record token := mk_token {
  identity : Z;
  claim_role : string;
  claim_wallet : string
}.

(* the body of voter_login, after validate_json("walletAddress") *)
Definition voter_login_fn (db : Database) (data : body)
  : option (answer (token * Voter.t)) :=
  wallet ← data !! "walletAddress" ≫= as_str;
  match Voters.voter_by_wallet db wallet with
  | None => Some (Err 401 "Wallet not registered or deactivated")
  | Some voter =>
      if negb (Voter.is_active voter)
      then Some (Err 401 "Wallet not registered or deactivated")
      else Some (Ok 200 (mk_token (Voter.id voter) "voter" (Voter.wallet_address voter),
                         voter))
  end.

(* POST /voter/login *)
Definition voter_login (db : Database) (request_json : option body)
  : answer (token * Voter.t) :=
  Guards.validate_json_as ["walletAddress"] Err Exn
    (fun data => default Exn (voter_login_fn db data)) request_json.

(* no handler deletes a voter: the key the store gives the next one is
   one more than the greatest key in the table *)
Definition next_voter_id (db : Database) : Z :=
  (fold_right Z.max 0 (map Voter.id (voters db)) + 1)%Z.

Definition add_voter (db : Database) (voter : Voter.t) : Database :=
  mkDatabase (voters db ++ [voter])
             (elections db) (next_election_id db)
             (candidates db) (next_candidate_id db)
             (votes_metadata db) (next_vote_id db)
             (results db) (next_result_id db).

(* the try block of register_voter: the identity hash as bytes, then the
   ledger call; None when either raises *)
Definition try_register (ws : Registry.t) (wallet identity_hash : string)
    (constituency_id : Z) : option string :=
  match PyBytes.fromhex (PyBytes.strip_0x identity_hash) with
  | None => None
  | Some identity_bytes =>
      match Registry.register_voter ws wallet identity_bytes constituency_id with
      | Returns tx_hash => Some tx_hash
      | Raises _ => None
      end
  end.

(* the body of register_voter, after admin_required and
   validate_json("name", "rawVoterId", "constituencyId", "walletAddress") *)
Definition register_voter_fn (env : Platform.t) (now : Z) (ws : Registry.t)
    (db : Database) (data : body)
  : option (Database * answer (Voter.t * option string)) :=
  wallet ← Py.strip <$> (data !! "walletAddress" ≫= as_str);
  raw ← data !! "rawVoterId";
  identity_hash ← match Registry.hash_identity ws raw with
                  | Returns h => Some h
                  | Raises _ => None
                  end;
  (* Duplicate checks *)
  if existsb (fun v => bool_decide (Voter.wallet_address v = wallet)) (voters db)
  then Some (db, Err 409 "Wallet already registered")
  else if existsb (fun v => bool_decide (Voter.identity_hash v = identity_hash)) (voters db)
  then Some (db, Err 409 "Voter ID already registered")
  else
    match data !! "name", data !! "constituencyId" ≫= py_int with
    | Some name, Some constituency_id =>
        (* Attempt on-chain registration *)
        let tx_hash := try_register ws wallet identity_hash constituency_id in
        (* the row as the commit writes it *)
        name_col ← bind_text_required name;
        fits ← require (Platform.integer_fits env constituency_id);
        let voter :=
          Voter.mk (next_voter_id db) name_col identity_hash wallet
            constituency_id (bool_decide (is_Some tx_hash)) tx_hash true now in
        Some (add_voter db voter, Ok 201 (voter, tx_hash))
    | _, _ => None
    end.

(* POST /voter/register, after admin_required *)
Definition register_voter (env : Platform.t) (now : Z) (ws : Registry.t)
    (db : Database) (request_json : option body)
  : Database * answer (Voter.t * option string) :=
  Guards.validate_json_as ["name"; "rawVoterId"; "constituencyId"; "walletAddress"]
    (fun code error => (db, Err code error)) (db, Exn)
    (fun data => default (db, Exn) (register_voter_fn env now ws db data)) request_json.

End Auth.

(* --------------------------------------------------------------------- *)
(* routes/voters.py: the other endpoints                                  *)
(* --------------------------------------------------------------------- *)
Module VoterRoutes.

Definition set_registered (db : Database) (voter_id : Z) (tx_hash : string) : Database :=
  mkDatabase
    (map (fun v => if Z.eqb (Voter.id v) voter_id
                   then Voter.mk (Voter.id v) (Voter.name v) (Voter.identity_hash v)
                          (Voter.wallet_address v) (Voter.constituency_id v)
                          true (Some tx_hash) (Voter.is_active v)
                          (Voter.created_at v)
                   else v) (voters db))
    (elections db) (next_election_id db)
    (candidates db) (next_candidate_id db)
    (votes_metadata db) (next_vote_id db)
    (results db) (next_result_id db).

(* POST /<voter_id>/register-onchain *)
Definition retry_onchain_registration (ws : Registry.t) (db : Database)
    (voter_id : Z) : Database * answer string :=
  match Voters.voter_get db voter_id with
  | None => (db, Err 404 "Not Found")
  | Some voter =>
      if Voter.is_registered_onchain voter
      then (db, Err 400 "Already registered on-chain")
      else
        match PyBytes.fromhex (PyBytes.strip_0x (Voter.identity_hash voter)) with
        | None => (db, Exn)
        | Some identity_bytes =>
            match Registry.register_voter ws (Voter.wallet_address voter)
                    identity_bytes (Voter.constituency_id voter) with
            | Returns tx_hash => (set_registered db voter_id tx_hash, Ok 200 tx_hash)
            | Raises e => (db, Err 500 e)
            end
        end
  end.

(* the "stats" object of voter_stats *)
Record stats := mk_stats {
  total_offchain : Z;
  active : Z;
  inactive : Z;
  registered_onchain : Z;
  onchain_total : Z
}.

(* Query.count() over a filter *)
Definition count {A} (p : A -> bool) (rows : list A) : Z :=
  Z.of_nat (List.length (List.filter p rows)).

(* GET /stats *)
Definition voter_stats (ws : Registry.t) (db : Database) : answer stats :=
  let total := count (fun _ => true) (voters db) in
  let active := count Voter.is_active (voters db) in
  let onchain := count Voter.is_registered_onchain (voters db) in
  let onchain_total :=
    match Registry.get_total_voters ws with
    | Returns n => n
    | Raises _ => 0%Z
    end in
  Ok 200 (mk_stats total active (total - active)%Z onchain onchain_total).

(* order_by(VoteMetadata.committed_at.desc()): newest first; rows of the
   same time are kept in table order (the store is free there) *)
Fixpoint insert_desc (m : VoteMetadata.t) (l : list VoteMetadata.t)
  : list VoteMetadata.t :=
  match l with
  | [] => [m]
  | x :: rest =>
      if (VoteMetadata.committed_at x <=? VoteMetadata.committed_at m)%Z
      then m :: l
      else x :: insert_desc m rest
  end.

Definition sort_desc (l : list VoteMetadata.t) : list VoteMetadata.t :=
  fold_right insert_desc [] l.

(* GET /wallet/<wallet_address>/votes: the rows behind the "votes" list *)
Definition voter_vote_history (db : Database) (wallet_address : string)
  : answer (list VoteMetadata.t) :=
  Ok 200 (sort_desc
            (List.filter
               (fun m => bool_decide (VoteMetadata.voter_address m
                                      = Py.lower (Py.strip wallet_address)))
               (votes_metadata db))).

End VoterRoutes.

(* --------------------------------------------------------------------- *)
(* routes/elections.py: get_results                                       *)
(* --------------------------------------------------------------------- *)
Module ElectionRoutes.





End ElectionRoutes.

(* --------------------------------------------------------------------- *)
(* Requests that change the store, with the voter administration          *)
(* --------------------------------------------------------------------- *)
Inductive api_request :=
| Core (req : request)
| PostVoterRegister (now : Z) (ws : Registry.t) (request_json : option body)
| PostRegisterOnchain (ws : Registry.t) (voter_id : Z).

Definition serve (env : Platform.t) (db : Database)
    (req : api_request) : Database :=
  match req with
  | Core r => (handle env db r).1
  | PostVoterRegister now ws j => (Auth.register_voter env now ws db j).1
  | PostRegisterOnchain ws voter_id =>
      (VoterRoutes.retry_onchain_registration ws db voter_id).1
  end.

Definition serve_all (env : Platform.t) (db : Database)
    (reqs : list api_request) : Database :=
  fold_left (serve env) reqs db.

(* --------------------------------------------------------------------- *)
(* What one request of [handle] writes, table by table                    *)
(* --------------------------------------------------------------------- *)
Inductive change (db db' : Database) : Prop :=
| Unchanged :
    db' = db -> change db db'
| ReceiptAdded (election : Election.t) (meta : VoteMetadata.t) :
    In election (elections db) ->
    VoteMetadata.election_id meta = Election.id election ->
    VoteMetadata.id meta = next_vote_id db ->
    VoteMetadata.phase meta = Committed ->
    db' = Blockchain.add_vote db meta ->
    change db db'
| ReceiptRevealed (meta : VoteMetadata.t) (tx : option string) (now : Z) :
    In meta (votes_metadata db) ->
    db' = Blockchain.update_vote db
            (VoteMetadata.mk (VoteMetadata.id meta) (VoteMetadata.election_id meta)
               (VoteMetadata.voter_address meta) (VoteMetadata.receipt_hash meta)
               (VoteMetadata.commit_tx_hash meta) tx Revealed
               (VoteMetadata.committed_at meta) (Some now)) ->
    change db db'
| ElectionCreated (e : Election.t) (cands : list Candidate.t) :
    Election.id e = next_election_id db ->
    Forall (fun c => Candidate.election_id c = Election.id e) cands ->
    db' = mkDatabase (voters db)
            (elections db ++ [e]) (next_election_id db + 1)%Z
            (candidates db ++ cands)
            (next_candidate_id db + Z.of_nat (List.length cands))%Z
            (votes_metadata db) (next_vote_id db)
            (results db) (next_result_id db) ->
    change db db'
| ResultsSynced (now : Z) (e : Election.t) (s : election_status)
                (fresh : list Result.t) (n : Z) :
    In e (elections db) ->
    Py.truthy (Election.ballot_address e) = true ->
    Forall (fun r => Result.election_id r = Election.id e) fresh ->
    db' = mkDatabase (voters db)
            (elections (Elections.update_election db (Elections.set_status now e s)))
            (next_election_id db)
            (candidates db) (next_candidate_id db)
            (votes_metadata db) (next_vote_id db)
            (List.filter (fun r => negb (Z.eqb (Result.election_id r) (Election.id e)))
                         (results db) ++ fresh)
            n ->
    change db db'
| ElectionCancelled (now : Z) (e : Election.t) :
    In e (elections db) ->
    db' = Elections.update_election db (Elections.set_status now e Cancelled) ->
    change db db'
| VoterFlagged (voter_id : Z) (b : bool) :
    db' = Voters.set_is_active db voter_id b ->
    change db db'.

(* --------------------------------------------------------------------- *)
(* Concrete data for the examples of the further handlers                 *)
(* --------------------------------------------------------------------- *)
Module Samples.

Definition login_body : body := {[ "walletAddress" := JStr " 0xABC" ]}.


(* a ledger client that answers: every identity hashes to 0xab12 *)
Definition registry_up : Registry.t :=
  Registry.mk (fun _ => Returns "0xab12")
              (fun _ _ _ => Returns "0x7e57")
              (Returns 1%Z)
              (fun _ => Returns JNull).

(* the hashing works (it is local), the ledger cannot be reached *)
Definition registry_down : Registry.t :=
  Registry.mk (fun _ => Returns "0xab12")
              (fun _ _ _ => Raises "connection refused")
              (Raises "connection refused")
              (fun _ => Raises "connection refused").


End Samples.

(* ===================================================================== *)
(* Properties                                                             *)
(* ===================================================================== *)

(* --------------------------------------------------------------------- *)
(* validate_json                                                          *)
(* --------------------------------------------------------------------- *)
Lemma filter_nil_all_false {A} (p : A -> bool) (l : list A) :
  List.filter p l = [] -> forall x, In x l -> p x = false.
Proof.
  intros Hnil x Hin. destruct (p x) eqn:Hp; [|reflexivity].
  assert (Hx : In x (List.filter p l)) by (apply filter_In; auto).
  rewrite Hnil in Hx. destruct Hx.
Qed.

Lemma all_false_filter_nil {A} (p : A -> bool) (l : list A) :
  (forall x, In x l -> p x = false) -> List.filter p l = [].
Proof.
  induction l as [|a l IH]; intros H; simpl; [reflexivity|].
  rewrite (H a (or_introl eq_refl)). apply IH. intros x Hx. apply H. now right.
Qed.

Lemma existsb_false_forall {A} (p : A -> bool) (l : list A) :
  existsb p l = false <-> forall x, In x l -> p x = false.
Proof.
  split.
  - intros H x Hin. destruct (p x) eqn:Hp; [|reflexivity].
    rewrite <- H. symmetry. apply existsb_exists. eauto.
  - intros H. destruct (existsb p l) eqn:E; [|reflexivity].
    apply existsb_exists in E as (x & Hin & Hp). now rewrite (H x Hin) in Hp.
Qed.

(* a request that has every required field goes through to the handler *)
Lemma validate_json_pass {S} (required : list string)
    (fn : S -> body -> S * response) (st : S) (data : body) :
  data <> ∅ ->
  (forall f, In f required -> Middleware.is_missing data f = false) ->
  Middleware.validate_json required fn st (Some data) = fn st data.
Proof.
  intros Hne Hall. unfold Middleware.validate_json.
  rewrite bool_decide_eq_false_2 by exact Hne.
  now rewrite (all_false_filter_nil _ _ Hall).
Qed.

(* validate_json either answers 400 itself, leaving the state alone, or
   hands a body that has every required field to the handler *)
Lemma validate_json_cases {S} (required : list string)
    (fn : S -> body -> S * response) (st : S) (j : option body) :
  (exists msg, Middleware.validate_json required fn st j = (st, Failure 400 msg))
  \/ (exists data, j = Some data
        /\ (forall f, In f required -> Middleware.is_missing data f = false)
        /\ Middleware.validate_json required fn st j = fn st data).
Proof.
  unfold Middleware.validate_json. destruct j as [data|]; [|left; eauto].
  destruct (bool_decide (data = ∅)); [left; eauto|].
  destruct (List.filter (Middleware.is_missing data) required) eqn:Hf.
  - right. exists data. split; [reflexivity|]. split; [|reflexivity].
    now apply filter_nil_all_false.
  - left. eauto.
Qed.

(* data.get(key) of a string or of nothing is bound as it is *)
Lemma get_opt_str_bind (data : body) (key : string) (tx : option string) :
  get_opt_str data key = Some tx ->
  bind_text (default JNull (data !! key)) = Some tx.
Proof.
  unfold get_opt_str. destruct (data !! key) as [[]|]; simpl; congruence.
Qed.

Lemma not_missing_nonempty (data : body) (f : string) :
  Middleware.is_missing data f = false -> data <> ∅.
Proof.
  unfold Middleware.is_missing. intros H ->. now rewrite lookup_empty in H.
Qed.

(* --------------------------------------------------------------------- *)
(* Queries                                                                *)
(* --------------------------------------------------------------------- *)
Lemma election_get_In db election_id e :
  election_get db election_id = Some e ->
  In e (elections db) /\ Election.id e = election_id.
Proof.
  unfold election_get. intros H. apply find_some in H as [Hin Heq].
  split; [exact Hin|]. now apply Z.eqb_eq.
Qed.

Lemma vote_by_pair_In db e v m :
  vote_by_pair db e v = Some m ->
  In m (votes_metadata db) /\ vote_key m = (e, v).
Proof.
  unfold vote_by_pair, vote_key. intros H. apply find_some in H as [Hin Heq].
  apply andb_true_iff in Heq as [He Hv].
  apply Z.eqb_eq in He. apply bool_decide_eq_true in Hv.
  split; [exact Hin|]. now rewrite He, Hv.
Qed.

Lemma vote_by_pair_None db e v :
  vote_by_pair db e v = None <-> ~ In (e, v) (map vote_key (votes_metadata db)).
Proof.
  unfold vote_by_pair. split.
  - intros H Hin. apply in_map_iff in Hin as (m & Hk & Hm).
    pose proof (find_none _ _ H m Hm) as Hf. simpl in Hf.
    unfold vote_key in Hk. injection Hk as He Hv.
    rewrite He, Z.eqb_refl, bool_decide_eq_true_2 in Hf by exact Hv. discriminate.
  - intros Hnot.
    destruct (List.find _ (votes_metadata db)) as [m|] eqn:Hf; [|reflexivity].
    exfalso. apply Hnot. apply in_map_iff. exists m.
    now apply (vote_by_pair_In db e v m) in Hf as [? ?].
Qed.

Lemma vote_by_pair_Some_iff db e v :
  (exists m, vote_by_pair db e v = Some m) <-> In (e, v) (map vote_key (votes_metadata db)).
Proof.
  split.
  - intros [m Hm]. apply vote_by_pair_In in Hm as [Hin Hk].
    apply in_map_iff. eauto.
  - intros Hin. destruct (vote_by_pair db e v) as [m|] eqn:H; [eauto|].
    now apply vote_by_pair_None in H.
Qed.

(* --------------------------------------------------------------------- *)
(* Every request has one of the effects                                   *)
(* --------------------------------------------------------------------- *)
Lemma unhandled_effect db (o : option (Database * response)) :
  (forall db' r, o = Some (db', r) -> effect db db') ->
  effect db (unhandled db o).1.
Proof.
  intros H. destruct o as [[db' r]|]; simpl; [eauto|now apply NoEffect].
Qed.

Lemma validate_json_effect required fn db j :
  (forall data, effect db (fn db data).1) ->
  effect db (Middleware.validate_json required fn db j).1.
Proof.
  intros H. destruct (validate_json_cases required fn db j) as [[msg ->]|(data & _ & _ & ->)].
  - now apply NoEffect.
  - apply H.
Qed.

Lemma record_commit_effect now db j :
  effect db (Blockchain.record_commit now db j).1.
Proof.
  apply validate_json_effect. intros data. apply unhandled_effect.
  intros db' r. unfold Blockchain.record_commit_fn.
  destruct (data !! "ballotAddress") as [ba|]; simpl; [|discriminate].
  destruct (data !! "commitHash") as [ch|]; simpl; [|discriminate].
  destruct (as_str (default (JStr "") (data !! "voterAddress"))) as [v|]; simpl; [|discriminate].
  destruct (election_filter_by_ballot db ba) as [[e|]|]; simpl; [| |discriminate].
  2:{ intros [= <- _]. now apply NoEffect. }
  destruct (vote_by_pair db (Election.id e) (Py.lower (Py.strip v))) eqn:Hv.
  { intros [= <- _]. now apply NoEffect. }
  destruct (bind_text_required ch) as [h|]; simpl; [|discriminate].
  destruct (bind_text (default JNull (data !! "txHash"))) as [tx|]; simpl; [|discriminate].
  intros [= <- _]. eapply VoteAdded; [| |reflexivity]; [reflexivity|exact Hv].
Qed.

Lemma record_reveal_effect now db j :
  effect db (Blockchain.record_reveal now db j).1.
Proof.
  apply validate_json_effect. intros data. apply unhandled_effect.
  intros db' r. unfold Blockchain.record_reveal_fn.
  destruct (data !! "voterAddress" ≫= as_str) as [v|]; simpl; [|discriminate].
  destruct (data !! "ballotAddress") as [ba|]; simpl; [|discriminate].
  destruct (election_filter_by_ballot db ba) as [[e|]|]; simpl; [| |discriminate].
  2:{ intros [= <- _]. now apply NoEffect. }
  destruct (vote_by_pair db (Election.id e) (Py.lower (Py.strip v))) as [meta|] eqn:Hv.
  2:{ intros [= <- _]. now apply NoEffect. }
  destruct (bind_text (default JNull (data !! "txHash"))) as [tx|]; simpl; [|discriminate].
  intros [= <- _]. apply vote_by_pair_In in Hv as [Hin _].
  eapply VoteRevealed; [exact Hin| | |reflexivity]; reflexivity.
Qed.

Lemma create_election_effect env now user ws db j :
  effect db (Elections.create_election env now user ws db j).1.
Proof.
  apply validate_json_effect. intros data. apply unhandled_effect.
  intros db' r. unfold Elections.create_election_fn.
  destruct ((data !! "commitDeadline" ≫= as_str) ≫= Platform.fromisoformat env)
    as [[c|c]|]; simpl; [| |discriminate].
  2:{ destruct (_ ≫= Platform.fromisoformat env); discriminate. }
  destruct ((data !! "revealDeadline" ≫= as_str) ≫= Platform.fromisoformat env)
    as [rd|]; simpl; [|discriminate].
  destruct (c <=? now)%Z. { intros [= <- _]. now apply NoEffect. }
  destruct rd as [rv|rv]; [|discriminate].
  destruct (rv <=? c)%Z. { intros [= <- _]. now apply NoEffect. }
  destruct (data !! "candidates" ≫= py_len) as [n|]; [|discriminate].
  destruct (n <? 2)%nat. { intros [= <- _]. now apply NoEffect. }
  unfold Elections.create_election_rows.
  destruct (py_int _) as [k|]; simpl; [|discriminate].
  destruct (data !! "name") as [nm|]; simpl; [|discriminate].
  destruct (data !! "description") as [ds|]; simpl; [|discriminate].
  destruct (bind_text_required nm) as [nmc|]; simpl; [|discriminate].
  destruct (bind_text ds) as [dsc|]; simpl; [|discriminate].
  destruct (bind_enum _) as [tyc|]; simpl; [|discriminate].
  destruct (require _) as [fits|]; simpl; [|discriminate].
  destruct (match data !! "candidates" with Some (JArr xs) => Some xs | _ => None end)
    as [items|]; simpl; [|discriminate].
  destruct (Elections.candidate_rows now (next_election_id db) (next_candidate_id db) items)
    as [cands|]; simpl; [|discriminate].
  destruct (require _) as [unique|]; simpl; [|discriminate].
  intros [= <- _].
  destruct (Web3Service.create_election ws nm ds c rv _ _ k _) as [[oid addr]|msg].
  - eapply ElectionAdded; simpl; try reflexivity; simpl; auto.
  - eapply ElectionAdded; simpl; try reflexivity; simpl; auto.
Qed.

Lemma sync_results_effect now ws db election_id :
  effect db (Elections.sync_results now ws db election_id).1.
Proof.
  unfold Elections.sync_results.
  destruct (election_get db election_id) as [e|] eqn:He; [|now apply NoEffect].
  apply election_get_In in He as [Hin _].
  destruct (Election.ballot_address e) as [[|a s]|]; try now apply NoEffect.
  destruct (Web3Service.get_ballot_results ws _) as [fetched|msg];
    [|now apply NoEffect].
  destruct (Web3Service.get_election_info ws _) as [info|msg];
    [|now apply NoEffect].
  eapply (StatusSet db _ now e); simpl; try reflexivity; [exact Hin|].
  destruct (Web3Service.is_finalized info); auto.
Qed.

Lemma cancel_election_effect now ws db election_id j :
  effect db (Elections.cancel_election now ws db election_id j).1.
Proof.
  unfold Elections.cancel_election.
  destruct (election_get db election_id) as [e|] eqn:He; [|now apply NoEffect].
  apply election_get_In in He as [Hin _].
  assert (Hc : effect db (Elections.update_election db (Elections.set_status now e Cancelled)))
    by (eapply (StatusSet db _ now e Cancelled); simpl; auto).
  destruct (Election.ballot_address e) as [[|a s]|]; try exact Hc.
  destruct (Web3Service.send_cancel_election ws _ _); [exact Hc|now apply NoEffect].
Qed.

Lemma voters_effect db voter_id b :
  effect db (Voters.set_is_active db voter_id b).
Proof. now apply VotersOnly. Qed.

Lemma handle_effect env db req :
  effect db (handle env db req).1.
Proof.
  destruct req; simpl.
  - apply record_commit_effect.
  - apply record_reveal_effect.
  - apply create_election_effect.
  - apply sync_results_effect.
  - apply cancel_election_effect.
  - now apply NoEffect.
  - unfold Voters.deactivate_voter. destruct (Voters.voter_get db voter_id);
      [apply voters_effect|now apply NoEffect].
  - unfold Voters.reactivate_voter. destruct (Voters.voter_get db voter_id);
      [apply voters_effect|now apply NoEffect].
Qed.

(* --------------------------------------------------------------------- *)
(* Invariants of the store                                                *)
(* --------------------------------------------------------------------- *)
Lemma NoDup_map_eq {A B} (f : A -> B) (l : list A) (a b : A) :
  NoDup (map f l) -> In a l -> In b l -> f a = f b -> a = b.
Proof.
  induction l as [|x l IH]; simpl; [intros _ []|].
  intros Hnd Ha Hb Hf. apply NoDup_cons in Hnd as [Hx Hnd].
  rewrite list_elem_of_In in Hx.
  destruct Ha as [->|Ha], Hb as [->|Hb]; try reflexivity.
  - exfalso. apply Hx. rewrite Hf. now apply in_map.
  - exfalso. apply Hx. rewrite <- Hf. now apply in_map.
  - now apply IH.
Qed.

Lemma NoDup_map_snoc {A B} (f : A -> B) (l : list A) (x : A) :
  NoDup (map f l) -> ~ In (f x) (map f l) -> NoDup (map f (l ++ [x])).
Proof.
  intros Hnd Hx. rewrite map_app. simpl. apply NoDup_app.
  split; [exact Hnd|]. split.
  - intros y Hy Hy'. apply list_elem_of_In in Hy.
    apply list_elem_of_In in Hy'. destruct Hy' as [<-|[]]. now apply Hx.
  - apply NoDup_singleton.
Qed.

(* writing a row back under its key changes no column [f] that the new
   row shares with the old one *)
Lemma map_update_same {A B} (f : A -> B) (key : A -> Z) (l : list A) (old new : A) :
  NoDup (map key l) -> In old l -> key new = key old -> f new = f old ->
  map f (map (fun x => if Z.eqb (key x) (key new) then new else x) l) = map f l.
Proof.
  intros Hnd Hold Hk Hf. rewrite map_map. apply map_ext_in.
  intros x Hx. destruct (Z.eqb_spec (key x) (key new)) as [E|E]; [|reflexivity].
  rewrite Hk in E. now rewrite (NoDup_map_eq key l x old Hnd Hx Hold E).
Qed.

Lemma set_status_id now e s :
  Election.id (Elections.set_status now e s) = Election.id e.
Proof. unfold Elections.set_status. now destruct (decide _). Qed.

Lemma set_status_status now e s :
  Election.status (Elections.set_status now e s) = s.
Proof. unfold Elections.set_status. now destruct (decide _). Qed.

Lemma set_status_ballot now e s :
  Election.ballot_address (Elections.set_status now e s) = Election.ballot_address e.
Proof. unfold Elections.set_status. now destruct (decide _). Qed.

Lemma Forall_lt_snoc {A} (key : A -> Z) (l : list A) (x : A) (n : Z) :
  Forall (fun a => key a < n)%Z l -> key x = n ->
  Forall (fun a => key a < n + 1)%Z (l ++ [x]).
Proof.
  intros Hl Hx. apply Forall_app. split.
  - eapply Forall_impl; [exact Hl|]. simpl. intros; lia.
  - constructor; [lia|constructor].
Qed.

Lemma fresh_key_not_in {A} (key : A -> Z) (l : list A) (x : A) (n : Z) :
  Forall (fun a => key a < n)%Z l -> key x = n -> ~ In (key x) (map key l).
Proof.
  intros Hl Hx Hin. apply in_map_iff in Hin as (a & Ha & Hin).
  rewrite Forall_forall in Hl. apply list_elem_of_In in Hin.
  specialize (Hl a Hin). simpl in Hl. lia.
Qed.

(* case analysis on the effect of a request; [e] names the election row
   of the two election cases *)
Ltac effect_cases Heff e :=
  let meta := fresh "meta" in
  let meta' := fresh "meta'" in
  let now := fresh "now" in
  let s := fresh "s" in
  destruct Heff as [-> | meta Hid Hnone -> | meta meta' Hin Hid Hkey ->
                   | e Hid Hst Hels Hnext Hvs Hvn
                   | now e s Hin Hs Hels Hnext Hvs Hvn
                   | Hels Hnext Hvs Hvn ].

Lemma primary_keys_empty : primary_keys empty_db.
Proof.
  unfold primary_keys, empty_db; simpl.
  repeat split; constructor.
Qed.

Lemma primary_keys_effect db db' :
  primary_keys db -> effect db db' -> primary_keys db'.
Proof.
  intros (He & HeB & Hv & HvB) Heff. unfold primary_keys.
  effect_cases Heff e.
  - auto.
  - simpl. repeat split; auto.
    + apply NoDup_map_snoc; [exact Hv|]. eapply fresh_key_not_in; eauto.
    + now apply Forall_lt_snoc.
  - simpl. repeat split; auto.
    + rewrite (map_update_same VoteMetadata.id VoteMetadata.id _ meta meta'); auto.
    + apply Forall_forall. intros x Hx. apply list_elem_of_In, in_map_iff in Hx as (y & <- & Hy).
      rewrite Forall_forall in HvB.
      destruct (Z.eqb_spec (VoteMetadata.id y) (VoteMetadata.id meta')).
      * rewrite Hid. apply HvB. now apply list_elem_of_In.
      * apply HvB. now apply list_elem_of_In.
  - rewrite Hels, Hnext, Hvs, Hvn. repeat split; auto.
    + apply NoDup_map_snoc; [exact He|]. eapply fresh_key_not_in; eauto.
    + now apply Forall_lt_snoc.
  - rewrite Hels, Hnext, Hvs, Hvn. simpl. repeat split; auto.
    + rewrite (map_update_same Election.id Election.id _ e (Elections.set_status now e s));
        auto using set_status_id.
    + apply Forall_forall. intros x Hx. apply list_elem_of_In, in_map_iff in Hx as (y & <- & Hy).
      rewrite Forall_forall in HeB.
      destruct (Z.eqb_spec (Election.id y) (Election.id (Elections.set_status now e s))).
      * rewrite set_status_id. apply HeB. now apply list_elem_of_In.
      * apply HeB. now apply list_elem_of_In.
  - rewrite Hels, Hnext, Hvs, Hvn. auto.
Qed.

Lemma uq_effect db db' :
  primary_keys db -> uq_vote_election_voter (votes_metadata db) -> effect db db' ->
  uq_vote_election_voter (votes_metadata db').
Proof.
  intros (_ & _ & Hv & _) Huq Heff. unfold uq_vote_election_voter in *.
  effect_cases Heff e; try (rewrite Hvs); auto.
  - simpl. apply NoDup_map_snoc; [exact Huq|].
    now apply vote_by_pair_None in Hnone.
  - simpl. rewrite (map_update_same vote_key VoteMetadata.id _ meta meta'); auto.
Qed.

(* no request removes a receipt or changes the pair it is filed under *)
Lemma receipts_kept_effect db db' k :
  primary_keys db -> effect db db' ->
  In k (map vote_key (votes_metadata db)) -> In k (map vote_key (votes_metadata db')).
Proof.
  intros (_ & _ & Hv & _) Heff Hk.
  effect_cases Heff e; try (rewrite Hvs); auto.
  - simpl. rewrite map_app. apply in_or_app. now left.
  - simpl. rewrite (map_update_same vote_key VoteMetadata.id _ meta meta'); auto.
Qed.

Section Runs.
Variable env : Platform.t.

Lemma primary_keys_run db reqs :
  primary_keys db -> primary_keys (run env db reqs).
Proof.
  revert db. induction reqs as [|req reqs IH]; intros db H; simpl; [exact H|].
  apply IH. eapply primary_keys_effect; [exact H|apply handle_effect].
Qed.

Lemma uq_run db reqs :
  primary_keys db -> uq_vote_election_voter (votes_metadata db) ->
  uq_vote_election_voter (votes_metadata (run env db reqs)).
Proof.
  revert db. induction reqs as [|req reqs IH]; intros db Hpk H; simpl; [exact H|].
  apply IH.
  - eapply primary_keys_effect; [exact Hpk|apply handle_effect].
  - eapply uq_effect; [exact Hpk|exact H|apply handle_effect].
Qed.

Lemma receipts_kept_run db reqs k :
  primary_keys db ->
  In k (map vote_key (votes_metadata db)) ->
  In k (map vote_key (votes_metadata (run env db reqs))).
Proof.
  revert db. induction reqs as [|req reqs IH]; intros db Hpk H; simpl; [exact H|].
  apply IH.
  - eapply primary_keys_effect; [exact Hpk|apply handle_effect].
  - eapply receipts_kept_effect; [exact Hpk|apply handle_effect|exact H].
Qed.

End Runs.

(* ===================================================================== *)
(* C1: one receipt per (election, voter)                                  *)
(* ===================================================================== *)

(* the rows of votes_metadata filed under the pair (e, v) *)
Lemma NoDup_map_filter_le1 {A B} `{EqDecision B} (f : A -> B) (l : list A) (k : B) :
  NoDup (map f l) ->
  (List.length (List.filter (fun x => bool_decide (f x = k)) l) <= 1)%nat.
Proof.
  induction l as [|x l IH]; simpl; [lia|].
  intros Hnd. apply NoDup_cons in Hnd as [Hx Hnd]. specialize (IH Hnd).
  destruct (bool_decide (f x = k)) eqn:E; [|exact IH].
  apply bool_decide_eq_true in E. simpl.
  rewrite all_false_filter_nil; [simpl; lia|].
  intros y Hy. apply bool_decide_eq_false. intros Hfy.
  apply Hx. rewrite E, <- Hfy. apply list_elem_of_In. now apply in_map.
Qed.

Lemma record_commit_duplicate now db data ballot raw election :
  data !! "ballotAddress" = Some (JStr ballot) -> ballot <> "" ->
  Middleware.is_missing data "commitHash" = false ->
  as_str (default (JStr "") (data !! "voterAddress")) = Some raw ->
  election_by_ballot db ballot = Some election ->
  In (Election.id election, Py.lower (Py.strip raw)) (map vote_key (votes_metadata db)) ->
  Blockchain.record_commit now db (Some data)
  = (db, Failure 409 "Already committed for this election").
Proof.
  intros Hb Hne Hc Hv He Hin.
  assert (Hbm : Middleware.is_missing data "ballotAddress" = false).
  { unfold Middleware.is_missing. rewrite Hb. now destruct ballot. }
  unfold Blockchain.record_commit. rewrite validate_json_pass.
  - unfold Blockchain.record_commit_fn. rewrite Hb. simpl.
    unfold Middleware.is_missing in Hc.
    destruct (data !! "commitHash") as [ch|]; [|discriminate]. simpl.
    rewrite Hv. simpl. rewrite He.
    apply vote_by_pair_Some_iff in Hin as [m ->]. reflexivity.
  - eapply not_missing_nonempty, Hbm.
  - intros f [<-|[<-|[]]]; assumption.
Qed.

(** C1: in every state the handlers can reach from the empty store, at
    most one votes_metadata row is filed under a pair (election_id,
    voter_address); and when a row is filed under the pair a request names
    (the voter address stripped and lower-cased), record_commit answers 409
    "Already committed for this election" and the store is exactly what it
    was: no row is inserted and no field of the existing row changes. *)
Theorem record_commit_one_receipt_per_pair
    (env : Platform.t) (reqs : list request) :
  let db := run env empty_db reqs in
  (forall (e : Z) (v : string),
      (List.length (List.filter (fun m => bool_decide (vote_key m = (e, v)))
                                (votes_metadata db)) <= 1)%nat)
  /\ (forall now data ballot raw election,
        data !! "ballotAddress" = Some (JStr ballot) -> ballot <> "" ->
        Middleware.is_missing data "commitHash" = false ->
        as_str (default (JStr "") (data !! "voterAddress")) = Some raw ->
        election_by_ballot db ballot = Some election ->
        In (Election.id election, Py.lower (Py.strip raw))
           (map vote_key (votes_metadata db)) ->
        Blockchain.record_commit now db (Some data)
        = (db, Failure 409 "Already committed for this election")
        /\ status_code (Blockchain.record_commit now db (Some data)).2 = 409%nat).
Proof.
  intros db. split.
  - intros e v. apply NoDup_map_filter_le1.
    apply (uq_run env empty_db reqs primary_keys_empty). constructor.
  - intros now data ballot raw election Hb Hne Hc Hv He Hin.
    rewrite (record_commit_duplicate now db data ballot raw election) by assumption.
    split; reflexivity.
Qed.

(* a voter commits twice in the deployed election: the second request is
   refused and the store keeps the first receipt *)
Lemma record_commit_one_receipt_per_pair_witness :
  Blockchain.record_commit 250 Demo.db_committed (Some Demo.commit_body)
  = (Demo.db_committed, Failure 409 "Already committed for this election").
Proof.
  refine (proj1 (proj2 (record_commit_one_receipt_per_pair Demo.env
                          [PostElection 100 1 (Demo.ledger_up false) (Some Demo.election_body);
                           PostVoteCommit 200 (Some Demo.commit_body)])
            250 Demo.commit_body "0xba110t" " 0xABC " _ _ _ _ _ _ _)).
  - reflexivity.
  - discriminate.
  - reflexivity.
  - reflexivity.
  - vm_compute. reflexivity.
  - vm_compute. left. reflexivity.
Defined.

(* ===================================================================== *)
(* C10: record_commit without voterAddress                                *)
(* ===================================================================== *)
Lemma primary_keys_add_vote db meta :
  primary_keys db -> VoteMetadata.id meta = next_vote_id db ->
  vote_by_pair db (VoteMetadata.election_id meta) (VoteMetadata.voter_address meta) = None ->
  primary_keys (Blockchain.add_vote db meta).
Proof.
  intros Hpk Hid Hnone. eapply primary_keys_effect; [exact Hpk|].
  now apply (VoteAdded db _ meta).
Qed.

(** C10: record_commit is guarded by validate_json("ballotAddress",
    "commitHash") only.  A body without the key voterAddress passes it and
    is handled with voter_address = "": when the ballot address names an
    election that has no receipt under ("", election) yet, the request
    succeeds (200, receiptId) and appends a committed receipt whose
    voter_address is the empty string; after that, and after any further
    requests, every commit without voterAddress whose ballot address
    resolves to the same election is answered 409 and changes nothing. *)
Theorem record_commit_without_voter_address
    (env : Platform.t) (now : Z) (db : Database)
    (data : body) (ballot h : string) (tx : option string) (election : Election.t) :
  primary_keys db ->
  data !! "voterAddress" = None ->
  data !! "ballotAddress" = Some (JStr ballot) -> ballot <> "" ->
  data !! "commitHash" = Some (JStr h) -> h <> "" ->
  get_opt_str data "txHash" = Some tx ->
  election_by_ballot db ballot = Some election ->
  vote_by_pair db (Election.id election) "" = None ->
  let meta := VoteMetadata.mk (next_vote_id db) (Election.id election) "" h tx None
                Committed now None in
  Blockchain.record_commit now db (Some data)
  = (Blockchain.add_vote db meta, Success 200 (ReceiptId (next_vote_id db)))
  /\ forall reqs now' data' ballot' election',
       let db' := run env (Blockchain.add_vote db meta) reqs in
       data' !! "voterAddress" = None ->
       data' !! "ballotAddress" = Some (JStr ballot') -> ballot' <> "" ->
       Middleware.is_missing data' "commitHash" = false ->
       election_by_ballot db' ballot' = Some election' ->
       Election.id election' = Election.id election ->
       Blockchain.record_commit now' db' (Some data')
       = (db', Failure 409 "Already committed for this election").
Proof.
  intros Hpk Hv Hb Hbne Hc Hcne Htx He Hnone meta. split.
  - unfold Blockchain.record_commit. rewrite validate_json_pass.
    + unfold Blockchain.record_commit_fn. rewrite Hb, Hc, Hv. simpl.
      rewrite He. change (Py.lower (Py.strip "")) with "". rewrite Hnone.
      simpl. rewrite (get_opt_str_bind _ _ _ Htx). reflexivity.
    + intros ->. now rewrite lookup_empty in Hb.
    + intros f [<-|[<-|[]]]; unfold Middleware.is_missing.
      * rewrite Hb. now destruct ballot.
      * rewrite Hc. now destruct h.
  - intros reqs now' data' ballot' election' db' Hv' Hb' Hbne' Hc' He' Hid.
    apply (record_commit_duplicate now' db' data' ballot' "" election'); try assumption.
    + now rewrite Hv'.
    + rewrite Hid. change (Py.lower (Py.strip "")) with "".
      apply receipts_kept_run.
      * now apply primary_keys_add_vote.
      * simpl. rewrite map_app. apply in_or_app. right. now left.
Qed.

(* an anonymous commit in the deployed election succeeds; after a sync and
   another voter's commit, a second anonymous commit is a duplicate *)
Lemma record_commit_without_voter_address_witness :
  Blockchain.record_commit 200 Demo.db_deployed (Some Demo.anonymous_commit_body)
  = (Demo.db_anonymous, Success 200 (ReceiptId 1))
  /\ Blockchain.record_commit 230 Demo.db_anonymous_later (Some Demo.anonymous_commit_body)
     = (Demo.db_anonymous_later, Failure 409 "Already committed for this election").
Proof.
  assert (Hpk : primary_keys Demo.db_deployed)
    by (apply primary_keys_run, primary_keys_empty).
  pose proof (record_commit_without_voter_address Demo.env 200
                Demo.db_deployed Demo.anonymous_commit_body "0xba110t" "0x1234" None
                (Election.mk 1 (Some 7%Z) "Council" (Some "Council election") (Some "general") 0
                   (Some "0xba110t") 1893456000 1896134400 Active 1 None 100 100)
                Hpk eq_refl eq_refl ltac:(discriminate) eq_refl ltac:(discriminate)
                eq_refl eq_refl eq_refl) as [H1 H2].
  split.
  - exact H1.
  - apply (H2 [PostSyncResults 210 (Demo.ledger_up false) 1;
               PostVoteCommit 220 (Some Demo.commit_body)]
              230 Demo.anonymous_commit_body "0xba110t"
              (Election.mk 1 (Some 7%Z) "Council" (Some "Council election") (Some "general") 0
                 (Some "0xba110t") 1893456000 1896134400 Active 1 None 100 100));
      reflexivity || discriminate.
Defined.

(* ===================================================================== *)
(* C3: how Election.status moves                                          *)
(* ===================================================================== *)

(* neither handler looks at the current status: a finalized election is
   cancelled by cancel_election, and a cancelled one is finalized by
   sync_results, as soon as the ledger does not object *)
Lemma terminal_status_is_not_final :
  (Election.status <$> election_get Demo.db_finalized 1) = Some Finalized
  /\ (Election.status <$>
        election_get (handle Demo.env Demo.db_finalized
                        (PostCancel 300 (Demo.ledger_up true) 1 None)).1 1)
     = Some Cancelled
  /\ (Election.status <$> election_get Demo.db_cancelled 1) = Some Cancelled
  /\ (Election.status <$>
        election_get (handle Demo.env Demo.db_cancelled
                        (PostSyncResults 300 (Demo.ledger_up true) 1)).1 1)
     = Some Finalized.
Proof. vm_compute. repeat split. Qed.

Lemma status_effect db db' e :
  primary_keys db -> effect db db' -> In e (elections db) ->
  exists e', In e' (elections db') /\ Election.id e' = Election.id e
    /\ (Election.status e' = Election.status e
        \/ Election.status e' = Cancelled \/ Election.status e' = Finalized).
Proof.
  intros (Hnd & _) Heff He.
  effect_cases Heff e0;
    try (exists e; simpl; try rewrite Hels; auto; fail).
  - exists e. rewrite Hels. split; [apply in_or_app; now left|auto].
  - rewrite Hels. simpl.
    destruct (Z.eqb_spec (Election.id e) (Election.id (Elections.set_status now e0 s))) as [E|E].
    + exists (Elections.set_status now e0 s). split.
      * apply in_map_iff. exists e. split; [|exact He].
        now rewrite (proj2 (Z.eqb_eq _ _) E).
      * split; [now rewrite E|].
        rewrite set_status_id in E.
        rewrite (NoDup_map_eq Election.id _ e e0 Hnd He Hin E).
        rewrite set_status_status. tauto.
    + exists e. split; [|auto].
      apply in_map_iff. exists e. split; [|exact He].
      now rewrite (proj2 (Z.eqb_neq _ _) E).
Qed.

(** C3 (amended): over any sequence of requests, an election that exists
    keeps its row, and its status is either what it was or one of the two
    terminal values finalized and cancelled; so from a non-terminal status
    it only moves forward in the order pending, active, reveal, tallying,
    finalized, or leaves to cancelled.  The terminal values themselves are
    not protected by the handlers. *)
Theorem status_only_advances_from_non_terminal
    (env : Platform.t) (db : Database) (reqs : list request)
    (e : Election.t) :
  primary_keys db ->
  In e (elections db) ->
  exists e', In e' (elections (run env db reqs))
    /\ Election.id e' = Election.id e
    /\ (Election.status e' = Election.status e \/ terminal (Election.status e') = true)
    /\ (terminal (Election.status e) = false ->
        Election.status e' = Cancelled
        \/ (status_rank (Election.status e) <= status_rank (Election.status e'))%nat).
Proof.
  intros Hpk He.
  assert (Hmain : exists e', In e' (elections (run env db reqs))
            /\ Election.id e' = Election.id e
            /\ (Election.status e' = Election.status e
                \/ terminal (Election.status e') = true)).
  { revert db e Hpk He. induction reqs as [|req reqs IH]; intros db e Hpk He; simpl.
    - exists e. auto.
    - destruct (status_effect db _ e Hpk (handle_effect env db req) He)
        as (e1 & Hin1 & Hid1 & Hst1).
      destruct (IH _ e1 (primary_keys_effect _ _ Hpk (handle_effect env db req)) Hin1)
        as (e2 & Hin2 & Hid2 & Hst2).
      exists e2. split; [exact Hin2|]. split; [congruence|].
      destruct Hst2 as [Hst2|Hst2]; [|now right].
      rewrite Hst2. destruct Hst1 as [->|[->| ->]]; auto. }
  destruct Hmain as (e' & Hin & Hid & Hst).
  exists e'. repeat split; auto.
  intros Hnt. destruct Hst as [->|Hst]; [right; lia|].
  destruct (Election.status e'), (Election.status e); simpl in *;
    try discriminate; auto; right; lia.
Qed.

(* the deployed election, active, after a sync that finds it finalized *)
Lemma status_only_advances_from_non_terminal_witness :
  exists e', In e' (elections Demo.db_finalized)
    /\ Election.id e' = 1%Z
    /\ (Election.status e' = Active \/ terminal (Election.status e') = true)
    /\ (false = false ->
        Election.status e' = Cancelled
        \/ (1 <= status_rank (Election.status e'))%nat).
Proof.
  apply (status_only_advances_from_non_terminal Demo.env Demo.db_deployed
           [PostSyncResults 200 (Demo.ledger_up true) 1]
           (Election.mk 1 (Some 7%Z) "Council" (Some "Council election") (Some "general") 0
              (Some "0xba110t") 1893456000 1896134400 Active 1 None 100 100)).
  - apply primary_keys_run, primary_keys_empty.
  - vm_compute. left. reflexivity.
Defined.

(* ===================================================================== *)
(* C4: check_eligibility                                                  *)
(* ===================================================================== *)

(* the voter of wallet 0xabc is deactivated locally, the ledger still has
   the wallet as eligible, and the endpoint reports it eligible *)
Lemma locally_deactivated_wallet_reported_eligible :
  (Voter.is_active <$> Voters.voter_by_wallet Demo.db_deactivated "0xabc") = Some false
  /\ Web3Service.is_voter_eligible (Demo.ledger_up false) "0xabc" = Returns true
  /\ (handle Demo.env Demo.db_deactivated
        (GetEligibility (Demo.ledger_up false) "0xabc")).2
     = Success 200 (Eligibility "0xabc" true JNull).
Proof. vm_compute. repeat split. Qed.

(** C4 (amended): check_eligibility reports what the ledger-side query
    is_voter_eligible(wallet) returns, and nothing else decides it: the
    answer is the same for every local store (the Voter row and its
    is_active flag are not read), it says eligible exactly when the ledger
    query returned true, it is produced whenever both ledger queries
    return, and the store is left as it was.  When either ledger query
    raises, the answer is an error (500) that carries the message of the
    exception. *)
Theorem check_eligibility_reports_ledger_answer
    (env : Platform.t) (ws : Web3Service.t) (wallet : string) :
  (forall db1 db2,
      (handle env db1 (GetEligibility ws wallet)).2
      = (handle env db2 (GetEligibility ws wallet)).2)
  /\ (forall db, (handle env db (GetEligibility ws wallet)).1 = db)
  /\ (forall db code w eligible info,
        (handle env db (GetEligibility ws wallet)).2
        = Success code (Eligibility w eligible info) ->
        Web3Service.is_voter_eligible ws wallet = Returns eligible)
  /\ (forall db eligible info,
        Web3Service.is_voter_eligible ws wallet = Returns eligible ->
        Web3Service.get_voter_info ws wallet = Returns info ->
        (handle env db (GetEligibility ws wallet)).2
        = Success 200 (Eligibility wallet eligible info))
  /\ (forall db msg,
        Web3Service.is_voter_eligible ws wallet = Raises msg ->
        (handle env db (GetEligibility ws wallet)).2 = Failure 500 msg)
  /\ (forall db eligible msg,
        Web3Service.is_voter_eligible ws wallet = Returns eligible ->
        Web3Service.get_voter_info ws wallet = Raises msg ->
        (handle env db (GetEligibility ws wallet)).2 = Failure 500 msg).
Proof.
  repeat split; simpl; unfold Voters.check_eligibility.
  - intros db code w eligible info.
    destruct (Web3Service.is_voter_eligible ws wallet) as [el|]; [|discriminate].
    destruct (Web3Service.get_voter_info ws wallet); [|discriminate].
    now intros [= _ _ -> _].
  - intros db eligible info -> ->. reflexivity.
  - intros db msg ->. reflexivity.
  - intros db eligible msg -> ->. reflexivity.
Qed.

(* a ledger-eligible wallet is reported eligible, whatever the store
   holds; when the ledger cannot be reached the answer is its error *)
Lemma check_eligibility_reports_ledger_answer_witness :
  (handle Demo.env Demo.db_deactivated
     (GetEligibility (Demo.ledger_up false) "0xabc")).2
  = Success 200 (Eligibility "0xabc" true JNull)
  /\ (handle Demo.env Demo.db_deactivated
        (GetEligibility Demo.ledger_down "0xabc")).2
     = Failure 500 "connection refused".
Proof.
  split.
  - apply (proj1 (proj2 (proj2 (proj2
             (check_eligibility_reports_ledger_answer Demo.env
                (Demo.ledger_up false) "0xabc"))))); reflexivity.
  - apply (proj1 (proj2 (proj2 (proj2 (proj2
             (check_eligibility_reports_ledger_answer Demo.env
                Demo.ledger_down "0xabc")))))); reflexivity.
Defined.

(* ===================================================================== *)
(* C5: create_election, with and without the ledger                       *)
(* ===================================================================== *)





(* the second election a ledger numbers like the first is not stored: the
   commit fails on the unique onchain_id *)
Lemma create_election_duplicate_onchain_id :
  Elections.create_election Demo.env 100 1 (Demo.ledger_up false) Demo.db_deployed
    (Some Demo.election_body)
  = (Demo.db_deployed, ServerError).
Proof. vm_compute. reflexivity. Qed.

(* ===================================================================== *)
(* C6: cancel_election                                                    *)
(* ===================================================================== *)

(* get_or_404 after a row was written back under its key *)
Lemma election_get_update db election_id (e e' : Election.t) :
  election_get db election_id = Some e ->
  Election.id e' = Election.id e ->
  election_get (Elections.update_election db e') election_id = Some e'.
Proof.
  unfold election_get, Elections.update_election. simpl.
  intros Hf Hid.
  assert (Hk : Election.id e' = election_id).
  { apply find_some in Hf as [_ H]. apply Z.eqb_eq in H. congruence. }
  clear Hid. revert Hf. rewrite Hk.
  induction (elections db) as [|x l IH]; simpl; [discriminate|].
  destruct (Z.eqb_spec (Election.id x) election_id) as [E|E]; simpl.
  - intros _. now rewrite Hk, Z.eqb_refl.
  - rewrite (proj2 (Z.eqb_neq _ _) E). exact IH.
Qed.

(** C6: for an election whose ballot_address is set, a failure of the
    on-chain cancel makes cancel_election fail (500, "On-chain cancel
    failed: ...") and leaves the store, hence the local status, unchanged;
    for an election without ballot address (None, or the empty string,
    which the handler treats alike) the ledger is not consulted and the
    request always succeeds, setting status cancelled. *)
Theorem cancel_election_all_or_nothing
    (now : Z) (ws : Web3Service.t) (db : Database) (election_id : Z)
    (request_json : option body) (election : Election.t) :
  election_get db election_id = Some election ->
  let reason := default (JStr "Cancelled by admin")
                  (default ∅ request_json !! "reason") in
  (forall a msg,
      Election.ballot_address election = Some a -> a <> "" ->
      Web3Service.send_cancel_election ws a reason = Raises msg ->
      Elections.cancel_election now ws db election_id request_json
      = (db, Failure 500 ("On-chain cancel failed: " ++ msg)))
  /\ (Py.truthy (Election.ballot_address election) = false ->
      exists db' election',
        (forall ws', Elections.cancel_election now ws' db election_id request_json
                     = (db', Success 200 (Message "Election cancelled")))
        /\ election_get db' election_id = Some election'
        /\ Election.status election' = Cancelled).
Proof.
  intros He reason. split.
  - intros a msg Ha Hne Hraise. unfold Elections.cancel_election.
    rewrite He, Ha. destruct a as [|c s]; [contradiction|].
    fold reason. now rewrite Hraise.
  - intros Hfalsy.
    exists (Elections.update_election db (Elections.set_status now election Cancelled)),
           (Elections.set_status now election Cancelled).
    split; [|split].
    + intros ws'. unfold Elections.cancel_election. rewrite He.
      destruct (Election.ballot_address election) as [[|c s]|]; try reflexivity.
      discriminate.
    + apply (election_get_update db election_id election); [exact He|].
      apply set_status_id.
    + apply set_status_status.
Qed.

(* the election created while the ledger was down has no ballot address:
   it is cancelled locally, even though the ledger is still down *)
Lemma cancel_election_all_or_nothing_witness :
  exists db' election',
    (forall ws', Elections.cancel_election 200 ws' Demo.db_local_only 1 None
                 = (db', Success 200 (Message "Election cancelled")))
    /\ election_get db' 1 = Some election'
    /\ Election.status election' = Cancelled.
Proof.
  refine (proj2 (cancel_election_all_or_nothing 200 Demo.ledger_down Demo.db_local_only
                   1 None
                   (Election.mk 1 None "Council" (Some "Council election") (Some "general") 0 None
                      1893456000 1896134400 Pending 1 None 100 100) _) _);
    reflexivity.
Defined.















(* ===================================================================== *)
(* C9: record_reveal                                                      *)
(* ===================================================================== *)

(* a receipt that is already revealed is revealed again: the request is
   answered 200, not 404, and revealed_at moves from 300 to 400 *)
Lemma record_reveal_accepts_revealed_receipt :
  (VoteMetadata.phase <$> vote_by_pair Demo.db_revealed 1 "0xabc") = Some Revealed
  /\ (VoteMetadata.revealed_at <$> vote_by_pair Demo.db_revealed 1 "0xabc")
     = Some (Some 300%Z)
  /\ (Blockchain.record_reveal 400 Demo.db_revealed (Some Demo.reveal_body)).2
     = Success 200 Empty
  /\ (VoteMetadata.revealed_at <$>
        vote_by_pair (Blockchain.record_reveal 400 Demo.db_revealed
                        (Some Demo.reveal_body)).1 1 "0xabc")
     = Some (Some 400%Z).
Proof. vm_compute. repeat split. Qed.

(* the first row filed under a pair, after that row was written back *)
Lemma vote_by_pair_update db e v (meta meta' : VoteMetadata.t) :
  vote_by_pair db e v = Some meta ->
  vote_key meta' = vote_key meta ->
  VoteMetadata.id meta' = VoteMetadata.id meta ->
  vote_by_pair (Blockchain.update_vote db meta') e v = Some meta'.
Proof.
  unfold vote_by_pair, Blockchain.update_vote. simpl. intros Hf Hkey Hid.
  assert (Hk : vote_key meta' = (e, v)).
  { rewrite Hkey. now apply (vote_by_pair_In db e v meta). }
  unfold vote_key in Hk. injection Hk as Hke Hkv.
  revert Hf. induction (votes_metadata db) as [|x l IH]; simpl; [discriminate|].
  destruct (Z.eqb (VoteMetadata.election_id x) e
            && bool_decide (VoteMetadata.voter_address x = v)) eqn:Hx.
  - intros [= ->]. rewrite Hid, Z.eqb_refl. simpl.
    now rewrite Hke, Hkv, Z.eqb_refl, bool_decide_eq_true_2.
  - intros Hf. destruct (Z.eqb (VoteMetadata.id x) (VoteMetadata.id meta')); simpl.
    + now rewrite Hke, Hkv, Z.eqb_refl, bool_decide_eq_true_2.
    + rewrite Hx. now apply IH.
Qed.

(** C9 (amended): record_reveal requires an existing receipt for the
    (election, voter) pair, whatever its phase.  With no receipt for the
    pair it answers 404 "No commit found" and the store is unchanged, so no
    receipt is created; with a receipt, committed or already revealed, it
    succeeds, and the receipt of the pair then has phase revealed and
    revealed_at set to the time of the request, its other commit fields
    and the number of rows being as before. *)
Theorem record_reveal_needs_a_receipt
    (now : Z) (db : Database) (data : body) (ballot raw : string)
    (election : Election.t) :
  data !! "ballotAddress" = Some (JStr ballot) -> ballot <> "" ->
  data !! "voterAddress" = Some (JStr raw) -> raw <> "" ->
  election_by_ballot db ballot = Some election ->
  let voter := Py.lower (Py.strip raw) in
  (vote_by_pair db (Election.id election) voter = None ->
   Blockchain.record_reveal now db (Some data) = (db, Failure 404 "No commit found"))
  /\ (forall meta tx,
        vote_by_pair db (Election.id election) voter = Some meta ->
        get_opt_str data "txHash" = Some tx ->
        exists db' meta',
          Blockchain.record_reveal now db (Some data) = (db', Success 200 Empty)
          /\ vote_by_pair db' (Election.id election) voter = Some meta'
          /\ VoteMetadata.phase meta' = Revealed
          /\ VoteMetadata.revealed_at meta' = Some now
          /\ VoteMetadata.reveal_tx_hash meta' = tx
          /\ VoteMetadata.id meta' = VoteMetadata.id meta
          /\ VoteMetadata.receipt_hash meta' = VoteMetadata.receipt_hash meta
          /\ VoteMetadata.committed_at meta' = VoteMetadata.committed_at meta
          /\ List.length (votes_metadata db') = List.length (votes_metadata db)).
Proof.
  intros Hb Hbne Hv Hvne He voter.
  assert (Hpass : Blockchain.record_reveal now db (Some data)
                  = unhandled db (Blockchain.record_reveal_fn now db data)).
  { unfold Blockchain.record_reveal. rewrite validate_json_pass; [reflexivity| |].
    - intros ->. now rewrite lookup_empty in Hb.
    - intros f [<-|[<-|[]]]; unfold Middleware.is_missing.
      + rewrite Hb. now destruct ballot.
      + rewrite Hv. now destruct raw. }
  rewrite Hpass. unfold Blockchain.record_reveal_fn. rewrite Hv, Hb. simpl.
  rewrite He. fold voter. split.
  - intros ->. reflexivity.
  - intros meta tx Hm Htx. rewrite Hm. simpl.
    rewrite (get_opt_str_bind _ _ _ Htx). simpl.
    eexists. eexists. split; [reflexivity|]. split.
    + apply (vote_by_pair_update db _ _ meta); [exact Hm|reflexivity|reflexivity].
    + simpl. repeat split. now rewrite length_map.
Qed.

(* the committed receipt of 0xabc in the deployed election is revealed *)
Lemma record_reveal_needs_a_receipt_witness :
  Blockchain.record_reveal 300 Demo.db_deployed (Some Demo.reveal_body)
  = (Demo.db_deployed, Failure 404 "No commit found")
  /\ (Blockchain.record_reveal 300 Demo.db_committed (Some Demo.reveal_body)).2
     = Success 200 Empty.
Proof.
  split.
  - refine (proj1 (record_reveal_needs_a_receipt 300 Demo.db_deployed Demo.reveal_body
                     "0xba110t" "0xabc" _ eq_refl _ eq_refl _ _) _);
      reflexivity || discriminate.
  - destruct (proj2 (record_reveal_needs_a_receipt 300 Demo.db_committed Demo.reveal_body
                       "0xba110t" "0xabc"
                       (Election.mk 1 (Some 7%Z) "Council" (Some "Council election") (Some "general") 0
                          (Some "0xba110t") 1893456000 1896134400 Active 1 None 100 100)
                       eq_refl ltac:(discriminate) eq_refl ltac:(discriminate) eq_refl)
                    (VoteMetadata.mk 1 1 "0xabc" "0x1234" None None Committed 200 None)
                    None eq_refl eq_refl) as (db' & meta' & Heq & _).
    now rewrite Heq.
Defined.

(* ===================================================================== *)
(* Further properties of the handlers                                     *)
(* ===================================================================== *)

(* --------------------------------------------------------------------- *)
(* What a request writes                                                  *)
(* --------------------------------------------------------------------- *)
Lemma election_by_ballot_In db a e :
  election_by_ballot db a = Some e ->
  In e (elections db) /\ Election.ballot_address e = Some a.
Proof.
  unfold election_by_ballot. intros H. apply find_some in H as [Hin Hb].
  now apply bool_decide_eq_true in Hb.
Qed.

Lemma election_filter_by_ballot_In db v e :
  election_filter_by_ballot db v = Some (Some e) -> In e (elections db).
Proof.
  unfold election_filter_by_ballot.
  destruct (bind_text v) as [[a|]|]; try discriminate; intros [= H].
  - now apply election_by_ballot_In in H as [Hin _].
  - now apply find_some in H as [Hin _].
Qed.

Lemma cached_rows_all now eid m info rs : forall id,
  Forall (fun r => Result.election_id r = eid)
         (Elections.cached_rows now eid m info id rs).
Proof.
  induction rs as [|r rs IH]; intros id; simpl; constructor; [reflexivity|apply IH].
Qed.

Lemma candidate_rows_all now eid items : forall id cands,
  Elections.candidate_rows now eid id items = Some cands ->
  Forall (fun c => Candidate.election_id c = eid) cands.
Proof.
  induction items as [|c items IH]; intros id cands; simpl.
  - intros [= <-]. constructor.
  - destruct (Elections.candidate_row now eid id c) as [cand|] eqn:Hc; simpl; [|discriminate].
    destruct (Elections.candidate_rows now eid (id + 1)%Z items) as [rows|] eqn:Hr;
      simpl; [|discriminate].
    intros [= <-]. constructor; [|now apply (IH (id + 1)%Z)].
    unfold Elections.candidate_row in Hc. destruct c; try discriminate.
    destruct (obj_get kv "name" ≫= bind_text_required); simpl in Hc; [|discriminate].
    destruct (bind_text (default (JStr "Independent") (obj_get kv "party")));
      simpl in Hc; [|discriminate].
    destruct (bind_text (default (JStr "") (obj_get kv "description")));
      simpl in Hc; [|discriminate].
    now injection Hc as <-.
Qed.

(* the store and the response of a request: the store is written only when
   the response is a success *)
Lemma validate_json_outcome required fn db j (P : Database * response -> Prop) :
  (forall msg, P (db, Failure 400 msg)) ->
  (forall data, P (fn db data)) ->
  P (Middleware.validate_json required fn db j).
Proof.
  intros Hrej Hfn.
  destruct (validate_json_cases required fn db j) as [[msg ->]|(data & _ & _ & ->)]; auto.
Qed.

Lemma unhandled_outcome db (o : option (Database * response))
    (P : Database * response -> Prop) :
  P (db, ServerError) -> (forall x, o = Some x -> P x) -> P (unhandled db o).
Proof. intros H1 H2. destruct o as [x|]; simpl; auto. Qed.

(* the new store is one of the changes, and differs from the old one only
   under a success *)
Local Abbreviation wrote db x :=
  (change db (fst x) /\ (fst x = db \/ exists c d, snd x = Success c d)).

Ltac unchanged := split; [now apply Unchanged|now left].

Lemma record_commit_outcome now db j :
  wrote db (Blockchain.record_commit now db j).
Proof.
  apply (validate_json_outcome _ _ _ _ (fun x => wrote db x)); [intros; unchanged|].
  intros data.
  apply (unhandled_outcome _ _ (fun x => wrote db x)); [unchanged|]. intros [db' r].
  unfold Blockchain.record_commit_fn.
  destruct (data !! "ballotAddress") as [ba|]; simpl; [|discriminate].
  destruct (data !! "commitHash") as [ch|]; simpl; [|discriminate].
  destruct (as_str (default (JStr "") (data !! "voterAddress"))) as [v|]; simpl; [|discriminate].
  destruct (election_filter_by_ballot db ba) as [[e|]|] eqn:He; simpl; [| |discriminate].
  2:{ intros [= <- <-]. unchanged. }
  destruct (vote_by_pair db (Election.id e) (Py.lower (Py.strip v))) eqn:Hv.
  { intros [= <- <-]. unchanged. }
  destruct (bind_text_required ch) as [h|]; simpl; [|discriminate].
  destruct (bind_text (default JNull (data !! "txHash"))) as [tx|]; simpl; [|discriminate].
  intros [= <- <-]. apply election_filter_by_ballot_In in He. split.
  - eapply (ReceiptAdded db _ e); [exact He| | | |reflexivity]; reflexivity.
  - right. eauto.
Qed.

Lemma record_reveal_outcome now db j :
  wrote db (Blockchain.record_reveal now db j).
Proof.
  apply (validate_json_outcome _ _ _ _ (fun x => wrote db x)); [intros; unchanged|].
  intros data.
  apply (unhandled_outcome _ _ (fun x => wrote db x)); [unchanged|]. intros [db' r].
  unfold Blockchain.record_reveal_fn.
  destruct (data !! "voterAddress" ≫= as_str) as [v|]; simpl; [|discriminate].
  destruct (data !! "ballotAddress") as [ba|]; simpl; [|discriminate].
  destruct (election_filter_by_ballot db ba) as [[e|]|]; simpl; [| |discriminate].
  2:{ intros [= <- <-]. unchanged. }
  destruct (vote_by_pair db (Election.id e) (Py.lower (Py.strip v))) as [meta|] eqn:Hv.
  2:{ intros [= <- <-]. unchanged. }
  destruct (bind_text (default JNull (data !! "txHash"))) as [tx|]; simpl; [|discriminate].
  intros [= <- <-]. apply vote_by_pair_In in Hv as [Hin _]. split.
  - now apply (ReceiptRevealed db _ meta tx now).
  - right. eauto.
Qed.

Lemma create_election_outcome env now user ws db j :
  wrote db (Elections.create_election env now user ws db j).
Proof.
  apply (validate_json_outcome _ _ _ _ (fun x => wrote db x)); [intros; unchanged|].
  intros data.
  apply (unhandled_outcome _ _ (fun x => wrote db x)); [unchanged|]. intros [db' r].
  unfold Elections.create_election_fn.
  destruct ((data !! "commitDeadline" ≫= as_str) ≫= Platform.fromisoformat env)
    as [[c|c]|]; simpl; [| |discriminate].
  2:{ destruct (_ ≫= Platform.fromisoformat env); discriminate. }
  destruct ((data !! "revealDeadline" ≫= as_str) ≫= Platform.fromisoformat env)
    as [rd|]; simpl; [|discriminate].
  destruct (c <=? now)%Z. { intros [= <- <-]. unchanged. }
  destruct rd as [rv|rv]; [|discriminate].
  destruct (rv <=? c)%Z. { intros [= <- <-]. unchanged. }
  destruct (data !! "candidates" ≫= py_len) as [n|]; [|discriminate].
  destruct (n <? 2)%nat. { intros [= <- <-]. unchanged. }
  unfold Elections.create_election_rows.
  destruct (py_int _) as [k|]; simpl; [|discriminate].
  destruct (data !! "name") as [nm|]; simpl; [|discriminate].
  destruct (data !! "description") as [ds|]; simpl; [|discriminate].
  destruct (bind_text_required nm) as [nmc|]; simpl; [|discriminate].
  destruct (bind_text ds) as [dsc|]; simpl; [|discriminate].
  destruct (bind_enum _) as [tyc|]; simpl; [|discriminate].
  destruct (require _) as [fits|]; simpl; [|discriminate].
  destruct (match data !! "candidates" with Some (JArr xs) => Some xs | _ => None end)
    as [items|]; simpl; [|discriminate].
  destruct (Elections.candidate_rows now (next_election_id db) (next_candidate_id db) items)
    as [cands|] eqn:Hrows; simpl; [|discriminate].
  apply candidate_rows_all in Hrows.
  destruct (require _) as [unique|]; simpl; [|discriminate].
  intros [= <- <-]. split; [|right; eauto].
  destruct (Web3Service.create_election ws nm ds c rv _ _ k _) as [[oid addr]|msg];
    (eapply (ElectionCreated db _ _ cands); [| |reflexivity]; [reflexivity|exact Hrows]).
Qed.

Lemma sync_results_outcome now ws db election_id :
  wrote db (Elections.sync_results now ws db election_id).
Proof.
  unfold Elections.sync_results.
  destruct (election_get db election_id) as [e|] eqn:He; [|unchanged].
  apply election_get_In in He as [Hin Hid].
  destruct (Election.ballot_address e) as [[|a s]|] eqn:Hb; try unchanged.
  destruct (Web3Service.get_ballot_results ws _) as [fetched|msg]; [|unchanged].
  destruct (Web3Service.get_election_info ws _) as [info|msg]; [|unchanged].
  simpl. split; [|right; eauto].
  eapply (ResultsSynced db _ now e); simpl; [exact Hin|now rewrite Hb| |].
  - rewrite Hid. apply cached_rows_all.
  - rewrite Hid. reflexivity.
Qed.

Lemma cancel_election_outcome now ws db election_id j :
  wrote db (Elections.cancel_election now ws db election_id j).
Proof.
  unfold Elections.cancel_election.
  destruct (election_get db election_id) as [e|] eqn:He; [|unchanged].
  apply election_get_In in He as [Hin _].
  assert (Hc : wrote db (Elections.update_election db (Elections.set_status now e Cancelled),
                         Success 200 (Message "Election cancelled"))).
  { simpl. split; [now apply (ElectionCancelled db _ now e)|right; eauto]. }
  destruct (Election.ballot_address e) as [[|a s]|]; try exact Hc.
  destruct (Web3Service.send_cancel_election ws _ _); [exact Hc|unchanged].
Qed.

Lemma handle_outcome env db req :
  wrote db (handle env db req).
Proof.
  destruct req; simpl.
  - apply record_commit_outcome.
  - apply record_reveal_outcome.
  - apply create_election_outcome.
  - apply sync_results_outcome.
  - apply cancel_election_outcome.
  - unchanged.
  - unfold Voters.deactivate_voter. destruct (Voters.voter_get db voter_id); [|unchanged].
    simpl. split; [now apply (VoterFlagged db _ voter_id false)|right; eauto].
  - unfold Voters.reactivate_voter. destruct (Voters.voter_get db voter_id); [|unchanged].
    simpl. split; [now apply (VoterFlagged db _ voter_id true)|right; eauto].
Qed.

Lemma handle_change env db req :
  change db (handle env db req).1.
Proof. apply handle_outcome. Qed.

(** X1: a request that is not answered with a success has written
    nothing: whenever the response of a handler is an error (a 4xx or 5xx
    answer of its own, or an uncaught exception) the store is exactly what
    it was before the request. *)
Theorem failed_request_writes_nothing
    (env : Platform.t) (db : Database) (req : request) :
  (forall code data, (handle env db req).2 <> Success code data) ->
  (handle env db req).1 = db.
Proof.
  intros Hfail. destruct (handle_outcome env db req) as [_ [H|(c & d & H)]].
  - exact H.
  - now apply Hfail in H.
Qed.

(* the sync of an election that was never deployed is refused: the cache
   and the election are as before *)
Lemma failed_request_writes_nothing_witness :
  (handle Demo.env Demo.db_local_only
     (PostSyncResults 200 (Demo.ledger_up true) 1)).1
  = Demo.db_local_only.
Proof.
  apply (failed_request_writes_nothing Demo.env Demo.db_local_only
           (PostSyncResults 200 (Demo.ledger_up true) 1)).
  intros code data. vm_compute. discriminate.
Defined.

(* --------------------------------------------------------------------- *)
(* validate_json, seen from a client                                      *)
(* --------------------------------------------------------------------- *)
Lemma is_missing_false_iff (data : body) (f : string) :
  Middleware.is_missing data f = false
  <-> exists v, data !! f = Some v /\ v <> JStr "".
Proof.
  unfold Middleware.is_missing. split.
  - destruct (data !! f) as [v|]; [|discriminate]. intros H. exists v. split; [reflexivity|].
    intros ->. discriminate.
  - intros (v & -> & Hv). destruct v as [| | |s| |]; try reflexivity.
    destruct s; [contradiction|reflexivity].
Qed.

Lemma existsb_is_str (f : string) (xs : list json) :
  existsb (is_str f) xs = true <-> In (JStr f) xs.
Proof.
  rewrite existsb_exists. split.
  - intros (x & Hin & Hx). destruct x; try discriminate.
    simpl in Hx. apply String.eqb_eq in Hx. now subst.
  - intros Hin. exists (JStr f). split; [exact Hin|]. simpl. apply String.eqb_refl.
Qed.

Lemma prefix_app (x s : string) :
  String.prefix x s = true <-> exists post, s = x ++ post.
Proof.
  revert s. induction x as [|a x IH]; intros s.
  - split; [exists s; reflexivity|]. intros _. now destruct s.
  - destruct s as [|b s]; simpl.
    + split; [discriminate|intros [post [=]]].
    + destruct (ascii_dec a b) as [->|Hab].
      * rewrite IH. split; intros [post Hp]; exists post.
        -- simpl. now rewrite Hp.
        -- simpl in Hp. now injection Hp.
      * split; [discriminate|]. intros [post Hp]. simpl in Hp.
        injection Hp as Hab' _. congruence.
Qed.

(* Py.contains is the substring test *)
Lemma contains_app (x s : string) :
  Py.contains x s = true <-> exists pre post, s = pre ++ x ++ post.
Proof.
  induction s as [|b s IH].
  - unfold Py.contains. rewrite orb_false_r, prefix_app. split.
    + intros [post Hp]. now exists "", post.
    + intros (pre & post & Hp). destruct pre; [eauto|discriminate].
  - change (Py.contains x (String b s))
      with (String.prefix x (String b s) || Py.contains x s).
    rewrite orb_true_iff, prefix_app, IH. split.
    + intros [[post Hp]|(pre & post & Hp)].
      * now exists "", post.
      * exists (String b pre), post. simpl. now rewrite Hp.
    + intros (pre & post & Hp). destruct pre as [|a pre]; simpl in Hp.
      * left. eauto.
      * right. injection Hp as _ Hp. eauto.
Qed.

Lemma members_nonempty (kv : list (string * json)) : kv <> [] -> members kv <> ∅.
Proof.
  unfold members. destruct kv as [|[k v] kv]; [contradiction|]. intros _ H.
  rewrite reverse_cons, list_to_map_app in H.
  apply (f_equal (fun m => m !! k)) in H. rewrite lookup_empty in H.
  apply lookup_union_None in H as [_ H]. simpl in H.
  now rewrite lookup_insert_eq in H.
Qed.

Lemma validate_json_any_object {S} (f0 : string) (fs : list string)
    (fn : S -> body -> S * response) (st : S) (kv : list (string * json)) :
  kv <> [] ->
  Middleware.validate_json_any f0 fs fn st (Some (JObj kv))
  = Middleware.validate_json (f0 :: fs) fn st (Some (members kv)).
Proof. destruct kv; [contradiction|reflexivity]. Qed.

Lemma validate_json_any_array {S} (f0 : string) (fs : list string)
    (fn : S -> body -> S * response) (st : S) (xs : list json) :
  xs <> [] ->
  Middleware.validate_json_any f0 fs fn st (Some (JArr xs))
  = if existsb (fun f => existsb (is_str f) xs) (f0 :: fs)
    then (st, ServerError)
    else (st, Failure 400 ("Missing fields: " ++ Py.join ", " (f0 :: fs))).
Proof. destruct xs; [contradiction|reflexivity]. Qed.

Lemma validate_json_any_string {S} (f0 : string) (fs : list string)
    (fn : S -> body -> S * response) (st : S) (s : string) :
  s <> "" ->
  Middleware.validate_json_any f0 fs fn st (Some (JStr s))
  = if existsb (fun f => Py.contains f s) (f0 :: fs)
    then (st, ServerError)
    else (st, Failure 400 ("Missing fields: " ++ Py.join ", " (f0 :: fs))).
Proof. destruct s; [contradiction|reflexivity]. Qed.

(** X2: validate_json, over every JSON value a request can carry, runs
    the wrapped handler exactly on a non-empty object in which every
    required field is present with a value other than the empty string
    (null, false, 0, [] and whitespace count as present); the handler is
    given that object.  In every other case the handler is not run and the
    state is untouched, and the answer does not depend on the handler.  It
    is 400 when there is no JSON, when the value is falsy (null, false, 0,
    the empty string, [] or the empty object), when a required field of an
    object is absent or the empty string, when the body is an array that
    holds none of the required names, and when it is a string that
    contains none of them.  It is an uncaught exception (500) when the
    body is a non-zero number or true, an array that holds a required name,
    or a non-empty string that contains one. *)
Theorem validate_json_gate {S} (f0 : string) (fs : list string)
    (fn : S -> body -> S * response) (st : S) (j : option json) :
  (forall kv,
      j = Some (JObj kv) -> kv <> [] ->
      (forall f, In f (f0 :: fs) -> exists v, members kv !! f = Some v /\ v <> JStr "") ->
      Middleware.validate_json_any f0 fs fn st j = fn st (members kv))
  /\ (j = None
      \/ (exists v, j = Some v /\ py_bool v = false)
      \/ (exists kv f, j = Some (JObj kv) /\ In f (f0 :: fs)
                       /\ (members kv !! f = None \/ members kv !! f = Some (JStr "")))
      \/ (exists xs, j = Some (JArr xs)
                     /\ forall f, In f (f0 :: fs) -> ~ In (JStr f) xs)
      \/ (exists s, j = Some (JStr s)
                    /\ forall f pre post, In f (f0 :: fs) -> s <> pre ++ f ++ post) ->
      exists msg, forall fn' : S -> body -> S * response,
        Middleware.validate_json_any f0 fs fn' st j = (st, Failure 400 msg))
  /\ ((exists n, j = Some (JNum n) /\ n <> 0%Z)
      \/ j = Some (JBool true)
      \/ (exists xs f, j = Some (JArr xs) /\ In f (f0 :: fs) /\ In (JStr f) xs)
      \/ (exists s f pre post, j = Some (JStr s) /\ s <> "" /\ In f (f0 :: fs)
                               /\ s = pre ++ f ++ post) ->
      forall fn' : S -> body -> S * response,
        Middleware.validate_json_any f0 fs fn' st j = (st, ServerError)).
Proof.
  split; [|split].
  - intros kv -> Hne Hall. rewrite validate_json_any_object by exact Hne.
    apply validate_json_pass; [now apply members_nonempty|].
    intros f Hf. apply is_missing_false_iff. now apply Hall.
  - intros [->|[(v & -> & Hv)|[(kv & f & -> & Hf & Hmiss)|[(xs & -> & Hxs)|(s & -> & Hs)]]]].
    + eexists. intros fn'. reflexivity.
    + eexists. intros fn'. unfold Middleware.validate_json_any. rewrite Hv. reflexivity.
    + destruct kv as [|m kv]; [eexists; intros fn'; reflexivity|].
      set (kv' := m :: kv) in *.
      assert (Hkv : kv' <> []) by discriminate. clearbody kv'.
      destruct (bool_decide (members kv' = ∅)) eqn:Hemp.
      { eexists. intros fn'. rewrite validate_json_any_object by exact Hkv.
        unfold Middleware.validate_json. rewrite Hemp. reflexivity. }
      destruct (List.filter (Middleware.is_missing (members kv')) (f0 :: fs)) eqn:Hfil.
      * exfalso. pose proof (filter_nil_all_false _ _ Hfil f Hf) as Hpres.
        apply is_missing_false_iff in Hpres as (v & Hv & Hne).
        destruct Hmiss as [Hm|Hm]; rewrite Hm in Hv; [discriminate|].
        injection Hv as <-. now apply Hne.
      * eexists. intros fn'. rewrite validate_json_any_object by exact Hkv.
        unfold Middleware.validate_json. rewrite Hemp, Hfil. reflexivity.
    + destruct xs as [|x xs]; [eexists; intros fn'; reflexivity|].
      set (xs' := x :: xs) in *.
      assert (Hxs' : xs' <> []) by discriminate. clearbody xs'.
      assert (Hex : existsb (fun f => existsb (is_str f) xs') (f0 :: fs) = false).
      { apply existsb_false_forall. intros f Hf.
        destruct (existsb (is_str f) xs') eqn:E; [|reflexivity].
        apply existsb_is_str in E. now apply Hxs in E. }
      eexists. intros fn'. rewrite validate_json_any_array by exact Hxs'.
      rewrite Hex. reflexivity.
    + destruct s as [|a s]; [eexists; intros fn'; reflexivity|].
      set (s' := String a s) in *.
      assert (Hs' : s' <> "") by discriminate. clearbody s'.
      assert (Hex : existsb (fun f => Py.contains f s') (f0 :: fs) = false).
      { apply existsb_false_forall. intros f Hf.
        destruct (Py.contains f s') eqn:E; [|reflexivity].
        apply contains_app in E as (pre & post & E). now apply Hs in E. }
      eexists. intros fn'. rewrite validate_json_any_string by exact Hs'.
      rewrite Hex. reflexivity.
  - intros [(n & -> & Hn)|[->|[(xs & f & -> & Hf & Hin)|(s & f & pre & post & -> & Hne & Hf & Hs)]]]
           fn'.
    + unfold Middleware.validate_json_any. simpl.
      now rewrite (proj2 (Z.eqb_neq n 0) Hn).
    + reflexivity.
    + assert (Hxs : xs <> []) by (intros ->; destruct Hin).
      rewrite validate_json_any_array by exact Hxs.
      assert (Hex : existsb (fun f => existsb (is_str f) xs) (f0 :: fs) = true).
      { apply existsb_exists. exists f. split; [exact Hf|]. now apply existsb_is_str. }
      now rewrite Hex.
    + rewrite validate_json_any_string by exact Hne.
      assert (Hex : existsb (fun f => Py.contains f s) (f0 :: fs) = true).
      { apply existsb_exists. exists f. split; [exact Hf|].
        apply contains_app. eauto. }
      now rewrite Hex.
Qed.

(* a commit whose commitHash is the empty string is turned away by the
   decorator; a body that is the list of the two field names, not an
   object, makes it raise *)
Lemma validate_json_gate_witness :
  (exists msg, forall fn' : Database -> body -> Database * response,
      Middleware.validate_json_any "ballotAddress" ["commitHash"] fn' empty_db
        (Some (JObj [("ballotAddress", JStr "0xba110t"); ("commitHash", JStr "")]))
      = (empty_db, Failure 400 msg))
  /\ (forall fn' : Database -> body -> Database * response,
        Middleware.validate_json_any "ballotAddress" ["commitHash"] fn' empty_db
          (Some (JArr [JStr "ballotAddress"; JStr "commitHash"]))
        = (empty_db, ServerError)).
Proof.
  split.
  - apply (proj1 (proj2 (validate_json_gate "ballotAddress" ["commitHash"]
                           (fun db _ => (db, ServerError)) empty_db
                           (Some (JObj [("ballotAddress", JStr "0xba110t");
                                        ("commitHash", JStr "")]))))).
    right. right. left. eexists. exists "commitHash".
    split; [reflexivity|]. split; [right; left; reflexivity|]. right. reflexivity.
  - apply (proj2 (proj2 (validate_json_gate "ballotAddress" ["commitHash"]
                           (fun db _ => (db, ServerError)) empty_db
                           (Some (JArr [JStr "ballotAddress"; JStr "commitHash"]))))).
    right. right. left. eexists. exists "commitHash".
    split; [reflexivity|]. split; [right; left; reflexivity|]. right. left. reflexivity.
Defined.

(* --------------------------------------------------------------------- *)
(* create_election: the three checks                                      *)
(* --------------------------------------------------------------------- *)

(** X3: create_election turns a request away before anything is written
    and before the ledger is asked.  With both deadlines parsed as naive
    datetimes, a commit deadline that is not strictly after now gives 400
    "Commit deadline must be in the future"; otherwise a reveal deadline
    that is not strictly after the commit deadline gives 400 "Reveal
    deadline must be after commit deadline"; otherwise fewer than 2
    candidates give 400 "At least 2 candidates required".  A deadline that
    carries a UTC offset is not turned away with a 400: comparing a commit
    deadline with an offset to utcnow(), or a reveal deadline with an
    offset to a naive commit deadline in the future, raises (500).  In
    each case the store is unchanged, whatever the ledger would have
    answered. *)
Theorem create_election_rejects_bad_input
    (env : Platform.t) (now user : Z) (ws : Web3Service.t)
    (db : Database) (data : body) (cs rs : string) (commit_dt reveal_dt : datetime) :
  (forall f, In f ["name"; "description"; "commitDeadline"; "revealDeadline"; "candidates"] ->
             Middleware.is_missing data f = false) ->
  data !! "commitDeadline" = Some (JStr cs) ->
  Platform.fromisoformat env cs = Some commit_dt ->
  data !! "revealDeadline" = Some (JStr rs) ->
  Platform.fromisoformat env rs = Some reveal_dt ->
  (forall c, commit_dt = Naive c -> (c <= now)%Z ->
     Elections.create_election env now user ws db (Some data)
     = (db, Failure 400 "Commit deadline must be in the future"))
  /\ (forall c r, commit_dt = Naive c -> reveal_dt = Naive r ->
        (now < c)%Z -> (r <= c)%Z ->
        Elections.create_election env now user ws db (Some data)
        = (db, Failure 400 "Reveal deadline must be after commit deadline"))
  /\ (forall c r n, commit_dt = Naive c -> reveal_dt = Naive r ->
        (now < c)%Z -> (c < r)%Z ->
        data !! "candidates" ≫= py_len = Some n -> (n < 2)%nat ->
        Elections.create_election env now user ws db (Some data)
        = (db, Failure 400 "At least 2 candidates required"))
  /\ (forall c, commit_dt = Aware c ->
        Elections.create_election env now user ws db (Some data) = (db, ServerError))
  /\ (forall c r, commit_dt = Naive c -> reveal_dt = Aware r -> (now < c)%Z ->
        Elections.create_election env now user ws db (Some data) = (db, ServerError)).
Proof.
  intros Hreq Hc Hcp Hr Hrp.
  assert (Hpass : Elections.create_election env now user ws db (Some data)
                  = unhandled db (Elections.create_election_fn env now user ws db data)).
  { unfold Elections.create_election. rewrite validate_json_pass; [reflexivity| |exact Hreq].
    intros ->. now rewrite lookup_empty in Hc. }
  rewrite Hpass. unfold Elections.create_election_fn. rewrite Hc, Hr. simpl.
  rewrite Hcp, Hrp. simpl. repeat split.
  - intros c -> Hle. now rewrite (proj2 (Z.leb_le c now) Hle).
  - intros c r -> -> Hlt Hle. rewrite (proj2 (Z.leb_gt c now) Hlt).
    now rewrite (proj2 (Z.leb_le r c) Hle).
  - intros c r n -> -> Hlt Hcr Hn Hn2. rewrite (proj2 (Z.leb_gt c now) Hlt).
    rewrite (proj2 (Z.leb_gt r c) Hcr). rewrite Hn.
    now rewrite (proj2 (Nat.ltb_lt n 2) Hn2).
  - intros c ->. reflexivity.
  - intros c r -> -> Hlt. now rewrite (proj2 (Z.leb_gt c now) Hlt).
Qed.

(* the demo election submitted exactly at its commit deadline; and, in
   time, with a reveal deadline that carries its offset *)
Lemma create_election_rejects_bad_input_witness :
  Elections.create_election Demo.env 1893456000 1 (Demo.ledger_up false)
    empty_db (Some Demo.election_body)
  = (empty_db, Failure 400 "Commit deadline must be in the future")
  /\ Elections.create_election Demo.env 100 1 (Demo.ledger_up false)
       empty_db (Some Demo.election_body_offset)
     = (empty_db, ServerError).
Proof.
  split.
  - refine (proj1 (create_election_rejects_bad_input Demo.env 1893456000 1
                     (Demo.ledger_up false) empty_db Demo.election_body
                     "2030-01-01T00:00:00" "2030-02-01T00:00:00"
                     (Naive 1893456000) (Naive 1896134400)
                     _ eq_refl eq_refl eq_refl eq_refl) 1893456000%Z eq_refl _).
    + intros f [<-|[<-|[<-|[<-|[<-|[]]]]]]; reflexivity.
    + lia.
  - refine (proj2 (proj2 (proj2 (proj2
              (create_election_rejects_bad_input Demo.env 100 1
                 (Demo.ledger_up false) empty_db Demo.election_body_offset
                 "2030-01-01T00:00:00" "2030-02-01T00:00:00+00:00"
                 (Naive 1893456000) (Aware 1896134400)
                 _ eq_refl eq_refl eq_refl eq_refl))))
              1893456000%Z 1896134400%Z eq_refl eq_refl _).
    + intros f [<-|[<-|[<-|[<-|[<-|[]]]]]]; reflexivity.
    + lia.
Defined.

(* --------------------------------------------------------------------- *)
(* Rows that refer to elections; receipts over time                       *)
(* --------------------------------------------------------------------- *)
Lemma update_election_keeps db now e s x :
  NoDup (map Election.id (elections db)) ->
  In e (elections db) -> In x (elections db) ->
  exists x', In x' (elections (Elections.update_election db (Elections.set_status now e s)))
    /\ Election.id x' = Election.id x
    /\ Election.ballot_address x' = Election.ballot_address x.
Proof.
  intros Hnd He Hx. simpl.
  destruct (Z.eqb_spec (Election.id x) (Election.id (Elections.set_status now e s))) as [E|E].
  - exists (Elections.set_status now e s). split; [|split].
    + apply in_map_iff. exists x. split; [|exact Hx].
      now rewrite (proj2 (Z.eqb_eq _ _) E).
    + now rewrite E.
    + rewrite set_status_id in E.
      rewrite (NoDup_map_eq Election.id _ x e Hnd Hx He E). apply set_status_ballot.
  - exists x. split; [|auto]. apply in_map_iff. exists x. split; [|exact Hx].
    now rewrite (proj2 (Z.eqb_neq _ _) E).
Qed.

(* every candidate, receipt and cached result points to an election of the
   table; cached results to a deployed one *)
Local Abbreviation refers db :=
  ((forall c, In c (candidates db) ->
      exists e, In e (elections db) /\ Election.id e = Candidate.election_id c)
   /\ (forall m, In m (votes_metadata db) ->
         exists e, In e (elections db) /\ Election.id e = VoteMetadata.election_id m)
   /\ (forall r, In r (results db) ->
         exists e, In e (elections db) /\ Election.id e = Result.election_id r
                   /\ is_Some (Election.ballot_address e))).

Lemma truthy_is_Some o : Py.truthy o = true -> is_Some o.
Proof. destruct o as [[|a s]|]; try discriminate; eauto. Qed.

Lemma refers_change db db' :
  primary_keys db -> refers db -> change db db' -> refers db'.
Proof.
  intros (Hnd & _) (Hc & Hm & Hr) Hch.
  assert (Hupd : forall now e s, In e (elections db) ->
            refers (mkDatabase (voters db)
                      (elections (Elections.update_election db (Elections.set_status now e s)))
                      (next_election_id db) (candidates db) (next_candidate_id db)
                      (votes_metadata db) (next_vote_id db) (results db) (next_result_id db))).
  { intros now e s He. repeat split; simpl.
    - intros c Hin. destruct (Hc c Hin) as (x & Hx & Hid).
      destruct (update_election_keeps db now e s x Hnd He Hx) as (x' & Hx' & Hid' & _).
      exists x'. split; [exact Hx'|congruence].
    - intros m Hin. destruct (Hm m Hin) as (x & Hx & Hid).
      destruct (update_election_keeps db now e s x Hnd He Hx) as (x' & Hx' & Hid' & _).
      exists x'. split; [exact Hx'|congruence].
    - intros r Hin. destruct (Hr r Hin) as (x & Hx & Hid & Hb).
      destruct (update_election_keeps db now e s x Hnd He Hx) as (x' & Hx' & Hid' & Hb').
      exists x'. split; [exact Hx'|]. split; [congruence|now rewrite Hb']. }
  destruct Hch as [-> | e meta Hin Heid Hid Hph ->
                  | meta tx now Hin ->
                  | e cands Hid Hall ->
                  | now e s fresh n Hin Hb Hall ->
                  | now e Hin ->
                  | voter_id b -> ].
  - auto.
  - repeat split; simpl; auto.
    intros m [Hm'|[<-|[]]]%in_app_or; [now apply Hm|]. exists e. auto.
  - repeat split; simpl; auto.
    intros m (m0 & Hm0 & Hin0)%in_map_iff.
    destruct (VoteMetadata.id m0 =? _)%Z; subst m; [|now apply Hm].
    simpl. now apply Hm.
  - repeat split; simpl.
    + intros c [Hc'|Hc']%in_app_or.
      * destruct (Hc c Hc') as (x & Hx & Hxid). exists x. split; [|exact Hxid].
        apply in_or_app. now left.
      * rewrite Forall_forall in Hall. exists e. split.
        -- apply in_or_app. right. now left.
        -- symmetry. apply Hall. now apply list_elem_of_In.
    + intros m Hin. destruct (Hm m Hin) as (x & Hx & Hrest). exists x. split; [|exact Hrest].
      apply in_or_app. now left.
    + intros r Hin. destruct (Hr r Hin) as (x & Hx & Hrest). exists x. split; [|exact Hrest].
      apply in_or_app. now left.
  - destruct (Hupd now e s Hin) as (Hc' & Hm' & Hr'). repeat split; simpl; auto.
    intros r [Hold|Hnew]%in_app_or.
    + apply filter_In in Hold as [Hold _]. now apply Hr'.
    + rewrite Forall_forall in Hall.
      destruct (update_election_keeps db now e s e Hnd Hin Hin) as (x' & Hx' & Hid' & Hb').
      exists x'. split; [exact Hx'|]. split.
      * rewrite Hid'. symmetry. apply Hall. now apply list_elem_of_In.
      * rewrite Hb'. now apply truthy_is_Some.
  - apply (Hupd now e Cancelled Hin).
  - repeat split; simpl; auto.
Qed.

(* a commit whose ballotAddress is null passes validate_json; the filter
   on NULL finds the election that was never deployed, and the receipt is
   filed under it *)
Lemma null_ballot_address_finds_undeployed_election :
  (Election.ballot_address <$> election_get Demo.db_local_only 1) = Some None
  /\ Blockchain.record_commit 200 Demo.db_local_only (Some Demo.null_ballot_body)
     = (Blockchain.add_vote Demo.db_local_only
          (VoteMetadata.mk 1 1 "" "0x1234" None None Committed 200 None),
        Success 200 (ReceiptId 1)).
Proof. vm_compute. split; reflexivity. Qed.

(** X4: in every store the handlers reach from the empty one, every
    Candidate row, every VoteMetadata row and every cached Result row
    carries the id of an election that is in the elections table: no
    handler removes an election, and none files a row under an id that
    names no election.  A cached result moreover belongs to an election
    that has a ballot address: sync_results caches nothing for an election
    that was not deployed.  (A receipt need not: a commit whose
    ballotAddress is null is filed under an election without a ballot.) *)
Theorem rows_refer_to_elections
    (env : Platform.t) (reqs : list request) :
  let db := run env empty_db reqs in
  (forall c, In c (candidates db) ->
     exists e, In e (elections db) /\ Election.id e = Candidate.election_id c)
  /\ (forall m, In m (votes_metadata db) ->
        exists e, In e (elections db) /\ Election.id e = VoteMetadata.election_id m)
  /\ (forall r, In r (results db) ->
        exists e, In e (elections db) /\ Election.id e = Result.election_id r
                  /\ is_Some (Election.ballot_address e)).
Proof.
  simpl.
  assert (H : forall db, primary_keys db -> refers db ->
                         refers (run env db reqs)).
  { induction reqs as [|req reqs IH]; intros db Hpk Href; simpl; [exact Href|].
    apply IH.
    - eapply primary_keys_effect; [exact Hpk|apply handle_effect].
    - eapply refers_change; [exact Hpk|exact Href|apply handle_change]. }
  apply H; [apply primary_keys_empty|]. repeat split; simpl; intros ? [].
Qed.

(* the first cached row of the demo sync belongs to the deployed election *)
Lemma rows_refer_to_elections_witness :
  exists e, In e (elections Demo.db_synced) /\ Election.id e = 1%Z
            /\ is_Some (Election.ballot_address e).
Proof.
  apply (proj2 (proj2 (rows_refer_to_elections Demo.env
                         [PostElection 100 1 (Demo.ledger_up false) (Some Demo.election_body);
                          PostSyncResults 200 (Demo.ledger_up false) 1]))
           (Result.mk 1 1 1 "A" "Red" 10 20 20 true 200)).
  vm_compute. left. reflexivity.
Defined.

Lemma receipt_change db db' m :
  primary_keys db -> change db db' -> In m (votes_metadata db) ->
  exists m', In m' (votes_metadata db')
    /\ VoteMetadata.id m' = VoteMetadata.id m
    /\ vote_key m' = vote_key m
    /\ VoteMetadata.receipt_hash m' = VoteMetadata.receipt_hash m
    /\ VoteMetadata.commit_tx_hash m' = VoteMetadata.commit_tx_hash m
    /\ VoteMetadata.committed_at m' = VoteMetadata.committed_at m
    /\ (m' = m \/ VoteMetadata.phase m' = Revealed).
Proof.
  intros (_ & _ & Hnd & _) Hch Hm.
  destruct Hch as [-> | e meta Hin Heid Hid Hph ->
                  | meta tx now Hin ->
                  | e cands Hid Hall ->
                  | now e s fresh n Hin Hb Hall ->
                  | now e Hin ->
                  | voter_id b -> ];
    try (exists m; simpl; repeat split; auto; fail).
  - exists m. simpl. repeat split; auto. apply in_or_app. now left.
  - simpl. destruct (Z.eqb_spec (VoteMetadata.id m) (VoteMetadata.id meta)) as [E|E].
    + pose proof (NoDup_map_eq VoteMetadata.id _ m meta Hnd Hm Hin E) as ->.
      eexists. split.
      * apply in_map_iff. exists meta. split; [|exact Hin]. simpl.
        now rewrite Z.eqb_refl.
      * simpl. repeat split; auto.
    + exists m. repeat split; auto.
      apply in_map_iff. exists m. split; [|exact Hm]. simpl.
      now rewrite (proj2 (Z.eqb_neq _ _) E).
Qed.

(** X5: a receipt is never deleted and what its commit recorded never
    changes: over any sequence of requests a votes_metadata row keeps its
    id, election, voter address, receipt hash, commit transaction hash and
    committed_at; the row is either exactly as it was or its phase is
    revealed, so a revealed receipt never goes back to committed. *)
Theorem receipts_are_kept
    (env : Platform.t) (db : Database) (reqs : list request)
    (m : VoteMetadata.t) :
  primary_keys db ->
  In m (votes_metadata db) ->
  exists m', In m' (votes_metadata (run env db reqs))
    /\ VoteMetadata.id m' = VoteMetadata.id m
    /\ vote_key m' = vote_key m
    /\ VoteMetadata.receipt_hash m' = VoteMetadata.receipt_hash m
    /\ VoteMetadata.commit_tx_hash m' = VoteMetadata.commit_tx_hash m
    /\ VoteMetadata.committed_at m' = VoteMetadata.committed_at m
    /\ (m' = m \/ VoteMetadata.phase m' = Revealed).
Proof.
  revert db m. induction reqs as [|req reqs IH]; intros db m Hpk Hm; simpl.
  - exists m. repeat split; auto.
  - destruct (receipt_change db _ m Hpk (handle_change env db req) Hm)
      as (m1 & Hin1 & Hid1 & Hk1 & Hh1 & Htx1 & Hat1 & Hph1).
    destruct (IH _ m1 (primary_keys_effect _ _ Hpk (handle_effect env db req)) Hin1)
      as (m2 & Hin2 & Hid2 & Hk2 & Hh2 & Htx2 & Hat2 & Hph2).
    exists m2. repeat split; try congruence.
    destruct Hph2 as [->|Hph2]; [|now right].
    destruct Hph1 as [->|Hph1]; [now left|now right].
Qed.

(* the demo receipt after its reveal and a sync *)
Lemma receipts_are_kept_witness :
  exists m', In m' (votes_metadata
                      (run Demo.env Demo.db_committed
                         [PostVoteReveal 300 (Some Demo.reveal_body);
                          PostSyncResults 310 (Demo.ledger_up true) 1]))
    /\ VoteMetadata.id m' = 1%Z
    /\ vote_key m' = (1%Z, "0xabc")
    /\ VoteMetadata.receipt_hash m' = "0x1234"
    /\ VoteMetadata.commit_tx_hash m' = None
    /\ VoteMetadata.committed_at m' = 200%Z
    /\ (m' = VoteMetadata.mk 1 1 "0xabc" "0x1234" None None Committed 200 None
        \/ VoteMetadata.phase m' = Revealed).
Proof.
  apply (receipts_are_kept Demo.env Demo.db_committed
           [PostVoteReveal 300 (Some Demo.reveal_body);
            PostSyncResults 310 (Demo.ledger_up true) 1]
           (VoteMetadata.mk 1 1 "0xabc" "0x1234" None None Committed 200 None)).
  - apply primary_keys_run, primary_keys_run, primary_keys_empty.
  - vm_compute. left. reflexivity.
Defined.

(* --------------------------------------------------------------------- *)
(* commit, then reveal                                                    *)
(* --------------------------------------------------------------------- *)
Lemma find_app_fresh {A} (p : A -> bool) (l : list A) (x : A) :
  List.find p l = None -> p x = true -> List.find p (l ++ [x]) = Some x.
Proof.
  induction l as [|a l IH]; simpl; intros Hnone Hx.
  - now rewrite Hx.
  - destruct (p a); [discriminate|]. now apply IH.
Qed.

(** X6: a commit followed by a reveal of the same voter goes through,
    however the two requests spell the voter address: if the election has
    no receipt for the normalised address, record_commit stores one, and a
    record_reveal whose voterAddress has the same stripped, lower-cased
    form then succeeds and leaves exactly that receipt, now with phase
    revealed, revealed_at set to the time of the reveal, and the hash,
    transaction hash and time of the commit kept. *)
Theorem commit_then_reveal
    (t1 t2 : Z) (db : Database) (commit reveal : body)
    (ballot h raw1 raw2 : string) (tx1 tx2 : option string) (election : Election.t) :
  commit !! "ballotAddress" = Some (JStr ballot) -> ballot <> "" ->
  commit !! "commitHash" = Some (JStr h) -> h <> "" ->
  as_str (default (JStr "") (commit !! "voterAddress")) = Some raw1 ->
  get_opt_str commit "txHash" = Some tx1 ->
  reveal !! "ballotAddress" = Some (JStr ballot) ->
  reveal !! "voterAddress" = Some (JStr raw2) -> raw2 <> "" ->
  get_opt_str reveal "txHash" = Some tx2 ->
  Py.lower (Py.strip raw2) = Py.lower (Py.strip raw1) ->
  election_by_ballot db ballot = Some election ->
  vote_by_pair db (Election.id election) (Py.lower (Py.strip raw1)) = None ->
  let voter := Py.lower (Py.strip raw1) in
  let db1 := (Blockchain.record_commit t1 db (Some commit)).1 in
  let db2 := (Blockchain.record_reveal t2 db1 (Some reveal)).1 in
  (Blockchain.record_commit t1 db (Some commit)).2 = Success 200 (ReceiptId (next_vote_id db))
  /\ (Blockchain.record_reveal t2 db1 (Some reveal)).2 = Success 200 Empty
  /\ vote_by_pair db2 (Election.id election) voter
     = Some (VoteMetadata.mk (next_vote_id db) (Election.id election) voter h tx1 tx2
               Revealed t1 (Some t2))
  /\ List.length (votes_metadata db2) = S (List.length (votes_metadata db)).
Proof.
  intros Hb Hbne Hc Hcne Hv Htx Hb2 Hv2 Hv2ne Htx2 Hnorm He Hnone voter db1 db2.
  assert (H1 : Blockchain.record_commit t1 db (Some commit)
               = (Blockchain.add_vote db
                    (VoteMetadata.mk (next_vote_id db) (Election.id election) voter h tx1 None
                       Committed t1 None),
                  Success 200 (ReceiptId (next_vote_id db)))).
  { unfold Blockchain.record_commit. rewrite validate_json_pass.
    - unfold Blockchain.record_commit_fn. rewrite Hb, Hc. simpl. rewrite Hv. simpl.
      rewrite He. fold voter. unfold voter at 1. rewrite Hnone. simpl.
      rewrite (get_opt_str_bind _ _ _ Htx). reflexivity.
    - intros ->. now rewrite lookup_empty in Hb.
    - intros f [<-|[<-|[]]]; unfold Middleware.is_missing.
      + rewrite Hb. now destruct ballot.
      + rewrite Hc. now destruct h. }
  set (meta := VoteMetadata.mk (next_vote_id db) (Election.id election) voter h tx1 None
                 Committed t1 None) in *.
  assert (Hdb1 : db1 = Blockchain.add_vote db meta) by (unfold db1; now rewrite H1).
  assert (Hfind : vote_by_pair db1 (Election.id election) voter = Some meta).
  { rewrite Hdb1. unfold vote_by_pair. simpl. apply find_app_fresh; [exact Hnone|].
    simpl. now rewrite Z.eqb_refl, bool_decide_eq_true_2. }
  assert (H2 : Blockchain.record_reveal t2 db1 (Some reveal)
               = (Blockchain.update_vote db1
                    (VoteMetadata.mk (next_vote_id db) (Election.id election) voter h tx1 tx2
                       Revealed t1 (Some t2)),
                  Success 200 Empty)).
  { unfold Blockchain.record_reveal. rewrite validate_json_pass.
    - unfold Blockchain.record_reveal_fn. rewrite Hv2, Hb2. simpl.
      replace (election_by_ballot db1 ballot) with (Some election)
        by (rewrite Hdb1; symmetry; exact He).
      rewrite Hnorm. fold voter. rewrite Hfind. simpl.
      rewrite (get_opt_str_bind _ _ _ Htx2). reflexivity.
    - intros ->. now rewrite lookup_empty in Hb2.
    - intros f [<-|[<-|[]]]; unfold Middleware.is_missing.
      + rewrite Hb2. now destruct ballot.
      + rewrite Hv2. now destruct raw2. }
  split; [now rewrite H1|]. split; [now rewrite H2|].
  unfold db2. rewrite H2. simpl fst. split.
  - apply (vote_by_pair_update db1 _ _ meta); [exact Hfind|reflexivity|reflexivity].
  - simpl. rewrite length_map, Hdb1. simpl. rewrite length_app. simpl. lia.
Qed.

(* the demo voter commits as " 0xABC " and reveals as "0xabc" *)
Lemma commit_then_reveal_witness :
  vote_by_pair Demo.db_revealed 1 "0xabc"
  = Some (VoteMetadata.mk 1 1 "0xabc" "0x1234" None None Revealed 200 (Some 300%Z)).
Proof.
  refine (proj1 (proj2 (proj2
            (commit_then_reveal 200 300 Demo.db_deployed Demo.commit_body Demo.reveal_body
               "0xba110t" "0x1234" " 0xABC " "0xabc" None None
               (Election.mk 1 (Some 7%Z) "Council" (Some "Council election") (Some "general") 0
                  (Some "0xba110t") 1893456000 1896134400 Active 1 None 100 100)
               _ _ _ _ _ _ _ _ _ _ _ _ _))));
    reflexivity || discriminate.
Defined.

(* --------------------------------------------------------------------- *)
(* cancel_election and sync_results write one election row                *)
(* --------------------------------------------------------------------- *)
Lemma election_get_update_other db (e' : Election.t) i :
  i <> Election.id e' ->
  election_get (Elections.update_election db e') i = election_get db i.
Proof.
  unfold election_get, Elections.update_election. simpl. intros Hne.
  induction (elections db) as [|x l IH]; simpl; [reflexivity|].
  destruct (Z.eqb_spec (Election.id x) (Election.id e')) as [E|E]; simpl.
  - rewrite (proj2 (Z.eqb_neq (Election.id e') i)) by congruence.
    rewrite (proj2 (Z.eqb_neq (Election.id x) i)) by congruence. exact IH.
  - now rewrite IH.
Qed.

(* what an assignment to status leaves as it was *)
Local Abbreviation same_but_status e e' :=
  (Election.id e' = Election.id e
   /\ Election.onchain_id e' = Election.onchain_id e
   /\ Election.name e' = Election.name e
   /\ Election.description e' = Election.description e
   /\ Election.election_type e' = Election.election_type e
   /\ Election.constituency_id e' = Election.constituency_id e
   /\ Election.ballot_address e' = Election.ballot_address e
   /\ Election.commit_deadline e' = Election.commit_deadline e
   /\ Election.reveal_deadline e' = Election.reveal_deadline e
   /\ Election.created_by e' = Election.created_by e
   /\ Election.tx_hash e' = Election.tx_hash e
   /\ Election.created_at e' = Election.created_at e).

Lemma set_status_same now e s : same_but_status e (Elections.set_status now e s).
Proof. unfold Elections.set_status. destruct (decide _); repeat split. Qed.

(** X7: a cancel_election that succeeds writes one thing: the status of
    the election it names becomes cancelled.  Every other column of that
    row except updated_at (ledger identifiers, name, deadlines, ...) is
    kept, every other election is returned by get_or_404 as before, and the
    voters, candidates, receipts and cached results are untouched. *)
Theorem cancel_election_writes_one_status
    (now : Z) (ws : Web3Service.t) (db db' : Database) (election_id : Z)
    (request_json : option body) (election : Election.t) (code : nat) (data : reply) :
  election_get db election_id = Some election ->
  Elections.cancel_election now ws db election_id request_json = (db', Success code data) ->
  (exists election',
      election_get db' election_id = Some election'
      /\ Election.status election' = Cancelled
      /\ same_but_status election election')
  /\ (forall i, i <> election_id -> election_get db' i = election_get db i)
  /\ voters db' = voters db
  /\ candidates db' = candidates db
  /\ votes_metadata db' = votes_metadata db
  /\ results db' = results db.
Proof.
  intros He Hres.
  assert (Hdb : db' = Elections.update_election db (Elections.set_status now election Cancelled)).
  { unfold Elections.cancel_election in Hres. rewrite He in Hres.
    destruct (Election.ballot_address election) as [[|a s]|];
      try (now injection Hres as <- _).
    destruct (Web3Service.send_cancel_election ws _ _);
      [now injection Hres as <- _|discriminate]. }
  subst db'. apply election_get_In in He as Hid. destruct Hid as [_ Hid].
  split; [|split; [|repeat split]].
  - exists (Elections.set_status now election Cancelled). split; [|split].
    + apply (election_get_update db election_id election); [exact He|apply set_status_id].
    + apply set_status_status.
    + apply set_status_same.
  - intros i Hi. apply election_get_update_other. rewrite set_status_id. congruence.
Qed.

(* the deployed demo election, cancelled on the ledger and locally *)
Lemma cancel_election_writes_one_status_witness :
  (exists election',
      election_get Demo.db_cancelled 1 = Some election'
      /\ Election.status election' = Cancelled
      /\ Election.ballot_address election' = Some "0xba110t")
  /\ candidates Demo.db_cancelled = candidates Demo.db_deployed.
Proof.
  destruct (cancel_election_writes_one_status 200 (Demo.ledger_up false)
              Demo.db_deployed Demo.db_cancelled 1 None
              (Election.mk 1 (Some 7%Z) "Council" (Some "Council election") (Some "general") 0
                 (Some "0xba110t") 1893456000 1896134400 Active 1 None 100 100)
              200 (Message "Election cancelled") eq_refl eq_refl)
    as ((e' & Hget & Hst & Hsame) & _ & _ & Hc & _).
  split; [|exact Hc]. exists e'. split; [exact Hget|]. split; [exact Hst|].
  destruct Hsame as (_ & _ & _ & _ & _ & _ & Hb & _). exact Hb.
Defined.







(* --------------------------------------------------------------------- *)
(* deactivate_voter, reactivate_voter                                     *)
(* --------------------------------------------------------------------- *)

(* the voter row [v] with its is_active column set to [b] *)
Local Abbreviation flagged v b :=
  (Voter.mk (Voter.id v) (Voter.name v) (Voter.identity_hash v) (Voter.wallet_address v)
     (Voter.constituency_id v) (Voter.is_registered_onchain v) (Voter.tx_hash v) b
     (Voter.created_at v)).

Lemma voter_get_In db voter_id v :
  Voters.voter_get db voter_id = Some v -> In v (voters db) /\ Voter.id v = voter_id.
Proof.
  unfold Voters.voter_get. intros H. apply find_some in H as [Hin Hid].
  split; [exact Hin|now apply Z.eqb_eq].
Qed.

Lemma voter_get_set_is_active db voter_id v b :
  Voters.voter_get db voter_id = Some v ->
  Voters.voter_get (Voters.set_is_active db voter_id b) voter_id = Some (flagged v b).
Proof.
  unfold Voters.voter_get, Voters.set_is_active. simpl.
  induction (voters db) as [|x l IH]; simpl; [discriminate|].
  destruct (Z.eqb_spec (Voter.id x) voter_id) as [E|E]; simpl.
  - intros [= ->]. now rewrite (proj2 (Z.eqb_eq _ _) E).
  - rewrite (proj2 (Z.eqb_neq _ _) E). exact IH.
Qed.

Lemma voter_get_set_is_active_other db voter_id b i :
  i <> voter_id ->
  Voters.voter_get (Voters.set_is_active db voter_id b) i = Voters.voter_get db i.
Proof.
  unfold Voters.voter_get, Voters.set_is_active. simpl. intros Hne.
  induction (voters db) as [|x l IH]; simpl; [reflexivity|].
  destruct (Z.eqb_spec (Voter.id x) voter_id) as [E|E]; simpl.
  - rewrite (proj2 (Z.eqb_neq (Voter.id x) i)) by congruence. exact IH.
  - now rewrite IH.
Qed.

Lemma set_is_active_restores db voter_id v :
  NoDup (map Voter.id (voters db)) ->
  Voters.voter_get db voter_id = Some v -> Voter.is_active v = true ->
  Voters.set_is_active (Voters.set_is_active db voter_id false) voter_id true = db.
Proof.
  intros Hnd Hv Hact. apply voter_get_In in Hv as [Hin Hid].
  unfold Voters.set_is_active. simpl. destruct db as [vs els ne cs nc ms nm rs nr]. simpl in *.
  f_equal. rewrite map_map. rewrite <- (map_id vs) at 2. apply map_ext_in.
  intros x Hx. destruct (Z.eqb_spec (Voter.id x) voter_id) as [E|E]; simpl.
  - rewrite (proj2 (Z.eqb_eq _ _) E).
    assert (x = v) as -> by (apply (NoDup_map_eq Voter.id vs); auto; congruence).
    destruct v; simpl in *. now rewrite Hact.
  - now rewrite (proj2 (Z.eqb_neq _ _) E).
Qed.

(** X10: deactivate_voter and reactivate_voter set the is_active flag of
    the voter they name and nothing else: after a deactivation the voter is
    returned with is_active false and all other columns as before, after a
    following reactivation with is_active true; every other voter is
    returned as before; and, the ids of the table being distinct,
    deactivating and then reactivating a voter who was active gives back
    exactly the store one started from. *)
Theorem deactivate_then_reactivate (db : Database) (voter_id : Z) (v : Voter.t) :
  Voters.voter_get db voter_id = Some v ->
  let db1 := (Voters.deactivate_voter db voter_id).1 in
  let db2 := (Voters.reactivate_voter db1 voter_id).1 in
  Voters.voter_get db1 voter_id = Some (flagged v false)
  /\ Voters.voter_get db2 voter_id = Some (flagged v true)
  /\ (forall i, i <> voter_id ->
        Voters.voter_get db1 i = Voters.voter_get db i
        /\ Voters.voter_get db2 i = Voters.voter_get db i)
  /\ (NoDup (map Voter.id (voters db)) -> Voter.is_active v = true -> db2 = db).
Proof.
  intros Hv db1 db2.
  assert (H1 : db1 = Voters.set_is_active db voter_id false).
  { unfold db1, Voters.deactivate_voter. now rewrite Hv. }
  assert (Hv1 : Voters.voter_get db1 voter_id = Some (flagged v false)).
  { rewrite H1. now apply voter_get_set_is_active. }
  assert (H2 : db2 = Voters.set_is_active db1 voter_id true).
  { unfold db2, Voters.reactivate_voter. now rewrite Hv1. }
  split; [exact Hv1|]. split; [|split].
  - rewrite H2. apply (voter_get_set_is_active db1 voter_id (flagged v false) true Hv1).
  - intros i Hi. rewrite H2, H1. split.
    + now apply voter_get_set_is_active_other.
    + rewrite voter_get_set_is_active_other by exact Hi.
      now apply voter_get_set_is_active_other.
  - intros Hnd Hact. rewrite H2, H1. now apply (set_is_active_restores db voter_id v).
Qed.

(* the demo voter, deactivated and reactivated *)
Lemma deactivate_then_reactivate_witness :
  (Voters.reactivate_voter (Voters.deactivate_voter Demo.db_one_voter 1).1 1).1
  = Demo.db_one_voter.
Proof.
  refine (proj2 (proj2 (proj2
            (deactivate_then_reactivate Demo.db_one_voter 1
               (Voter.mk 1 "Ada" "0x5eed" "0xAbC" 4 true (Some "0xfeed") true 50)
               eq_refl))) _ eq_refl).
  vm_compute. constructor; [|constructor]. intros H. inversion H.
Defined.

(* --------------------------------------------------------------------- *)
(* voter_login                                                            *)
(* --------------------------------------------------------------------- *)
Lemma validate_json_as_pass {R} required (reject : nat -> string -> R) (crash : R)
    (fn : body -> R) (data : body) :
  data <> ∅ ->
  (forall f, In f required -> Middleware.is_missing data f = false) ->
  Guards.validate_json_as required reject crash fn (Some data) = fn data.
Proof.
  intros Hne Hall. unfold Guards.validate_json_as.
  now rewrite (validate_json_pass required _ None data Hne Hall).
Qed.

Lemma validate_json_as_cases {R} required (reject : nat -> string -> R) (crash : R)
    (fn : body -> R) (j : option body) :
  (exists msg, Guards.validate_json_as required reject crash fn j = reject 400%nat msg)
  \/ (exists data, j = Some data
        /\ (forall f, In f required -> Middleware.is_missing data f = false)
        /\ Guards.validate_json_as required reject crash fn j = fn data).
Proof.
  unfold Guards.validate_json_as.
  destruct (validate_json_cases required (fun _ data => (Some data, ServerError)) None j)
    as [[msg ->]|(data & Hj & Hall & ->)].
  - left. eauto.
  - right. exists data. auto.
Qed.

Lemma voter_by_wallet_set_is_active db w v b :
  Voters.voter_by_wallet db w = Some v ->
  Voters.voter_by_wallet (Voters.set_is_active db (Voter.id v) b) w = Some (flagged v b).
Proof.
  unfold Voters.voter_by_wallet, Voters.set_is_active. simpl.
  induction (voters db) as [|x l IH]; simpl; [discriminate|].
  destruct (bool_decide (Py.lower (Voter.wallet_address x) = Py.lower (Py.strip w))) eqn:Hx.
  - intros [= ->]. rewrite Z.eqb_refl. simpl. now rewrite Hx.
  - intros Hf. destruct (Voter.id x =? Voter.id v)%Z; simpl; rewrite Hx; now apply IH.
Qed.

(** X11: voter_login honours the local flag.  For a wallet address that
    the lookup (stripped and lower-cased on both sides) resolves to a
    voter: an active voter is logged in (200) with a token whose identity
    is the voter's id and whose claims are role "voter" and the stored
    wallet; once deactivate_voter has run for that voter the same login
    is refused with 401 "Wallet not registered or deactivated", and after
    reactivate_voter it is accepted again. *)
Theorem voter_login_follows_is_active
    (db : Database) (data : body) (w : string) (v : Voter.t) :
  data !! "walletAddress" = Some (JStr w) -> w <> "" ->
  Voters.voter_by_wallet db w = Some v ->
  let db1 := (Voters.deactivate_voter db (Voter.id v)).1 in
  let db2 := (Voters.reactivate_voter db1 (Voter.id v)).1 in
  (Voter.is_active v = true ->
   Auth.voter_login db (Some data)
   = Ok 200 (Auth.mk_token (Voter.id v) "voter" (Voter.wallet_address v), v))
  /\ Auth.voter_login db1 (Some data) = Err 401 "Wallet not registered or deactivated"
  /\ Auth.voter_login db2 (Some data)
     = Ok 200 (Auth.mk_token (Voter.id v) "voter" (Voter.wallet_address v), flagged v true).
Proof.
  intros Hw Hne Hv db1 db2.
  assert (Hlogin : forall d, Auth.voter_login d (Some data)
                             = default Exn (Auth.voter_login_fn d data)).
  { intros d. unfold Auth.voter_login. rewrite validate_json_as_pass; [reflexivity| |].
    - intros ->. now rewrite lookup_empty in Hw.
    - intros f [<-|[]]. unfold Middleware.is_missing. rewrite Hw. now destruct w. }
  assert (Hget : Voters.voter_get db (Voter.id v) <> None).
  { unfold Voters.voter_get. intros Hnone.
    unfold Voters.voter_by_wallet in Hv. apply find_some in Hv as [Hin _].
    pose proof (find_none _ _ Hnone v Hin) as Hf. simpl in Hf.
    now rewrite Z.eqb_refl in Hf. }
  assert (H1 : db1 = Voters.set_is_active db (Voter.id v) false).
  { unfold db1, Voters.deactivate_voter.
    destruct (Voters.voter_get db (Voter.id v)); [reflexivity|contradiction]. }
  assert (Hv1 : Voters.voter_by_wallet db1 w = Some (flagged v false)).
  { rewrite H1. now apply voter_by_wallet_set_is_active. }
  assert (H2 : db2 = Voters.set_is_active db1 (Voter.id v) true).
  { unfold db2, Voters.reactivate_voter.
    destruct (Voters.voter_get db1 (Voter.id v)) eqn:Hg; [reflexivity|].
    exfalso. unfold Voters.voter_get in Hg.
    unfold Voters.voter_by_wallet in Hv1. apply find_some in Hv1 as [Hin _].
    pose proof (find_none _ _ Hg _ Hin) as Hf. simpl in Hf.
    now rewrite Z.eqb_refl in Hf. }
  repeat split.
  - intros Hact. rewrite Hlogin. unfold Auth.voter_login_fn. rewrite Hw. simpl.
    now rewrite Hv, Hact.
  - rewrite Hlogin. unfold Auth.voter_login_fn. rewrite Hw. simpl. now rewrite Hv1.
  - rewrite Hlogin. unfold Auth.voter_login_fn. rewrite Hw. simpl.
    pose proof (voter_by_wallet_set_is_active db1 w (flagged v false) true Hv1) as Hv2.
    simpl in Hv2. rewrite H2, Hv2. reflexivity.
Qed.

(* the demo voter logs in as " 0xABC", is deactivated, and is turned away *)
Lemma voter_login_follows_is_active_witness :
  Auth.voter_login Demo.db_one_voter (Some Samples.login_body)
  = Ok 200 (Auth.mk_token 1 "voter" "0xAbC",
            Voter.mk 1 "Ada" "0x5eed" "0xAbC" 4 true (Some "0xfeed") true 50)
  /\ Auth.voter_login Demo.db_deactivated (Some Samples.login_body)
     = Err 401 "Wallet not registered or deactivated".
Proof.
  destruct (voter_login_follows_is_active Demo.db_one_voter
              Samples.login_body " 0xABC"
              (Voter.mk 1 "Ada" "0x5eed" "0xAbC" 4 true (Some "0xfeed") true 50)
              eq_refl ltac:(discriminate) eq_refl) as (H1 & H2 & _).
  split; [now apply H1|exact H2].
Defined.

(* --------------------------------------------------------------------- *)
(* retry_onchain_registration, register_voter                             *)
(* --------------------------------------------------------------------- *)

(* the voter row [v] once its registration is on the ledger *)
Local Abbreviation registered v tx :=
  (Voter.mk (Voter.id v) (Voter.name v) (Voter.identity_hash v) (Voter.wallet_address v)
     (Voter.constituency_id v) true (Some tx) (Voter.is_active v) (Voter.created_at v)).

Lemma voter_get_set_registered db voter_id v tx :
  Voters.voter_get db voter_id = Some v ->
  Voters.voter_get (VoterRoutes.set_registered db voter_id tx) voter_id
  = Some (registered v tx).
Proof.
  unfold Voters.voter_get, VoterRoutes.set_registered. simpl.
  induction (voters db) as [|x l IH]; simpl; [discriminate|].
  destruct (Z.eqb_spec (Voter.id x) voter_id) as [E|E]; simpl.
  - intros [= ->]. now rewrite (proj2 (Z.eqb_eq _ _) E).
  - rewrite (proj2 (Z.eqb_neq _ _) E). exact IH.
Qed.

(** X12: retry_onchain_registration submits a voter at most once.  For a
    voter already marked is_registered_onchain it answers 400 "Already
    registered on-chain" without asking the ledger and without writing.
    For a voter not yet marked, a ledger call that raises gives 500 with
    the ledger's message and leaves the store unchanged, so the retry can
    be repeated; a ledger call that returns a transaction hash gives 200,
    marks the voter and stores the hash, and from then on every further
    retry for that voter is the 400 above. *)
Theorem retry_onchain_registration_at_most_once
    (ws : Registry.t) (db : Database) (voter_id : Z) (v : Voter.t) :
  Voters.voter_get db voter_id = Some v ->
  (Voter.is_registered_onchain v = true ->
   forall ws', VoterRoutes.retry_onchain_registration ws' db voter_id
               = (db, Err 400 "Already registered on-chain"))
  /\ (forall identity_bytes,
        Voter.is_registered_onchain v = false ->
        PyBytes.fromhex (PyBytes.strip_0x (Voter.identity_hash v)) = Some identity_bytes ->
        (forall msg,
            Registry.register_voter ws (Voter.wallet_address v) identity_bytes
              (Voter.constituency_id v) = Raises msg ->
            VoterRoutes.retry_onchain_registration ws db voter_id = (db, Err 500 msg))
        /\ (forall tx,
              Registry.register_voter ws (Voter.wallet_address v) identity_bytes
                (Voter.constituency_id v) = Returns tx ->
              exists db',
                VoterRoutes.retry_onchain_registration ws db voter_id = (db', Ok 200 tx)
                /\ Voters.voter_get db' voter_id = Some (registered v tx)
                /\ forall ws', VoterRoutes.retry_onchain_registration ws' db' voter_id
                               = (db', Err 400 "Already registered on-chain"))).
Proof.
  intros Hv. split.
  - intros Hreg ws'. unfold VoterRoutes.retry_onchain_registration. now rewrite Hv, Hreg.
  - intros bytes Hreg Hhex. split.
    + intros msg Hraise. unfold VoterRoutes.retry_onchain_registration.
      now rewrite Hv, Hreg, Hhex, Hraise.
    + intros tx Hret. exists (VoterRoutes.set_registered db voter_id tx).
      split; [|split].
      * unfold VoterRoutes.retry_onchain_registration. now rewrite Hv, Hreg, Hhex, Hret.
      * now apply voter_get_set_registered.
      * intros ws'. unfold VoterRoutes.retry_onchain_registration.
        now rewrite (voter_get_set_registered db voter_id v tx Hv).
Qed.

(* Ada is registered on the ledger already: a retry is refused *)
Lemma retry_onchain_registration_at_most_once_witness :
  VoterRoutes.retry_onchain_registration Samples.registry_up Demo.db_one_voter 1
  = (Demo.db_one_voter, Err 400 "Already registered on-chain").
Proof.
  apply (proj1 (retry_onchain_registration_at_most_once Samples.registry_up
                  Demo.db_one_voter 1
                  (Voter.mk 1 "Ada" "0x5eed" "0xAbC" 4 true (Some "0xfeed") true 50)
                  eq_refl) eq_refl).
Defined.

Lemma fold_max_ge (l : list Z) (x : Z) : In x l -> (x <= fold_right Z.max 0 l)%Z.
Proof.
  induction l as [|a l IH]; simpl; [intros []|].
  intros [->|Hin]; [lia|]. specialize (IH Hin). lia.
Qed.

Lemma next_voter_id_fresh db x : In x (voters db) -> (Voter.id x < Auth.next_voter_id db)%Z.
Proof.
  intros Hin. unfold Auth.next_voter_id.
  pose proof (fold_max_ge (map Voter.id (voters db)) (Voter.id x) (in_map _ _ _ Hin)). lia.
Qed.

Lemma existsb_false_find {A} (p : A -> bool) (l : list A) :
  existsb p l = false -> forall x, In x l -> p x = false.
Proof.
  intros H x Hin. destruct (p x) eqn:Hp; [|reflexivity].
  assert (existsb p l = true) by (apply existsb_exists; eauto). congruence.
Qed.





(* --------------------------------------------------------------------- *)
(* The voters table: wallets, identity hashes and ids are distinct        *)
(* --------------------------------------------------------------------- *)
Local Abbreviation voters_distinct vs :=
  (NoDup (map Voter.wallet_address vs)
   /\ NoDup (map Voter.identity_hash vs)
   /\ NoDup (map Voter.id vs)).

Lemma change_voters db db' :
  change db db' ->
  voters db' = voters db
  \/ exists voter_id b, voters db' = voters (Voters.set_is_active db voter_id b).
Proof.
  intros [-> | e meta Hin Heid Hid Hph ->
         | meta tx now Hin ->
         | e cands Hid Hall ->
         | now e s fresh n Hin Hb Hall ->
         | now e Hin ->
         | voter_id b -> ]; simpl; eauto.
Qed.

Lemma existsb_false_not_in {A B} `{EqDecision B} (f : A -> B) (l : list A) (k : B) :
  existsb (fun x => bool_decide (f x = k)) l = false -> ~ In k (map f l).
Proof.
  intros H (x & Hx & Hin)%in_map_iff.
  pose proof (existsb_false_find _ _ H x Hin) as Hf. simpl in Hf.
  now rewrite bool_decide_eq_true_2 in Hf.
Qed.

Lemma map_cond_same {A B} (g : A -> B) (c : A -> bool) (f : A -> A) (l : list A) :
  (forall x, g (f x) = g x) ->
  map g (map (fun x => if c x then f x else x) l) = map g l.
Proof.
  intros H. rewrite map_map. apply map_ext. intros x. destruct (c x); [apply H|reflexivity].
Qed.

Lemma voters_distinct_serve env db req :
  voters_distinct (voters db) -> voters_distinct (voters (serve env db req)).
Proof.
  intros (Hw & Hi & Hk). destruct req as [r|now ws j|ws voter_id]; simpl.
  - destruct (change_voters _ _ (handle_change env db r)) as [->|(vid & b & ->)];
      [auto|].
    simpl.
    rewrite (map_cond_same Voter.wallet_address (fun x => (Voter.id x =? vid)%Z)
               (fun x => flagged x b)) by reflexivity.
    rewrite (map_cond_same Voter.identity_hash (fun x => (Voter.id x =? vid)%Z)
               (fun x => flagged x b)) by reflexivity.
    rewrite (map_cond_same Voter.id (fun x => (Voter.id x =? vid)%Z)
               (fun x => flagged x b)) by reflexivity.
    auto.
  - unfold Auth.register_voter.
    destruct (validate_json_as_cases
                ["name"; "rawVoterId"; "constituencyId"; "walletAddress"]
                (fun code error => (db, Err code error)) (db, Exn)
                (fun data => default (db, Exn) (Auth.register_voter_fn env now ws db data)) j)
      as [[msg ->]|(data & _ & _ & ->)]; [simpl; auto|].
    unfold Auth.register_voter_fn.
    destruct (data !! "walletAddress" ≫= as_str) as [w|]; simpl; [|auto].
    destruct (data !! "rawVoterId") as [raw|]; simpl; [|auto].
    destruct (Registry.hash_identity ws raw) as [h|]; simpl; [|auto].
    destruct (existsb _ (voters db)) eqn:Hnw; simpl; [auto|].
    destruct (existsb (fun v => bool_decide (Voter.identity_hash v = h)) (voters db)) eqn:Hni;
      simpl; [auto|].
    destruct (data !! "name") as [nm|]; simpl; [|auto].
    destruct (data !! "constituencyId" ≫= py_int) as [cid|]; simpl; [|auto].
    destruct (bind_text_required nm) as [nmc|]; simpl; [|auto].
    destruct (require _) as [fits|]; simpl; [|auto].
    repeat split.
    + apply NoDup_map_snoc; [exact Hw|]. simpl. now apply existsb_false_not_in.
    + apply NoDup_map_snoc; [exact Hi|]. simpl. now apply existsb_false_not_in.
    + apply NoDup_map_snoc; [exact Hk|]. simpl.
      intros (x & Hx & Hin)%in_map_iff. pose proof (next_voter_id_fresh db x Hin). lia.
  - unfold VoterRoutes.retry_onchain_registration.
    destruct (Voters.voter_get db voter_id) as [v|]; simpl; [|auto].
    destruct (Voter.is_registered_onchain v); simpl; [auto|].
    destruct (PyBytes.fromhex _); simpl; [|auto].
    destruct (Registry.register_voter ws _ _ _) as [s|]; simpl; [|auto].
    rewrite (map_cond_same Voter.wallet_address (fun x => (Voter.id x =? voter_id)%Z)
               (fun x => registered x s)) by reflexivity.
    rewrite (map_cond_same Voter.identity_hash (fun x => (Voter.id x =? voter_id)%Z)
               (fun x => registered x s)) by reflexivity.
    rewrite (map_cond_same Voter.id (fun x => (Voter.id x =? voter_id)%Z)
               (fun x => registered x s)) by reflexivity.
    auto.
Qed.

(** X14: the duplicate checks of register_voter keep the voters table
    free of duplicates: in every store reached from the empty one by
    registrations, on-chain retries and the requests of the other handlers,
    no two voters have the same wallet address, the same identity hash or
    the same id. *)
Theorem voters_stay_distinct
    (env : Platform.t) (reqs : list api_request) :
  let db := serve_all env empty_db reqs in
  NoDup (map Voter.wallet_address (voters db))
  /\ NoDup (map Voter.identity_hash (voters db))
  /\ NoDup (map Voter.id (voters db)).
Proof.
  simpl. unfold serve_all.
  assert (H : forall db, voters_distinct (voters db) ->
                         voters_distinct (voters (fold_left (serve env) reqs db))).
  { induction reqs as [|req reqs IH]; intros db Hd; simpl; [exact Hd|].
    apply IH. now apply voters_distinct_serve. }
  apply H. simpl. repeat split; constructor.
Qed.

(* --------------------------------------------------------------------- *)
(* voter_stats                                                            *)
(* --------------------------------------------------------------------- *)
Lemma count_le {A} (p : A -> bool) (l : list A) :
  (0 <= VoterRoutes.count p l <= Z.of_nat (List.length l))%Z.
Proof.
  unfold VoterRoutes.count. pose proof (filter_length_le p l). lia.
Qed.

Lemma count_all {A} (l : list A) :
  VoterRoutes.count (fun _ => true) l = Z.of_nat (List.length l).
Proof.
  unfold VoterRoutes.count. f_equal. f_equal.
  induction l as [|a l IH]; simpl; [reflexivity|now rewrite IH].
Qed.

Lemma count_deactivated (l : list Voter.t) (voter_id : Z) (v : Voter.t) :
  NoDup (map Voter.id l) -> In v l -> Voter.id v = voter_id -> Voter.is_active v = true ->
  VoterRoutes.count Voter.is_active
    (map (fun x => if (Voter.id x =? voter_id)%Z then flagged x false else x) l)
  = (VoterRoutes.count Voter.is_active l - 1)%Z.
Proof.
  unfold VoterRoutes.count. induction l as [|x l IH]; simpl; [intros _ []|].
  intros Hnd Hin Hid Hact. apply NoDup_cons in Hnd as [Hx Hnd].
  rewrite list_elem_of_In in Hx. destruct Hin as [->|Hin].
  - rewrite (proj2 (Z.eqb_eq _ _) Hid). simpl. rewrite Hact. simpl.
    replace (map _ l) with l; [lia|].
    rewrite <- (map_id l) at 1. apply map_ext_in. intros y Hy.
    destruct (Z.eqb_spec (Voter.id y) voter_id) as [E|E]; [|reflexivity].
    exfalso. apply Hx. rewrite Hid, <- E. now apply in_map.
  - assert (Hne : Voter.id x <> voter_id).
    { intros E. apply Hx. rewrite E, <- Hid. now apply in_map. }
    rewrite (proj2 (Z.eqb_neq _ _) Hne). specialize (IH Hnd Hin Hid Hact).
    assert (Hpos : (1 <= Z.of_nat (List.length (List.filter Voter.is_active l)))%Z).
    { assert (Hv : In v (List.filter Voter.is_active l)) by (apply filter_In; auto).
      destruct (List.filter Voter.is_active l); [destruct Hv|simpl; lia]. }
    destruct (Voter.is_active x); simpl; lia.
Qed.

(** X15: the numbers of voter_stats add up.  total_offchain is the number
    of voter rows, active and registered_onchain lie between 0 and it,
    inactive is total_offchain - active and is not negative, and
    onchain_total is the ledger's count, or 0 when the ledger cannot be
    asked (the endpoint answers 200 all the same).  Deactivating an active
    voter (ids being distinct) moves exactly one voter from active to
    inactive and leaves the total. *)
Theorem voter_stats_add_up (ws : Registry.t) (db : Database) :
  exists s,
    VoterRoutes.voter_stats ws db = Ok 200 s
    /\ VoterRoutes.total_offchain s = Z.of_nat (List.length (voters db))
    /\ (0 <= VoterRoutes.active s <= VoterRoutes.total_offchain s)%Z
    /\ (0 <= VoterRoutes.registered_onchain s <= VoterRoutes.total_offchain s)%Z
    /\ (VoterRoutes.active s + VoterRoutes.inactive s = VoterRoutes.total_offchain s)%Z
    /\ (0 <= VoterRoutes.inactive s)%Z
    /\ ((exists msg, Registry.get_total_voters ws = Raises msg) ->
        VoterRoutes.onchain_total s = 0%Z)
    /\ (forall voter_id v,
          NoDup (map Voter.id (voters db)) ->
          Voters.voter_get db voter_id = Some v -> Voter.is_active v = true ->
          exists s',
            VoterRoutes.voter_stats ws (Voters.deactivate_voter db voter_id).1 = Ok 200 s'
            /\ VoterRoutes.total_offchain s' = VoterRoutes.total_offchain s
            /\ VoterRoutes.active s' = (VoterRoutes.active s - 1)%Z
            /\ VoterRoutes.inactive s' = (VoterRoutes.inactive s + 1)%Z).
Proof.
  eexists. split; [reflexivity|]. simpl.
  pose proof (count_le Voter.is_active (voters db)).
  pose proof (count_le Voter.is_registered_onchain (voters db)).
  rewrite count_all. repeat split; try lia.
  - intros [msg ->]. reflexivity.
  - intros voter_id v Hnd Hv Hact. eexists. split; [reflexivity|]. simpl.
    unfold Voters.deactivate_voter. rewrite Hv. simpl.
    apply voter_get_In in Hv as [Hin Hid].
    rewrite !count_all, length_map.
    rewrite (count_deactivated (voters db) voter_id v Hnd Hin Hid Hact).
    repeat split; lia.
Qed.

(* one active voter; after the deactivation none *)
Lemma voter_stats_add_up_witness :
  exists s',
    VoterRoutes.voter_stats Samples.registry_down Demo.db_deactivated = Ok 200 s'
    /\ VoterRoutes.active s' = 0%Z /\ VoterRoutes.inactive s' = 1%Z.
Proof.
  destruct (voter_stats_add_up Samples.registry_down Demo.db_one_voter)
    as (s & Hs & _ & _ & _ & _ & _ & _ & Hdeact).
  destruct (Hdeact 1%Z (Voter.mk 1 "Ada" "0x5eed" "0xAbC" 4 true (Some "0xfeed") true 50))
    as (s' & Hs' & _ & Ha & Hi); try reflexivity.
  - vm_compute. constructor; [|constructor]. intros H. inversion H.
  - exists s'. split; [exact Hs'|]. injection Hs as <-. rewrite Ha, Hi. split; reflexivity.
Defined.

(* --------------------------------------------------------------------- *)
(* get_results                                                            *)
(* --------------------------------------------------------------------- *)




(* --------------------------------------------------------------------- *)
(* voter_vote_history                                                     *)
(* --------------------------------------------------------------------- *)
Lemma insert_desc_perm m l : Permutation (VoterRoutes.insert_desc m l) (m :: l).
Proof.
  induction l as [|x l IH]; simpl; [reflexivity|].
  destruct (VoteMetadata.committed_at x <=? VoteMetadata.committed_at m)%Z; [reflexivity|].
  rewrite IH. apply perm_swap.
Qed.

Lemma sort_desc_perm l : Permutation (VoterRoutes.sort_desc l) l.
Proof.
  induction l as [|x l IH]; simpl; [reflexivity|].
  rewrite insert_desc_perm. now constructor.
Qed.

Local Abbreviation newer_first :=
  (fun a b : VoteMetadata.t => (VoteMetadata.committed_at b <= VoteMetadata.committed_at a)%Z).

Lemma insert_desc_sorted m l :
  StronglySorted newer_first l -> StronglySorted newer_first (VoterRoutes.insert_desc m l).
Proof.
  induction l as [|x l IH]; simpl; intros Hs.
  - constructor; constructor.
  - destruct (Z.leb_spec (VoteMetadata.committed_at x) (VoteMetadata.committed_at m)) as [Hle|Hgt].
    + constructor; [exact Hs|]. apply StronglySorted_inv in Hs as [_ Hall].
      constructor; [exact Hle|].
      eapply Forall_impl; [exact Hall|]. simpl. intros; lia.
    + apply StronglySorted_inv in Hs as [Hs Hall]. constructor; [now apply IH|].
      rewrite insert_desc_perm. constructor; [lia|exact Hall].
Qed.

Lemma sort_desc_sorted l : StronglySorted newer_first (VoterRoutes.sort_desc l).
Proof.
  induction l as [|x l IH]; simpl; [constructor|now apply insert_desc_sorted].
Qed.

(** X17: voter_vote_history answers 200 with exactly the receipts filed
    under the stripped, lower-cased form of the wallet address in the URL:
    each such row of votes_metadata once (the list is a permutation of the
    matching rows), no other row, and later commits before earlier ones.
    Two spellings of an address with the same normal form get the same
    answer. *)
Theorem voter_vote_history_lists_the_receipts (db : Database) (wallet_address : string) :
  exists rows,
    VoterRoutes.voter_vote_history db wallet_address = Ok 200 rows
    /\ Permutation rows
         (List.filter (fun m => bool_decide (VoteMetadata.voter_address m
                                             = Py.lower (Py.strip wallet_address)))
                      (votes_metadata db))
    /\ (forall m, In m rows
                  <-> In m (votes_metadata db)
                      /\ VoteMetadata.voter_address m = Py.lower (Py.strip wallet_address))
    /\ StronglySorted
         (fun a b => (VoteMetadata.committed_at b <= VoteMetadata.committed_at a)%Z) rows
    /\ (forall other,
          Py.lower (Py.strip other) = Py.lower (Py.strip wallet_address) ->
          VoterRoutes.voter_vote_history db other = Ok 200 rows).
Proof.
  eexists. split; [reflexivity|]. split; [apply sort_desc_perm|]. split; [|split].
  - intros m. rewrite <- !list_elem_of_In. rewrite (sort_desc_perm _).
    rewrite list_elem_of_In, filter_In, <- list_elem_of_In.
    now rewrite bool_decide_eq_true.
  - apply sort_desc_sorted.
  - intros other Hnorm. unfold VoterRoutes.voter_vote_history. now rewrite Hnorm.
Qed.

(* --------------------------------------------------------------------- *)
(* A voter's token at the guard                                           *)
(* --------------------------------------------------------------------- *)

(** X19: a token issued by voter_login is checked against the users
    table.  A successful voter_login is only given to an active voter and
    issues a token whose identity is that voter's id, with the claims role
    "voter" and the voter's wallet; jwt_required_custom, the guard of the
    voter endpoints (vote/commit, vote/reveal, the wallet lookups), looks
    the identity up among the User rows, so with such a token it answers
    401 "Invalid or deactivated user" whenever no active User row has the
    voter's id as its own id, whatever the voters table holds. *)
Theorem voter_token_is_looked_up_among_users {A}
    (db : Database) (request_json : option body) (tok : Auth.token) (v : Voter.t)
    (users : list User.t) (fn : User.t -> answer A) :
  Auth.voter_login db request_json = Ok 200 (tok, v) ->
  Auth.identity tok = Voter.id v
  /\ Auth.claim_role tok = "voter"
  /\ Auth.claim_wallet tok = Voter.wallet_address v
  /\ Voter.is_active v = true
  /\ ((forall u, In u users -> User.id u = Voter.id v -> User.is_active u = false) ->
      Guards.jwt_required_custom users (Auth.identity tok) fn
      = Err 401 "Invalid or deactivated user").
Proof.
  intros Hlogin.
  assert (Hfn : exists data, Auth.voter_login_fn db data = Some (Ok 200 (tok, v))).
  { unfold Auth.voter_login in Hlogin.
    destruct (validate_json_as_cases ["walletAddress"] (@Err (Auth.token * Voter.t)) Exn
                (fun data => default Exn (Auth.voter_login_fn db data)) request_json)
      as [[msg Hrej]|(data & _ & _ & Hpass)].
    - rewrite Hrej in Hlogin. discriminate.
    - rewrite Hpass in Hlogin. exists data.
      destruct (Auth.voter_login_fn db data); simpl in Hlogin; [now subst|discriminate]. }
  destruct Hfn as (data & Hfn). unfold Auth.voter_login_fn in Hfn.
  destruct (data !! "walletAddress" ≫= as_str) as [w|]; simpl in Hfn; [|discriminate].
  destruct (Voters.voter_by_wallet db w) as [voter|]; [|discriminate].
  destruct (Voter.is_active voter) eqn:Hact; simpl in Hfn; [|discriminate].
  injection Hfn as <- <-. simpl. repeat split; [exact Hact|].
  intros Hnone. unfold Guards.jwt_required_custom.
  destruct (Guards.user_get users (Voter.id voter)) as [u|] eqn:Hu; [|reflexivity].
  unfold Guards.user_get in Hu. apply find_some in Hu as [Hin Hid].
  apply Z.eqb_eq in Hid. now rewrite (Hnone u Hin Hid).
Qed.

(* Ada, voter 1, logs in; among users whose only active row has id 1 her
   token would pass, with no user at all it does not *)
Lemma voter_token_is_looked_up_among_users_witness :
  Guards.jwt_required_custom [] 1 (fun u => Ok 200 (User.name u))
  = Err 401 "Invalid or deactivated user".
Proof.
  refine (proj2 (proj2 (proj2 (proj2
            (voter_token_is_looked_up_among_users Demo.db_one_voter
               (Some Samples.login_body)
               (Auth.mk_token 1 "voter" "0xAbC")
               (Voter.mk 1 "Ada" "0x5eed" "0xAbC" 4 true (Some "0xfeed") true 50)
               [] (fun u => Ok 200 (User.name u)) eq_refl)))) _).
  intros u [].
Defined.

(* the receipts of 0xabc, asked for as " 0XABC " *)
Lemma voter_vote_history_lists_the_receipts_witness :
  VoterRoutes.voter_vote_history Demo.db_revealed " 0XABC "
  = VoterRoutes.voter_vote_history Demo.db_revealed "0xabc".
Proof.
  destruct (voter_vote_history_lists_the_receipts Demo.db_revealed "0xabc")
    as (rows & Hrows & _ & _ & _ & Hsame).
  rewrite Hrows. apply Hsame. reflexivity.
Defined.

(* --------------------------------------------------------------------- *)
(* create_election: the candidate rows                                    *)
(* --------------------------------------------------------------------- *)

Lemma candidate_row_Some now election_id id c cand :
  Elections.candidate_row now election_id id c = Some cand ->
  exists kv,
    c = JObj kv
    /\ obj_get kv "name" ≫= bind_text_required = Some (Candidate.name cand)
    /\ bind_text (default (JStr "Independent") (obj_get kv "party"))
       = Some (Candidate.party cand)
    /\ bind_text (default (JStr "") (obj_get kv "description"))
       = Some (Candidate.description cand)
    /\ Candidate.election_id cand = election_id
    /\ Candidate.onchain_id cand = None
    /\ Candidate.id cand = id.
Proof.
  unfold Elections.candidate_row. destruct c as [| | | | |kv]; try discriminate.
  intros Hc. exists kv.
  destruct (obj_get kv "name" ≫= bind_text_required) as [nm|]; simpl in Hc; [|discriminate].
  destruct (bind_text (default (JStr "Independent") (obj_get kv "party"))) as [pt|];
    simpl in Hc; [|discriminate].
  destruct (bind_text (default (JStr "") (obj_get kv "description"))) as [ds|];
    simpl in Hc; [|discriminate].
  injection Hc as <-. simpl. repeat split.
Qed.

Lemma candidate_row_None now election_id id c :
  Elections.candidate_row now election_id id c = None <->
  (forall kv, c = JObj kv ->
     obj_get kv "name" ≫= bind_text_required = None
     \/ bind_text (default (JStr "Independent") (obj_get kv "party")) = None
     \/ bind_text (default (JStr "") (obj_get kv "description")) = None).
Proof.
  unfold Elections.candidate_row. split.
  - intros Hc kv ->.
    destruct (obj_get kv "name" ≫= bind_text_required); [|now left].
    destruct (bind_text (default (JStr "Independent") (obj_get kv "party")));
      [|right; now left].
    destruct (bind_text (default (JStr "") (obj_get kv "description")));
      [discriminate|right; now right].
  - intros Hbad. destruct c as [| | | | |kv]; try reflexivity.
    destruct (Hbad kv eq_refl) as [->|[H|H]]; [reflexivity| |].
    + destruct (obj_get kv "name" ≫= bind_text_required); [|reflexivity]. simpl.
      now rewrite H.
    + destruct (obj_get kv "name" ≫= bind_text_required); [|reflexivity]. simpl.
      destruct (bind_text (default (JStr "Independent") (obj_get kv "party")));
        [|reflexivity].
      simpl. now rewrite H.
Qed.

(** X20: the loop of create_election over data["candidates"] makes one
    Candidate row per item, in the order of the request: the k-th row has
    the k-th item's name, the item's party ("Independent" when the item
    has no such key, NULL when the key is null), its description (the
    empty string when the item has no such key, NULL when it is null), the
    new election's id, no on-chain id, and the k-th key after
    next_candidate_id (keys are consecutive).  The loop, with the write of
    its rows, raises exactly when some item is not an object, or has no
    "name" or one that cannot be stored in the NOT NULL column (null, an
    array, an object), or has a party or a description that is an array
    or an object. *)
Theorem candidate_rows_follow_the_request
    (now election_id : Z) (items : list json) :
  forall first,
  (forall cands,
      Elections.candidate_rows now election_id first items = Some cands ->
      List.length cands = List.length items
      /\ forall k item cand,
           items !! k = Some item -> cands !! k = Some cand ->
           exists kv,
             item = JObj kv
             /\ obj_get kv "name" ≫= bind_text_required = Some (Candidate.name cand)
             /\ bind_text (default (JStr "Independent") (obj_get kv "party"))
                = Some (Candidate.party cand)
             /\ bind_text (default (JStr "") (obj_get kv "description"))
                = Some (Candidate.description cand)
             /\ Candidate.election_id cand = election_id
             /\ Candidate.onchain_id cand = None
             /\ Candidate.id cand = (first + Z.of_nat k)%Z)
  /\ (Elections.candidate_rows now election_id first items = None <->
      exists item,
        In item items
        /\ forall kv, item = JObj kv ->
             obj_get kv "name" ≫= bind_text_required = None
             \/ bind_text (default (JStr "Independent") (obj_get kv "party")) = None
             \/ bind_text (default (JStr "") (obj_get kv "description")) = None).
Proof.
  induction items as [|c items IH]; intros first; simpl.
  - split.
    + intros cands [= <-]. split; [reflexivity|]. intros k item cand Hk. discriminate.
    + split; [discriminate|intros (item & [] & _)].
  - destruct (IH (first + 1)%Z) as [IHok IHbad]. split.
    + intros cands.
      destruct (Elections.candidate_row now election_id first c) as [cand0|] eqn:Hc;
        simpl; [|discriminate].
      destruct (Elections.candidate_rows now election_id (first + 1)%Z items) as [rows|];
        simpl; [|discriminate].
      intros [= <-]. destruct (IHok rows eq_refl) as [Hlen Hrows].
      split; [simpl; now rewrite Hlen|].
      intros [|k] item cand; simpl.
      * intros [= <-] [= <-].
        destruct (candidate_row_Some _ _ _ _ _ Hc) as (kv & ? & ? & ? & ? & ? & ? & ?).
        exists kv. repeat split; auto. lia.
      * intros Hi Hcand. destruct (Hrows k item cand Hi Hcand) as (kv & Hrest).
        exists kv. destruct Hrest as (? & ? & ? & ? & ? & ? & Hid).
        repeat split; auto. lia.
    + split.
      * destruct (Elections.candidate_row now election_id first c) as [cand0|] eqn:Hc;
          simpl.
        -- destruct (Elections.candidate_rows now election_id (first + 1)%Z items)
             as [rows|] eqn:Hrows; simpl; [discriminate|].
           intros _. destruct (proj1 IHbad eq_refl) as (item & Hin & Hbad).
           exists item. split; [now right|exact Hbad].
        -- intros _. exists c. split; [now left|].
           now apply (candidate_row_None now election_id first c).
      * intros (item & [<-|Hin] & Hbad).
        -- now rewrite (proj2 (candidate_row_None now election_id first c) Hbad).
        -- destruct (Elections.candidate_row now election_id first c); simpl; [|reflexivity].
           rewrite (proj2 IHbad); [reflexivity|]. eauto.
Qed.

(* a candidate whose party is null is stored with party NULL; an item
   without "name" after a good one makes the loop raise *)
Lemma candidate_rows_follow_the_request_witness :
  (exists kv,
      JObj [("name", JStr "B"); ("party", JNull)] = JObj kv
      /\ obj_get kv "name" ≫= bind_text_required = Some "B"
      /\ bind_text (default (JStr "Independent") (obj_get kv "party")) = Some None
      /\ bind_text (default (JStr "") (obj_get kv "description")) = Some (Some "")
      /\ 1%Z = 1%Z
      /\ @None Z = None
      /\ 2%Z = (1 + Z.of_nat 1)%Z)
  /\ Elections.candidate_rows 100 1 1
       [Demo.candidate "A" "Red"; JObj [("party", JStr "Blue")]] = None.
Proof.
  split.
  - apply (proj2 (proj1 (candidate_rows_follow_the_request 100 1
                           [Demo.candidate "A" "Red";
                            JObj [("name", JStr "B"); ("party", JNull)]] 1)
                    [Candidate.mk 1 1 None "A" (Some "Red") (Some "") 100;
                     Candidate.mk 2 1 None "B" None (Some "") 100] eq_refl)
             1%nat (JObj [("name", JStr "B"); ("party", JNull)])
             (Candidate.mk 2 1 None "B" None (Some "") 100) eq_refl eq_refl).
  - apply (proj2 (proj2 (candidate_rows_follow_the_request 100 1
                           [Demo.candidate "A" "Red"; JObj [("party", JStr "Blue")]] 1))).
    exists (JObj [("party", JStr "Blue")]). split; [right; left; reflexivity|].
    intros kv [= <-]. left. reflexivity.
Defined.

(* --------------------------------------------------------------------- *)
(* The receiptId of a commit                                              *)
(* --------------------------------------------------------------------- *)
Lemma record_commit_success now db j db' code data :
  Blockchain.record_commit now db j = (db', Success code data) ->
  exists meta,
    db' = Blockchain.add_vote db meta
    /\ data = ReceiptId (VoteMetadata.id meta)
    /\ VoteMetadata.id meta = next_vote_id db
    /\ VoteMetadata.phase meta = Committed
    /\ VoteMetadata.committed_at meta = now
    /\ VoteMetadata.revealed_at meta = None
    /\ vote_by_pair db (VoteMetadata.election_id meta) (VoteMetadata.voter_address meta) = None.
Proof.
  unfold Blockchain.record_commit.
  destruct (validate_json_cases ["ballotAddress"; "commitHash"]
              (fun db data => unhandled db (Blockchain.record_commit_fn now db data)) db j)
    as [[msg ->]|(body & _ & _ & ->)]; [discriminate|].
  unfold Blockchain.record_commit_fn.
  destruct (body !! "ballotAddress") as [ba|]; simpl; [|discriminate].
  destruct (body !! "commitHash") as [ch|]; simpl; [|discriminate].
  destruct (as_str (default (JStr "") (body !! "voterAddress"))) as [v|]; simpl; [|discriminate].
  destruct (election_filter_by_ballot db ba) as [[e|]|]; simpl; [|discriminate|discriminate].
  destruct (vote_by_pair db (Election.id e) (Py.lower (Py.strip v))) eqn:Hv;
    simpl; [discriminate|].
  destruct (bind_text_required ch) as [h|]; simpl; [|discriminate].
  destruct (bind_text (default JNull (body !! "txHash"))) as [tx|]; simpl; [|discriminate].
  intros [= <- <- <-]. eexists. repeat split. exact Hv.
Qed.

(** X21: the receiptId of a successful record_commit names one receipt.
    In every store the handlers reach from the empty one the ids of the
    receipts are distinct, and a commit answered with a receiptId has
    stored a row with that id, in phase committed, committed at the time of
    the request and not revealed; no receipt had that id before, and the
    ids are still distinct afterwards. *)
Theorem receipt_id_names_one_receipt
    (env : Platform.t) (reqs : list request)
    (now : Z) (j : option body) (code : nat) (data : reply) :
  let db := run env empty_db reqs in
  let db' := (Blockchain.record_commit now db j).1 in
  NoDup (map VoteMetadata.id (votes_metadata db))
  /\ ((Blockchain.record_commit now db j).2 = Success code data ->
      exists meta,
        data = ReceiptId (VoteMetadata.id meta)
        /\ In meta (votes_metadata db')
        /\ ~ In (VoteMetadata.id meta) (map VoteMetadata.id (votes_metadata db))
        /\ VoteMetadata.phase meta = Committed
        /\ VoteMetadata.committed_at meta = now
        /\ VoteMetadata.revealed_at meta = None
        /\ NoDup (map VoteMetadata.id (votes_metadata db'))).
Proof.
  intros db db'.
  assert (Hpk : primary_keys db) by apply primary_keys_run, primary_keys_empty.
  assert (Hpk' : primary_keys db').
  { apply (primary_keys_effect db); [exact Hpk|].
    apply (handle_effect env db (PostVoteCommit now j)). }
  split; [apply Hpk|]. intros Hres.
  assert (Hrc : Blockchain.record_commit now db j = (db', Success code data)).
  { unfold db'. rewrite <- Hres. now destruct (Blockchain.record_commit now db j). }
  destruct (record_commit_success now db j db' code data Hrc)
    as (meta & Hd & Hdata & Hid & Hph & Hat & Hrev & _).
  exists meta. repeat split; auto.
  - rewrite Hd. simpl. apply in_or_app. right. now left.
  - destruct Hpk as (_ & _ & _ & Hbound). eapply fresh_key_not_in; eauto.
  - apply Hpk'.
Qed.

(* the first commit of the demo gets receipt 1 *)
Lemma receipt_id_names_one_receipt_witness :
  exists meta,
    ReceiptId 1 = ReceiptId (VoteMetadata.id meta)
    /\ In meta (votes_metadata Demo.db_committed)
    /\ VoteMetadata.phase meta = Committed
    /\ VoteMetadata.committed_at meta = 200%Z.
Proof.
  pose proof (proj2 (receipt_id_names_one_receipt Demo.env
                       [PostElection 100 1 (Demo.ledger_up false) (Some Demo.election_body)]
                       200 (Some Demo.commit_body) 200 (ReceiptId 1))) as H.
  destruct H as (meta & Hdata & Hin & _ & Hph & Hat & _); [vm_compute; reflexivity|].
  exists meta. split; [exact Hdata|]. split; [exact Hin|]. split; [exact Hph|exact Hat].
Defined.
